(** * The Google provider of bolt.diy: [app/lib/modules/llm/providers/google.ts]

    A shallow embedding of the class [GoogleProvider] and the properties of
    its static catalog, of [getDynamicModels] and of [getModelInstance].

    JavaScript values are embedded as the type [JS.value].  JSON numbers are
    integers: the token limits the code computes with are integers, and on
    safe integers (magnitude below 2^53) the comparisons, [Math.min],
    [Math.floor] of a quotient and the decimal rendering used by the code are
    exact.  A value of another kind in a place where the code does arithmetic
    is coerced by the JavaScript runtime; the embedding does not follow these
    coercions and answers [Unmodelled] there.

    The module [Untyped] embeds [getDynamicModels] a second time, on values
    whose numbers are the runtime's ([Runtime.value], [Number.t]) and with
    every coercion of lines 77-105 followed; it never answers [Unmodelled].
    The properties that hold whatever the entries of the listing hold are
    proved of it, and on listings of well-formed entries the two embeddings
    return the same models (section [Agreement]). *)

From Stdlib Require Import ZArith QArith Qround String Ascii List Bool Lia DecimalString.
From stdpp Require Import base option strings gmap.

Import ListNotations.
Set Warnings "-register-all".
Local Open Scope string_scope.
Local Open Scope Z_scope.

(** ** JavaScript values and the built-ins the provider uses *)

Module JS.

(** A value as [JSON.parse] or a property read yields it.  An object is the
    list of its own properties in enumeration order, each key once. *)
Inductive value : Type :=
  | Undefined
  | Null
  | Bool (b : bool)
  | Num (n : Z)
  | Str (s : string)
  | Arr (xs : list value)
  | Obj (props : list (string * value)).

(** What a [throw] carries: line 46 throws a string, lines 60, 72 and 125 an
    [Error]; the runtime raises [TypeError] and [SyntaxError]; a rejected
    [fetch] promise carries the runtime's reason. *)
Inductive exn : Type :=
  | ThrownString (s : string)
  | Error (message : string)
  | TypeError
  | SyntaxError
  | FetchRejected (reason : string).

Inductive outcome (A : Type) : Type :=
  | Returns (a : A)
  | Throws (e : exn)
  | Unmodelled.

Arguments Returns {A} a.
Arguments Throws {A} e.
Arguments Unmodelled {A}.

Definition bind {A B : Type} (m : outcome A) (k : A -> outcome B) : outcome B :=
  match m with
  | Returns a => k a
  | Throws e => Throws e
  | Unmodelled => Unmodelled
  end.

(** [ToBoolean]. *)
Definition truthy (v : value) : bool :=
  match v with
  | Undefined | Null => false
  | Bool b => b
  | Num n => negb (n =? 0)
  | Str s => negb (String.eqb s "")
  | Arr _ | Obj _ => true
  end.

Definition typeof (v : value) : string :=
  match v with
  | Undefined => "undefined"
  | Bool _ => "boolean"
  | Num _ => "number"
  | Str _ => "string"
  | Null | Arr _ | Obj _ => "object"
  end.

Definition isArray (v : value) : bool :=
  match v with Arr _ => true | _ => false end.

Fixpoint lookup_prop (k : string) (props : list (string * value)) : option value :=
  match props with
  | [] => None
  | (k', v) :: rest => if String.eqb k k' then Some v else lookup_prop k rest
  end.

(** [v.k] for the property names the provider reads ([models], [name],
    [displayName], [inputTokenLimit], [outputTokenLimit],
    [systemInstruction]): none of them is defined on a prototype, so the read
    finds an own property of an object or nothing. *)
Definition get (k : string) (v : value) : outcome value :=
  match v with
  | Undefined | Null => Throws TypeError
  | Obj props => Returns (default Undefined (lookup_prop k props))
  | Bool _ | Num _ | Str _ | Arr _ => Returns Undefined
  end.

(** [k in v], for the same property names, on a value whose [typeof] is
    ["object"] and that is not [null]. *)
Definition has_in (k : string) (v : value) : outcome bool :=
  match v with
  | Obj props => Returns (bool_decide (is_Some (lookup_prop k props)))
  | Arr _ => Returns false
  | _ => Throws TypeError
  end.

(** [o.k = x] on an object: an existing property keeps its place. *)
Fixpoint set_prop (k : string) (x : value) (props : list (string * value))
  : list (string * value) :=
  match props with
  | [] => [(k, x)]
  | (k', v) :: rest =>
      if String.eqb k k' then (k', x) :: rest else (k', v) :: set_prop k x rest
  end.

(** [delete o.k]. *)
Definition delete_prop (k : string) (props : list (string * value))
  : list (string * value) :=
  List.filter (fun kv => negb (String.eqb k (fst kv))) props.

(** [String.prototype.includes]. *)
Fixpoint str_includes (s t : string) : bool :=
  String.prefix t s ||
  match s with
  | EmptyString => false
  | String _ s' => str_includes s' t
  end.

Fixpoint drop_chars (n : nat) (s : string) : string :=
  match n, s with
  | O, _ => s
  | S n', String _ s' => drop_chars n' s'
  | S _, EmptyString => EmptyString
  end.

(** [s.replace(pat, rep)] with a string pattern: the first occurrence only.
    The replacement the provider passes is the empty string, which has no
    [$] patterns. *)
Fixpoint str_replace (pat rep s : string) : string :=
  if String.prefix pat s then rep ++ drop_chars (String.length pat) s
  else match s with
       | EmptyString => EmptyString
       | String c s' => String c (str_replace pat rep s')
       end.

Definition is_str (t : string) (v : value) : bool :=
  match v with Str s => String.eqb s t | _ => false end.

(** [v.includes(t)]: strings search a substring, arrays search an element
    ([SameValueZero] with the string [t]); [undefined] and [null] have no
    properties and the other values no [includes] method. *)
Definition includes (v : value) (t : string) : outcome bool :=
  match v with
  | Str s => Returns (str_includes s t)
  | Arr xs => Returns (existsb (is_str t) xs)
  | _ => Throws TypeError
  end.

(** [v.replace(pat, rep)]: only strings have the method. *)
Definition replace (v : value) (pat rep : string) : outcome string :=
  match v with
  | Str s => Returns (str_replace pat rep s)
  | _ => Throws TypeError
  end.

(** The character that opens and closes a string literal. *)
Definition double_quote : ascii := "034"%char.

Definition MAX_SAFE_INTEGER : Z := 9007199254740991.

Definition safe_integer (n : Z) : bool := Z.abs n <=? MAX_SAFE_INTEGER.

(** [v || d] where the code goes on to compute with the result as a number.
    A falsy [v] gives [d]; a truthy number gives itself. *)
Definition or_number (v : value) (d : Z) : outcome Z :=
  if truthy v then
    match v with
    | Num n => if safe_integer n then Returns n else Unmodelled
    | _ => Unmodelled
    end
  else Returns d.

(** [Number.prototype.toString] on an integer. *)
Definition string_of_Z (n : Z) : string := NilZero.string_of_int (Z.to_int n).

(** [ToString] as a template literal applies it.  Arrays and objects go
    through their [toString] method, which the embedding does not follow. *)
Definition to_string (v : value) : outcome string :=
  match v with
  | Undefined => Returns "undefined"
  | Null => Returns "null"
  | Bool true => Returns "true"
  | Bool false => Returns "false"
  | Num n => if safe_integer n then Returns (string_of_Z n) else Unmodelled
  | Str s => Returns s
  | Arr _ | Obj _ => Unmodelled
  end.

(** [Array.prototype.filter] and [map] with a callback that may throw: the
    elements are visited in order and the first exception ends the call. *)
Fixpoint filterM {A : Type} (f : A -> outcome bool) (xs : list A) : outcome (list A) :=
  match xs with
  | [] => Returns []
  | x :: rest =>
      bind (f x) (fun keep =>
      bind (filterM f rest) (fun kept =>
      Returns (if keep then x :: kept else kept)))
  end.

Fixpoint mapM {A B : Type} (f : A -> outcome B) (xs : list A) : outcome (list B) :=
  match xs with
  | [] => Returns []
  | x :: rest =>
      bind (f x) (fun y =>
      bind (mapM f rest) (fun ys =>
      Returns (y :: ys)))
  end.

End JS.

(** ** The provider class *)

Module ModelInfo.

(** [ModelInfo] of [~/lib/modules/llm/types], with the fields the provider
    fills in. *)
Record t : Type := make {
  name : string;
  label : string;
  provider : string;
  maxTokenAllowed : Z;
  maxCompletionTokens : Z;
}.

End ModelInfo.

Module BaseProvider.

(** The argument and the result of [getProviderBaseUrlAndKey], the helper the
    class inherits from [BaseProvider]; the fields are those of the two call
    sites (lines 37-43 and 116-122). *)
Record options (IProviderSetting : Type) : Type := {
  apiKeys : option (gmap string string);
  providerSettings : option IProviderSetting;
  serverEnv : option (gmap string string);
  defaultBaseUrlKey : string;
  defaultApiTokenKey : string;
}.

Arguments apiKeys {IProviderSetting} _.
Arguments providerSettings {IProviderSetting} _.
Arguments serverEnv {IProviderSetting} _.
Arguments defaultBaseUrlKey {IProviderSetting} _.
Arguments defaultApiTokenKey {IProviderSetting} _.

Record result : Type := {
  baseUrl : option string;
  apiKey : option string;
}.

End BaseProvider.

Module SDK.

(** The settings [createGoogleGenerativeAI] is called with (line 133). *)
Record settings : Type := {
  apiKey : string;
  baseUrl : string;
}.

(** [RequestInit], as far as the patched [fetch] looks at it. *)
Inductive BodyInit : Type :=
  | BodyAbsent
  | BodyString (s : string)
  | BodyBytes (bytes : list Byte.byte).

Record RequestInit : Type := {
  method : option string;
  headers : list (string * string);
  body : BodyInit;
}.

(** [opts.body = b]. *)
Definition set_body (b : BodyInit) (opts : RequestInit) : RequestInit :=
  {| method := method opts; headers := headers opts; body := b |}.

(** The console: the arguments of each [console.warn]. *)
Definition console : Type := list (string * JS.exn).

(** A [fetch] function: from the URL and the options to the promise's
    outcome, a response of type [R] or a rejection. *)
Definition Fetch (R : Type) : Type :=
  string -> option RequestInit -> console -> JS.outcome R * console.

(** The model object [google(model)] returns: [config.fetch] and, opaque to
    the provider, everything else. *)
Record ModelInstance (R Handle : Type) : Type := {
  handle : Handle;
  config_fetch : option (Fetch R);
}.

Arguments handle {R Handle} _.
Arguments config_fetch {R Handle} _.

End SDK.

Module GoogleProvider.

Import JS.

Record Config : Type := { apiTokenKey : string }.

(** The fields of a [GoogleProvider] object. *)
Record t : Type := {
  name : string;
  getApiKeyLink : string;
  config : Config;
  staticModels : list ModelInfo.t;
}.

(** The object as the field initialisers of the class build it (lines 8-30). *)
Definition new : t := {|
  name := "Google";
  getApiKeyLink := "https://aistudio.google.com/app/apikey";
  config := {| apiTokenKey := "GOOGLE_GENERATIVE_AI_API_KEY" |};
  staticModels := [
    {| ModelInfo.name := "gemini-2.5-pro";
       ModelInfo.label := "Gemini 2.5 Pro";
       ModelInfo.provider := "Google";
       ModelInfo.maxTokenAllowed := 1048576;
       ModelInfo.maxCompletionTokens := 65536 |};
    {| ModelInfo.name := "gemini-2.5-flash";
       ModelInfo.label := "Gemini 2.5 Flash";
       ModelInfo.provider := "Google";
       ModelInfo.maxTokenAllowed := 1048576;
       ModelInfo.maxCompletionTokens := 65536 |}
  ];
|}.

(** What the methods can touch: the provider object they run on, and the
    network, of which the embedding keeps the requests issued so far. *)
Record request : Type := {
  req_url : string;
  req_headers : list (string * string);
}.

Record state : Type := {
  this : t;
  requests : list request;
}.

(** A response as the code observes it: [ok], [status], [statusText] and the
    value [await response.json()] yields, [None] when the body is not JSON
    and the call throws a [SyntaxError]. *)
Record Response : Type := {
  ok : bool;
  status : Z;
  statusText : string;
  json : option value;
}.

Definition await_json (response : Response) : outcome value :=
  match json response with
  | Some body => Returns body
  | None => Throws SyntaxError
  end.

(** Method bodies run in a state-and-exception monad over [state]. *)
Definition M (A : Type) : Type := state -> outcome A * state.

Definition ret {A : Type} (a : A) : M A := fun st => (Returns a, st).

Definition throw {A : Type} (e : exn) : M A := fun st => (Throws e, st).

Definition lift {A : Type} (o : outcome A) : M A := fun st => (o, st).

Definition mbind {A B : Type} (m : M A) (k : A -> M B) : M B :=
  fun st =>
    match m st with
    | (Returns a, st') => k a st'
    | (Throws e, st') => (Throws e, st')
    | (Unmodelled, st') => (Unmodelled, st')
    end.

Declare Scope method_scope.
Delimit Scope method_scope with method.
Notation "x <- m ;; k" := (mbind m (fun x => k))
  (at level 100, m at next level, right associativity) : method_scope.
Local Open Scope method_scope.

(** [this.f] for a field [f]. *)
Definition read {A : Type} (f : t -> A) : M A := fun st => (Returns (f (this st)), st).

Fixpoint filterM {A : Type} (f : A -> M bool) (xs : list A) : M (list A) :=
  match xs with
  | [] => ret []
  | x :: rest =>
      keep <- f x;;
      kept <- filterM f rest;;
      ret (if keep then x :: kept else kept)
  end.

Fixpoint mapM {A B : Type} (f : A -> M B) (xs : list A) : M (list B) :=
  match xs with
  | [] => ret []
  | x :: rest =>
      y <- f x;;
      ys <- mapM f rest;;
      ret (y :: ys)
  end.

(** A computation that only reads the provider object: the state comes back
    as it was, and the outcome depends on nothing but the object. *)
Definition reads_only {A : Type} (m : M A) : Prop :=
  forall st, snd (m st) = st /\ forall st', this st' = this st -> fst (m st') = fst (m st).

(** A computation that may use the network but leaves the provider object
    as it was and carries nothing else from one run to the next. *)
Definition keeps_provider {A : Type} (m : M A) : Prop :=
  forall st,
    this (snd (m st)) = this st
    /\ forall st', this st' = this st -> fst (m st') = fst (m st).

(** An optional string as a condition: [undefined] and the empty string are
    falsy, any other string is truthy. *)
Definition truthy_string (s : option string) : option string :=
  match s with
  | Some v => if String.eqb v "" then None else Some v
  | None => None
  end.

(** [s || d] on an optional string. *)
Definition or_string (s : option string) (d : string) : string :=
  default d (truthy_string s).

(** [serverEnv?.k]. *)
Definition env_get (serverEnv : option (gmap string string)) (k : string) : option string :=
  match serverEnv with
  | Some env => env !! k
  | None => None
  end.

Definition API_VERSION (serverEnv : option (gmap string string)) : string :=
  or_string (env_get serverEnv "GOOGLE_API_VERSION") "v1beta".

Definition BASE_URL (serverEnv : option (gmap string string)) : string :=
  or_string (env_get serverEnv "GOOGLE_BASE_URL") "https://generativelanguage.googleapis.com".

(** Line 53. *)
Definition MODELS_ENDPOINT (serverEnv : option (gmap string string)) (apiKey : string) : string :=
  BASE_URL serverEnv ++ "/" ++ API_VERSION serverEnv ++ "/models?key=" ++ apiKey.

(** Line 131. *)
Definition ENDPOINT (serverEnv : option (gmap string string)) : string :=
  BASE_URL serverEnv ++ "/" ++ API_VERSION serverEnv.

(** Lines 78-81, the callback of [filter]. *)
Definition keep (model : value) : M bool :=
  limit <- lift (get "outputTokenLimit" model);;
  n <- lift (or_number limit 0);;
  let hasGoodTokenLimit := 8000 <? n in
  name1 <- lift (get "name" model);;
  exp <- lift (includes name1 "exp");;
  isStable <- (if negb exp then ret true
               else name2 <- lift (get "name" model);;
                    lift (includes name2 "flash-exp"));;
  ret (hasGoodTokenLimit && isStable).

(** The text in the parentheses of the label, line 100. *)
Definition context_text (contextWindow : Z) : string :=
  if 1000000 <=? contextWindow
  then string_of_Z (contextWindow / 1000000) ++ "M"
  else string_of_Z (contextWindow / 1000) ++ "k".

(** Lines 85-104, the callback of [map]. *)
Definition normalize (m : value) : M ModelInfo.t :=
  name0 <- lift (get "name" m);;
  modelName <- lift (replace name0 "models/" "");;
  inputLimit <- lift (get "inputTokenLimit" m);;
  contextWindow0 <- lift (or_number inputLimit 32000);;
  let contextWindow1 :=
    if str_includes modelName "gemini-1.5-pro" then 2000000 else contextWindow0 in
  let contextWindow :=
    if str_includes modelName "gemini-1.5-flash" then 1000000 else contextWindow1 in
  outputLimit <- lift (get "outputTokenLimit" m);;
  outputTokens <- lift (or_number outputLimit 8192);;
  let completionTokens := Z.min outputTokens 128000 in
  displayName <- lift (get "displayName" m);;
  shown <- lift (to_string displayName);;
  providerName <- read name;;
  ret {| ModelInfo.name := modelName;
         ModelInfo.label := shown ++ " (" ++ context_text contextWindow ++ " context)";
         ModelInfo.provider := providerName;
         ModelInfo.maxTokenAllowed := contextWindow;
         ModelInfo.maxCompletionTokens := completionTokens |}.

(** Lines 65-73: does the body pass the shape check? *)
Definition valid_body (body : value) : outcome bool :=
  if negb (truthy body) then Returns false
  else if negb (String.eqb (typeof body) "object") then Returns false
  else
    JS.bind (has_in "models" body) (fun present =>
    if negb present then Returns false
    else
      JS.bind (get "models" body) (fun models =>
      if negb (truthy models) then Returns false
      else Returns (isArray models))).

(** The elements of an array value; the code reaches it only after
    [Array.isArray] has answered [true]. *)
Definition elements (v : value) : list value :=
  match v with Arr xs => xs | _ => [] end.

(** The state once a request has been issued. *)
Definition sent (url : string) (headers : list (string * string)) (st : state) : state :=
  {| this := this st;
     requests := (requests st ++ [{| req_url := url; req_headers := headers |}])%list |}.

(** The argument both methods pass to the inherited key resolver (lines
    37-43 and 116-122). *)
Definition key_options {IProviderSetting : Type}
    (apiKeys : option (gmap string string))
    (settings : option IProviderSetting)
    (serverEnv : option (gmap string string)) : BaseProvider.options IProviderSetting :=
  {| BaseProvider.apiKeys := apiKeys;
     BaseProvider.providerSettings := settings;
     BaseProvider.serverEnv := serverEnv;
     BaseProvider.defaultBaseUrlKey := "";
     BaseProvider.defaultApiTokenKey := "GOOGLE_GENERATIVE_AI_API_KEY" |}.

(** The headers of the model-listing request (line 56). *)
Definition listing_headers : list (string * string) :=
  [("Content-Type", "application/json")].

Section Methods.

(** [IProviderSetting] of [~/types/model]. *)
Variable IProviderSetting : Type.

(** [this.getProviderBaseUrlAndKey], inherited from [BaseProvider]: a
    function of the object and of its argument. *)
Variable getProviderBaseUrlAndKey :
  t -> BaseProvider.options IProviderSetting -> BaseProvider.result.

(** The global [fetch] as [getDynamicModels] calls it: the promise's outcome
    for a URL and headers. *)
Variable fetch : string -> list (string * string) -> outcome Response.

(** [await fetch(url, { headers })]: the request is issued, then the promise
    settles. *)
Definition await_fetch (url : string) (headers : list (string * string)) : M Response :=
  fun st => (fetch url headers, sent url headers st).

(** Lines 32-106. *)
Definition getDynamicModels
    (apiKeys : option (gmap string string))
    (settings : option IProviderSetting)
    (serverEnv : option (gmap string string)) : M (list ModelInfo.t) :=
  resolved <- read (fun self =>
      getProviderBaseUrlAndKey self (key_options apiKeys settings serverEnv));;
  match truthy_string (BaseProvider.apiKey resolved) with
  | None =>
      providerName <- read name;;
      throw (ThrownString ("Missing Api Key configuration for " ++ providerName ++ " provider"))
  | Some apiKey =>
      response <- await_fetch (MODELS_ENDPOINT serverEnv apiKey) listing_headers;;
      if negb (ok response) then
        throw (Error ("Failed to fetch models from Google API: "
                      ++ string_of_Z (status response) ++ " " ++ statusText response))
      else
        body <- lift (await_json response);;
        valid <- lift (valid_body body);;
        if negb valid then throw (Error "Invalid response format from Google API")
        else
          models <- lift (get "models" body);;
          data <- filterM keep (elements models);;
          mapM normalize data
  end.

(** *** [getModelInstance] *)

(** The outcome type of a [fetch] call made by the SDK, and the part of the
    model object the provider does not look at. *)
Variables R Handle : Type.

(** [createGoogleGenerativeAI(settings)(model)], of [@ai-sdk/google]. *)
Variable createGoogleGenerativeAI : SDK.settings -> string -> SDK.ModelInstance R Handle.

(** [globalThis.fetch] as the SDK calls it, with the options object and the
    console in view. *)
Variable globalThis_fetch : SDK.Fetch R.

(** [JSON.parse], [None] when it throws a [SyntaxError], and
    [JSON.stringify]. *)
Variable JSON_parse : string -> option value.
Variable JSON_stringify : value -> string.

(** The string literal of line 141: [systemInstruction] between double
    quotes. *)
Definition quoted_systemInstruction : string :=
  String double_quote ("systemInstruction" ++ String double_quote "").

(** [parsed.system_instruction = x; delete parsed.systemInstruction], reached
    only when [parsed.systemInstruction] is truthy, that is on an object. *)
Definition rename_systemInstruction (x : value) (parsed : value) : value :=
  match parsed with
  | Obj props =>
      Obj (delete_prop "systemInstruction" (set_prop "system_instruction" x props))
  | other => other
  end.

(** Lines 141-150, the body of the [try]: the options to forward, or what is
    thrown.  [opts.body] is assigned last, so a throw leaves [opts] as it
    was. *)
Definition patch (opts : option SDK.RequestInit) : outcome (option SDK.RequestInit) :=
  match opts with
  | None => Returns None
  | Some o =>
      match SDK.body o with
      | SDK.BodyString s =>
          if negb (String.eqb s "") && str_includes s quoted_systemInstruction then
            match JSON_parse s with
            | None => Throws SyntaxError
            | Some parsed =>
                JS.bind (get "systemInstruction" parsed) (fun instruction =>
                if truthy instruction then
                  Returns (Some (SDK.set_body
                    (SDK.BodyString (JSON_stringify (rename_systemInstruction instruction parsed)))
                    o))
                else Returns opts)
            end
          else Returns opts
      | _ => Returns opts
      end
  end.

(** Lines 139-156, the function stored in [modelInstance.config.fetch].  The
    [try] block does no arithmetic, so its outcome is never [Unmodelled]
    (lemma [patch_modelled] below). *)
Definition patched_fetch (originalFetch : SDK.Fetch R) : SDK.Fetch R :=
  fun url opts log =>
    match patch opts with
    | Returns opts' => originalFetch url opts' log
    | Throws e => originalFetch url opts (log ++ [("Google fetch patch error:", e)])%list
    | Unmodelled => (Unmodelled, log)
    end.

Record ModelOptions : Type := {
  model : string;
  serverEnv : option (gmap string string);
  apiKeys : option (gmap string string);
  providerSettings : option (gmap string IProviderSetting);
}.

(** [providerSettings?.[providerName]]. *)
Definition settings_of (options : ModelOptions) (providerName : string)
  : option IProviderSetting :=
  match providerSettings options with
  | Some byName => byName !! providerName
  | None => None
  end.

(** Lines 108-159. *)
Definition getModelInstance (options : ModelOptions) : M (SDK.ModelInstance R Handle) :=
  providerName <- read name;;
  resolved <- read (fun self =>
      getProviderBaseUrlAndKey self
        (key_options (apiKeys options) (settings_of options providerName)
                     (serverEnv options)));;
  match truthy_string (BaseProvider.apiKey resolved) with
  | None =>
      providerName' <- read name;;
      throw (Error ("Missing API key for " ++ providerName' ++ " provider"))
  | Some apiKey =>
      let google := createGoogleGenerativeAI
        {| SDK.apiKey := apiKey; SDK.baseUrl := ENDPOINT (serverEnv options) |} in
      let modelInstance := google (model options) in
      let originalFetch := default globalThis_fetch (SDK.config_fetch modelInstance) in
      ret {| SDK.handle := SDK.handle modelInstance;
             SDK.config_fetch := Some (patched_fetch originalFetch) |}
  end.

End Methods.

Arguments model {IProviderSetting} _.
Arguments serverEnv {IProviderSetting} _.
Arguments apiKeys {IProviderSetting} _.
Arguments providerSettings {IProviderSetting} _.
Arguments settings_of {IProviderSetting} _ _.
Arguments patched_fetch {R} _ _ _.

(** The key the inherited resolver finds for a call, [None] when [!apiKey]
    holds: the resolver gave [undefined] or the empty string. *)
Definition resolved_key {IProviderSetting : Type}
    (getProviderBaseUrlAndKey :
       t -> BaseProvider.options IProviderSetting -> BaseProvider.result)
    (self : t)
    (apiKeys : option (gmap string string))
    (settings : option IProviderSetting)
    (serverEnv : option (gmap string string)) : option string :=
  truthy_string
    (BaseProvider.apiKey (getProviderBaseUrlAndKey self (key_options apiKeys settings serverEnv))).

End GoogleProvider.

(** ** The listing on untyped entries

    [response.json()] is typed [any]: an entry of the listing can hold any
    JSON value in any field, and the runtime coerces what it finds where
    lines 78, 86, 96 and 100 compute.  The modules below embed
    [getDynamicModels] once more with these coercions followed: numbers are
    the runtime's, and every value has its [ToNumber] and [ToString]. *)

Module Number.

(** A JavaScript number: [NaN], a finite double, which is a rational (zero
    stands for both zeros), or an infinity. *)
Inductive t : Type :=
  | NaN
  | Finite (q : Q)
  | Infinite (positive : bool).

Definition of_Z (n : Z) : t := Finite (inject_Z n).

(** [ToBoolean] on a number. *)
Definition truthy (x : t) : bool :=
  match x with
  | NaN => false
  | Finite q => negb (Qeq_bool q (inject_Z 0))
  | Infinite _ => true
  end.

(** [a > b] on numbers. *)
Definition gt (a b : t) : bool :=
  match a, b with
  | NaN, _ | _, NaN => false
  | Finite x, Finite y => negb (Qle_bool x y)
  | Finite _, Infinite positive => negb positive
  | Infinite positive, Finite _ => positive
  | Infinite positive, Infinite positive' => positive && negb positive'
  end.

(** [a >= b] on numbers. *)
Definition ge (a b : t) : bool :=
  match a, b with
  | NaN, _ | _, NaN => false
  | Finite x, Finite y => Qle_bool y x
  | Finite _, Infinite positive => negb positive
  | Infinite positive, Finite _ => positive
  | Infinite positive, Infinite positive' => positive || negb positive'
  end.

(** [Math.min(a, b)] on numbers. *)
Definition min (a b : t) : t :=
  match a, b with
  | NaN, _ | _, NaN => NaN
  | _, _ => if gt a b then b else a
  end.

End Number.

Module Runtime.

Import JS(outcome, Returns, Throws, Unmodelled, exn, TypeError, str_includes, str_replace).

(** A value as [JSON.parse] or a property read yields it, numbers included
    as the runtime has them. *)
Inductive value : Type :=
  | Undefined
  | Null
  | Bool (b : bool)
  | Num (x : Number.t)
  | Str (s : string)
  | Arr (xs : list value)
  | Obj (props : list (string * value)).

(** [ToBoolean]. *)
Definition truthy (v : value) : bool :=
  match v with
  | Undefined | Null => false
  | Bool b => b
  | Num x => Number.truthy x
  | Str s => negb (String.eqb s "")
  | Arr _ | Obj _ => true
  end.

Definition typeof (v : value) : string :=
  match v with
  | Undefined => "undefined"
  | Bool _ => "boolean"
  | Num _ => "number"
  | Str _ => "string"
  | Null | Arr _ | Obj _ => "object"
  end.

Definition isArray (v : value) : bool :=
  match v with Arr _ => true | _ => false end.

Fixpoint lookup_prop (k : string) (props : list (string * value)) : option value :=
  match props with
  | [] => None
  | (k', v) :: rest => if String.eqb k k' then Some v else lookup_prop k rest
  end.

(** [v.k] for the property names the listing reads, none of which is
    defined on a prototype. *)
Definition get (k : string) (v : value) : outcome value :=
  match v with
  | Undefined | Null => Throws TypeError
  | Obj props => Returns (default Undefined (lookup_prop k props))
  | Bool _ | Num _ | Str _ | Arr _ => Returns Undefined
  end.

(** [k in v], on a value whose [typeof] is ["object"] and that is not
    [null]. *)
Definition has_in (k : string) (v : value) : outcome bool :=
  match v with
  | Obj props => Returns (bool_decide (is_Some (lookup_prop k props)))
  | Arr _ => Returns false
  | _ => Throws TypeError
  end.

Definition is_str (t : string) (v : value) : bool :=
  match v with Str s => String.eqb s t | _ => false end.

(** [v.includes(t)]. *)
Definition includes (v : value) (t : string) : outcome bool :=
  match v with
  | Str s => Returns (str_includes s t)
  | Arr xs => Returns (existsb (is_str t) xs)
  | _ => Throws TypeError
  end.

(** [v.replace(pat, rep)]. *)
Definition replace (v : value) (pat rep : string) : outcome string :=
  match v with
  | Str s => Returns (str_replace pat rep s)
  | _ => Throws TypeError
  end.

(** [a || b] on values. *)
Definition or (a b : value) : value := if truthy a then a else b.

(** The elements of an array value. *)
Definition elements (v : value) : list value :=
  match v with Arr xs => xs | _ => [] end.

(** A value of the embedding with integer numbers, as the runtime has
    it. *)
Fixpoint of_integers (v : JS.value) : value :=
  match v with
  | JS.Undefined => Undefined
  | JS.Null => Null
  | JS.Bool b => Bool b
  | JS.Num n => Num (Number.of_Z n)
  | JS.Str s => Str s
  | JS.Arr xs => Arr (map of_integers xs)
  | JS.Obj props => Obj (map (fun kv => let '(k, x) := kv in (k, of_integers x)) props)
  end.

Section Coercions.

(** The runtime's reading of a string as a number ([StringToNumber]: the
    numeric literal rounded to a double, [NaN] when the text is none) and
    its printing of a number ([Number::toString]). *)
Variable StringToNumber : string -> Number.t.
Variable NumberToString : Number.t -> string.

(** [ToString], [None] when it throws a [TypeError].  An array prints its
    elements joined by commas, [undefined] and [null] as the empty string.
    An object parsed from JSON has no callable property of its own: with an
    own [toString] property neither [toString] nor [valueOf] yields a
    primitive, without one [Object.prototype.toString] answers. *)
Fixpoint ToString (v : value) : option string :=
  match v with
  | Undefined => Some "undefined"
  | Null => Some "null"
  | Bool true => Some "true"
  | Bool false => Some "false"
  | Num x => Some (NumberToString x)
  | Str s => Some s
  | Arr xs =>
      (fix join (items : list value) : option string :=
         match items with
         | [] => Some ""
         | item :: rest =>
             match (match item with
                    | Undefined | Null => Some ""
                    | _ => ToString item
                    end) with
             | None => None
             | Some first =>
                 match rest with
                 | [] => Some first
                 | _ :: _ =>
                     match join rest with
                     | None => None
                     | Some others => Some (first ++ "," ++ others)
                     end
                 end
             end
         end) xs
  | Obj props =>
      match lookup_prop "toString" props with
      | Some _ => None
      | None => Some "[object Object]"
      end
  end.

(** [ToNumber], [None] when it throws a [TypeError]: an array or object is
    first made a string, as [ToPrimitive] does for either hint on values
    parsed from JSON. *)
Definition ToNumber (v : value) : option Number.t :=
  match v with
  | Undefined => Some Number.NaN
  | Null => Some (Number.of_Z 0)
  | Bool b => Some (Number.of_Z (Z.b2z b))
  | Num x => Some x
  | Str s => Some (StringToNumber s)
  | Arr _ | Obj _ => option_map StringToNumber (ToString v)
  end.

(** A coercion as a step of a computation. *)
Definition coerced {A : Type} (o : option A) : outcome A :=
  match o with
  | Some a => Returns a
  | None => Throws TypeError
  end.

End Coercions.

End Runtime.

Module Untyped.

Import JS(outcome, Returns, Throws, Unmodelled, exn, TypeError, SyntaxError, Error,
          ThrownString, str_includes, string_of_Z).
Import Runtime.
Import GoogleProvider.
Local Open Scope method_scope.

(** The object literal of lines 98-104 as the runtime builds it:
    [maxTokenAllowed] holds whatever [contextWindow] is, [maxCompletionTokens]
    the number [Math.min] returned. *)
Record ModelInfo : Type := {
  name : string;
  label : string;
  provider : string;
  maxTokenAllowed : value;
  maxCompletionTokens : Number.t;
}.

Record Response : Type := {
  ok : bool;
  status : Z;
  statusText : string;
  json : option value;
}.

Definition await_json (response : Response) : outcome value :=
  match json response with
  | Some body => Returns body
  | None => Throws SyntaxError
  end.

(** Lines 65-73. *)
Definition valid_body (body : value) : outcome bool :=
  if negb (truthy body) then Returns false
  else if negb (String.eqb (typeof body) "object") then Returns false
  else
    JS.bind (has_in "models" body) (fun present =>
    if negb present then Returns false
    else
      JS.bind (get "models" body) (fun models =>
      if negb (truthy models) then Returns false
      else Returns (isArray models))).

Section Methods.

Variable StringToNumber : string -> Number.t.
Variable NumberToString : Number.t -> string.

(** [Math.floor(x / c)] in the runtime's arithmetic. *)
Variable floor_of_quotient : Number.t -> Z -> Number.t.

Local Abbreviation ToNumber := (Runtime.ToNumber StringToNumber NumberToString).
Local Abbreviation ToString := (Runtime.ToString NumberToString).

(** Lines 78-81, the callback of [filter]. *)
Definition keep (model : value) : M bool :=
  limit <- lift (get "outputTokenLimit" model);;
  n <- lift (coerced (ToNumber (or limit (Num (Number.of_Z 0)))));;
  let hasGoodTokenLimit := Number.gt n (Number.of_Z 8000) in
  name1 <- lift (get "name" model);;
  exp <- lift (includes name1 "exp");;
  isStable <- (if negb exp then ret true
               else name2 <- lift (get "name" model);;
                    lift (includes name2 "flash-exp"));;
  ret (hasGoodTokenLimit && isStable).

(** The text in the parentheses of the label, line 100. *)
Definition context_text (contextWindow : Number.t) : string :=
  if Number.ge contextWindow (Number.of_Z 1000000)
  then NumberToString (floor_of_quotient contextWindow 1000000) ++ "M"
  else NumberToString (floor_of_quotient contextWindow 1000) ++ "k".

(** Lines 85-104, the callback of [map]. *)
Definition normalize (m : value) : M ModelInfo :=
  name0 <- lift (get "name" m);;
  modelName <- lift (replace name0 "models/" "");;
  inputLimit <- lift (get "inputTokenLimit" m);;
  let contextWindow0 := or inputLimit (Num (Number.of_Z 32000)) in
  let contextWindow1 :=
    if str_includes modelName "gemini-1.5-pro"
    then Num (Number.of_Z 2000000) else contextWindow0 in
  let contextWindow :=
    if str_includes modelName "gemini-1.5-flash"
    then Num (Number.of_Z 1000000) else contextWindow1 in
  outputLimit <- lift (get "outputTokenLimit" m);;
  outputTokens <- lift (coerced (ToNumber (or outputLimit (Num (Number.of_Z 8192)))));;
  let completionTokens := Number.min outputTokens (Number.of_Z 128000) in
  displayName <- lift (get "displayName" m);;
  shown <- lift (coerced (ToString displayName));;
  window <- lift (coerced (ToNumber contextWindow));;
  providerName <- read GoogleProvider.name;;
  ret {| name := modelName;
         label := shown ++ " (" ++ context_text window ++ " context)";
         provider := providerName;
         maxTokenAllowed := contextWindow;
         maxCompletionTokens := completionTokens |}.

Variable IProviderSetting : Type.
Variable getProviderBaseUrlAndKey :
  t -> BaseProvider.options IProviderSetting -> BaseProvider.result.
Variable fetch : string -> list (string * string) -> outcome Response.

Definition await_fetch (url : string) (headers : list (string * string)) : M Response :=
  fun st => (fetch url headers, sent url headers st).

(** Lines 32-106. *)
Definition getDynamicModels
    (apiKeys : option (gmap string string))
    (settings : option IProviderSetting)
    (serverEnv : option (gmap string string)) : M (list ModelInfo) :=
  resolved <- read (fun self =>
      getProviderBaseUrlAndKey self (key_options apiKeys settings serverEnv));;
  match truthy_string (BaseProvider.apiKey resolved) with
  | None =>
      providerName <- read GoogleProvider.name;;
      throw (ThrownString ("Missing Api Key configuration for " ++ providerName ++ " provider"))
  | Some apiKey =>
      response <- await_fetch (MODELS_ENDPOINT serverEnv apiKey) listing_headers;;
      if negb (ok response) then
        throw (Error ("Failed to fetch models from Google API: "
                      ++ string_of_Z (status response) ++ " " ++ statusText response))
      else
        body <- lift (await_json response);;
        valid <- lift (valid_body body);;
        if negb valid then throw (Error "Invalid response format from Google API")
        else
          models <- lift (get "models" body);;
          data <- filterM keep (Runtime.elements models);;
          mapM normalize data
  end.

End Methods.

(** A response and a [ModelInfo] of the embedding with integer numbers, as
    the runtime has them. *)
Definition of_integer_response (response : GoogleProvider.Response) : Response :=
  {| ok := GoogleProvider.ok response;
     status := GoogleProvider.status response;
     statusText := GoogleProvider.statusText response;
     json := option_map of_integers (GoogleProvider.json response) |}.

Definition of_integer_info (info : ModelInfo.t) : ModelInfo :=
  {| name := ModelInfo.name info;
     label := ModelInfo.label info;
     provider := ModelInfo.provider info;
     maxTokenAllowed := Num (Number.of_Z (ModelInfo.maxTokenAllowed info));
     maxCompletionTokens := Number.of_Z (ModelInfo.maxCompletionTokens info) |}.

End Untyped.

(** ** [JSON.parse] and [JSON.stringify] on a fragment of JSON

    The theorems about the patched [fetch] hold for any parser and printer.
    To run the patch on concrete requests, this module implements the two
    built-ins on the JSON texts without escape sequences, fractions and
    exponents and without array-index keys, which is where the list of
    properties of [JS.Obj] is in enumeration order. *)

Module JSON.

Import JS.

Definition is_ws (c : ascii) : bool :=
  Ascii.eqb c " " || Ascii.eqb c "009" || Ascii.eqb c "010" || Ascii.eqb c "013".

Fixpoint skip_ws (s : string) : string :=
  match s with
  | String c rest => if is_ws c then skip_ws rest else s
  | EmptyString => s
  end.

Definition is_digit (c : ascii) : bool :=
  ((48 <=? nat_of_ascii c) && (nat_of_ascii c <=? 57))%nat.

Definition digit_value (c : ascii) : Z := Z.of_nat (nat_of_ascii c) - 48.

Fixpoint all_digits (s : string) : bool :=
  match s with
  | EmptyString => true
  | String c rest => is_digit c && all_digits rest
  end.

(** The characters of a string literal after its opening quote, and the text
    after its closing quote. *)
Fixpoint read_string (s : string) : option (string * string) :=
  match s with
  | EmptyString => None
  | String c rest =>
      if Ascii.eqb c double_quote then Some (EmptyString, rest)
      else if Ascii.eqb c "\" || (nat_of_ascii c <? 32)%nat then None
      else match read_string rest with
           | Some (t, r) => Some (String c t, r)
           | None => None
           end
  end.

Fixpoint read_digits (acc : Z) (s : string) : Z * string :=
  match s with
  | String c rest => if is_digit c then read_digits (10 * acc + digit_value c) rest else (acc, s)
  | EmptyString => (acc, s)
  end.

Definition starts_fraction_or_exponent (s : string) : bool :=
  match s with
  | String c _ => Ascii.eqb c "." || Ascii.eqb c "e" || Ascii.eqb c "E"
  | EmptyString => false
  end.

Definition read_unsigned (s : string) : option (Z * string) :=
  match s with
  | String c rest =>
      if Ascii.eqb c "0" then
        match rest with
        | String c' _ => if is_digit c' then None else Some (0, rest)
        | EmptyString => Some (0, rest)
        end
      else if is_digit c then Some (read_digits 0 s)
      else None
  | EmptyString => None
  end.

Definition read_number (s : string) : option (value * string) :=
  let signed :=
    match s with
    | String c rest =>
        if Ascii.eqb c "-"
        then match read_unsigned rest with Some (n, r) => Some (- n, r) | None => None end
        else read_unsigned s
    | EmptyString => None
    end in
  match signed with
  | Some (n, r) =>
      if starts_fraction_or_exponent r || negb (safe_integer n) then None
      else Some (Num n, r)
  | None => None
  end.

Definition read_literal (s : string) : option (value * string) :=
  if String.prefix "true" s then Some (Bool true, drop_chars 4 s)
  else if String.prefix "false" s then Some (Bool false, drop_chars 5 s)
  else if String.prefix "null" s then Some (Null, drop_chars 4 s)
  else read_number s.

(** A later member with the same key wins and keeps the place of the first. *)
Definition add_member (k : string) (v : value) (later : list (string * value))
  : list (string * value) :=
  match lookup_prop k later with
  | Some v' => (k, v') :: delete_prop k later
  | None => (k, v) :: later
  end.

Fixpoint read_value (fuel : nat) (s : string) {struct fuel} : option (value * string) :=
  match fuel with
  | O => None
  | S fuel' =>
      match skip_ws s with
      | EmptyString => None
      | String c rest =>
          if Ascii.eqb c "{" then
            match skip_ws rest with
            | String "}" r => Some (Obj [], r)
            | _ => match read_members fuel' rest with
                   | Some (props, r) => Some (Obj props, r)
                   | None => None
                   end
            end
          else if Ascii.eqb c "[" then
            match skip_ws rest with
            | String "]" r => Some (Arr [], r)
            | _ => match read_elements fuel' rest with
                   | Some (xs, r) => Some (Arr xs, r)
                   | None => None
                   end
            end
          else if Ascii.eqb c double_quote then
            match read_string rest with
            | Some (t, r) => Some (Str t, r)
            | None => None
            end
          else read_literal (String c rest)
      end
  end
with read_elements (fuel : nat) (s : string) {struct fuel} : option (list value * string) :=
  match fuel with
  | O => None
  | S fuel' =>
      match read_value fuel' s with
      | Some (v, r) =>
          match skip_ws r with
          | String c r' =>
              if Ascii.eqb c "," then
                match read_elements fuel' r' with
                | Some (vs, r'') => Some (v :: vs, r'')
                | None => None
                end
              else if Ascii.eqb c "]" then Some ([v], r')
              else None
          | EmptyString => None
          end
      | None => None
      end
  end
with read_members (fuel : nat) (s : string) {struct fuel}
  : option (list (string * value) * string) :=
  match fuel with
  | O => None
  | S fuel' =>
      match skip_ws s with
      | String c r0 =>
          if Ascii.eqb c double_quote then
            match read_string r0 with
            | Some (k, r1) =>
                if all_digits k then None
                else
                  match skip_ws r1 with
                  | String ":" r2 =>
                      match read_value fuel' r2 with
                      | Some (v, r3) =>
                          match skip_ws r3 with
                          | String c3 r4 =>
                              if Ascii.eqb c3 "," then
                                match read_members fuel' r4 with
                                | Some (later, r5) => Some (add_member k v later, r5)
                                | None => None
                                end
                              else if Ascii.eqb c3 "}" then Some ([(k, v)], r4)
                              else None
                          | EmptyString => None
                          end
                      | None => None
                      end
                  | _ => None
                  end
            | None => None
            end
          else None
      | EmptyString => None
      end
  end.

Definition parse (s : string) : option value :=
  match read_value (2 * String.length s + 2) s with
  | Some (v, r) => match skip_ws r with EmptyString => Some v | _ => None end
  | None => None
  end.

Fixpoint escape (s : string) : string :=
  match s with
  | EmptyString => EmptyString
  | String c rest =>
      if Ascii.eqb c double_quote || Ascii.eqb c "\"
      then String "\" (String c (escape rest))
      else String c (escape rest)
  end.

Definition quote (s : string) : string :=
  String double_quote (escape s ++ String double_quote "").

(** Without an indent argument.  [undefined] prints as an array prints it. *)
Fixpoint stringify (v : value) : string :=
  match v with
  | Undefined | Null => "null"
  | Bool true => "true"
  | Bool false => "false"
  | Num n => string_of_Z n
  | Str s => quote s
  | Arr xs =>
      "[" ++ (fix items (l : list value) : string :=
                match l with
                | [] => ""
                | x :: rest =>
                    stringify x ++ match rest with [] => "" | _ => "," ++ items rest end
                end) xs ++ "]"
  | Obj props =>
      "{" ++ (fix members (l : list (string * value)) : string :=
                match l with
                | [] => ""
                | (k, x) :: rest =>
                    quote k ++ ":" ++ stringify x
                    ++ match rest with [] => "" | _ => "," ++ members rest end
                end) props ++ "}"
  end.

End JSON.

(** ** The claims' vocabulary

    Definitions written from the words of the specification, against which
    the embedded code is compared. *)

Module Spec.

Import JS.

(** The field [k] of an entry, [undefined] when absent. *)
Definition field (k : string) (entry : value) : value :=
  match entry with
  | Obj props => default Undefined (lookup_prop k props)
  | _ => Undefined
  end.

Definition text (v : value) : string :=
  match v with Str s => s | _ => "" end.

(** A token limit the code can compute with: a safe integer, or a falsy
    value such as an absent field. *)
Definition limit_ok (v : value) : bool :=
  match v with
  | Num n => safe_integer n
  | other => negb (truthy other)
  end.

Definition is_string (v : value) : bool :=
  match v with Str _ => true | _ => false end.

(** An entry of the model list as the API documents it: an object with a
    string [name] and [displayName], each of whose token limits is a safe
    integer or falsy (absent, for one). *)
Definition well_formed (entry : value) : bool :=
  match entry with
  | Obj _ =>
      is_string (field "name" entry)
      && is_string (field "displayName" entry)
      && limit_ok (field "inputTokenLimit" entry)
      && limit_ok (field "outputTokenLimit" entry)
  | _ => false
  end.

(** "its outputTokenLimit (0 when absent)", "inputTokenLimit (32000 when
    absent)": the limit, or [d] when the field is absent. *)
Definition limit_or_when_absent (d : Z) (v : value) : Z :=
  match v with Num n => n | _ => d end.

(** The limit, or [d] when the field is absent or zero. *)
Definition limit_or_when_falsy (d : Z) (v : value) : Z :=
  match v with Num n => if n =? 0 then d else n | _ => d end.

(** "an entry is kept if and only if its outputTokenLimit (0 when absent) is
    strictly greater than 8000 and its name either does not contain the
    substring 'exp' or contains the substring 'flash-exp'". *)
Definition passes_filter (entry : value) : bool :=
  (8000 <? limit_or_when_absent 0 (field "outputTokenLimit" entry))
  && (negb (str_includes (text (field "name" entry)) "exp")
      || str_includes (text (field "name" entry)) "flash-exp").

(** "the entry's name with the prefix 'models/' removed". *)
Definition without_prefix (p s : string) : string :=
  if String.prefix p s then drop_chars (String.length p) s else s.

(** "overridden to 2000000 when the stripped name contains 'gemini-1.5-pro'
    and to 1000000 when it contains 'gemini-1.5-flash'", the second override
    applied after the first as in the code. *)
Definition overridden (stripped : string) (limit : Z) : Z :=
  if str_includes stripped "gemini-1.5-flash" then 1000000
  else if str_includes stripped "gemini-1.5-pro" then 2000000
  else limit.

(** "the context window rendered as floor(contextWindow/1000000)+'M' when
    contextWindow is at least 1000000 and floor(contextWindow/1000)+'k'
    otherwise". *)
Definition rendered (contextWindow : Z) : string :=
  if Z_le_dec 1000000 contextWindow
  then string_of_Z (contextWindow / 1000000) ++ "M"
  else string_of_Z (contextWindow / 1000) ++ "k".

(** The [ModelInfo] that claim C2 describes, as it is worded. *)
Definition claimed_info (entry : value) : ModelInfo.t :=
  let stripped := without_prefix "models/" (text (field "name" entry)) in
  let contextWindow :=
    overridden stripped (limit_or_when_absent 32000 (field "inputTokenLimit" entry)) in
  {| ModelInfo.name := stripped;
     ModelInfo.label :=
       text (field "displayName" entry) ++ " (" ++ rendered contextWindow ++ " context)";
     ModelInfo.provider := "Google";
     ModelInfo.maxTokenAllowed := contextWindow;
     ModelInfo.maxCompletionTokens :=
       Z.min (limit_or_when_absent 8192 (field "outputTokenLimit" entry)) 128000 |}.

(** The same with the two amendments: the first occurrence of ['models/'] is
    removed wherever it stands, and an [inputTokenLimit] of zero counts as
    absent.  The provider name is that of the object the method runs on. *)
Definition normalized (provider : string) (entry : value) : ModelInfo.t :=
  let stripped := str_replace "models/" "" (text (field "name" entry)) in
  let contextWindow :=
    overridden stripped (limit_or_when_falsy 32000 (field "inputTokenLimit" entry)) in
  {| ModelInfo.name := stripped;
     ModelInfo.label :=
       text (field "displayName" entry) ++ " (" ++ rendered contextWindow ++ " context)";
     ModelInfo.provider := provider;
     ModelInfo.maxTokenAllowed := contextWindow;
     ModelInfo.maxCompletionTokens :=
       Z.min (limit_or_when_absent 8192 (field "outputTokenLimit" entry)) 128000 |}.

(** The property [k] of an untyped entry, [undefined] when absent. *)
Definition property (k : string) (entry : Runtime.value) : Runtime.value :=
  match entry with
  | Runtime.Obj props => default Runtime.Undefined (Runtime.lookup_prop k props)
  | _ => Runtime.Undefined
  end.

(** "8000 < maxCompletionTokens and maxCompletionTokens <= 128000", of a
    number of the runtime: it is finite and lies between the two. *)
Definition above_and_at_most (low high : Z) (x : Number.t) : Prop :=
  match x with
  | Number.Finite q => (inject_Z low < q)%Q /\ (q <= inject_Z high)%Q
  | _ => False
  end.

(** An untyped entry that has no name to search: anything but an object
    with a [name] property. *)
Definition nameless (entry : Runtime.value) : bool :=
  match entry with
  | Runtime.Obj props =>
      match Runtime.lookup_prop "name" props with
      | Some _ => false
      | None => true
      end
  | _ => true
  end.

(** An untyped entry the filter can look at: an object with a string [name]
    whose [outputTokenLimit] is no array and no object. *)
Definition named (entry : Runtime.value) : bool :=
  match entry with
  | Runtime.Obj _ =>
      match property "name" entry, property "outputTokenLimit" entry with
      | Runtime.Str _, (Runtime.Arr _ | Runtime.Obj _) => false
      | Runtime.Str _, _ => true
      | _, _ => false
      end
  | _ => false
  end.

(** "an object containing an array-valued models field". *)
Definition has_models_array (body : value) : Prop :=
  exists props models,
    body = Obj props /\ lookup_prop "models" props = Some (Arr models).

(** The value of an environment entry "or [d] when unset". *)
Definition or_when_unset (env : option (gmap string string)) (k d : string) : string :=
  match env with
  | Some vars => default d (vars !! k)
  | None => d
  end.

(** The value of an environment entry, or [d] when unset or empty. *)
Definition or_when_unset_or_empty (env : option (gmap string string)) (k d : string) : string :=
  match env with
  | Some vars =>
      match vars !! k with
      | Some v => if decide (v = "") then d else v
      | None => d
      end
  | None => d
  end.

(** The endpoint handed to the SDK: the base URL, ['/'] and the API version,
    each with its default. *)
Definition endpoint (env : option (gmap string string)) : string :=
  or_when_unset_or_empty env "GOOGLE_BASE_URL" "https://generativelanguage.googleapis.com"
  ++ "/" ++ or_when_unset_or_empty env "GOOGLE_API_VERSION" "v1beta".

(** "resolved from the provided apiKeys, provider settings, or server
    environment": the question put to the inherited resolver holds the
    three, the settings being those stored under the provider's name, and
    names the environment variable of the key. *)
Definition key_sources {IProviderSetting : Type}
    (apiKeys : option (gmap string string))
    (providerSettings : option (gmap string IProviderSetting))
    (providerName : string)
    (serverEnv : option (gmap string string)) : BaseProvider.options IProviderSetting :=
  {| BaseProvider.apiKeys := apiKeys;
     BaseProvider.providerSettings :=
       match providerSettings with
       | Some byName => byName !! providerName
       | None => None
       end;
     BaseProvider.serverEnv := serverEnv;
     BaseProvider.defaultBaseUrlKey := "";
     BaseProvider.defaultApiTokenKey := "GOOGLE_GENERATIVE_AI_API_KEY" |}.

(** "a key resolves": the resolver answers a key, and not the empty
    string. *)
Definition resolves (answer : BaseProvider.result) : option string :=
  match BaseProvider.apiKey answer with
  | Some k => if decide (k = "") then None else Some k
  | None => None
  end.

(** The model-listing URL as claim C7 words it. *)
Definition claimed_url (env : option (gmap string string)) (apiKey : string) : string :=
  or_when_unset env "GOOGLE_BASE_URL" "https://generativelanguage.googleapis.com"
  ++ "/" ++ or_when_unset env "GOOGLE_API_VERSION" "v1beta"
  ++ "/models?key=" ++ apiKey.

(** The same, the defaults applying to an empty variable too. *)
Definition listing_url (env : option (gmap string string)) (apiKey : string) : string :=
  or_when_unset_or_empty env "GOOGLE_BASE_URL" "https://generativelanguage.googleapis.com"
  ++ "/" ++ or_when_unset_or_empty env "GOOGLE_API_VERSION" "v1beta"
  ++ "/models?key=" ++ apiKey.

End Spec.

(** ** A small world to run the methods in *)

Module Sample.

Import JS GoogleProvider.

(** A resolver in the manner of the inherited helper: the key stored under
    the provider's name, else the environment variable named by
    [config.apiTokenKey]. *)
Definition resolver (self : t) (o : BaseProvider.options unit) : BaseProvider.result :=
  {| BaseProvider.baseUrl := None;
     BaseProvider.apiKey :=
       match truthy_string (match BaseProvider.apiKeys o with
                            | Some keys => keys !! name self
                            | None => None
                            end) with
       | Some k => Some k
       | None => env_get (BaseProvider.serverEnv o) (apiTokenKey (config self))
       end |}.

(** A network that answers every request with the response [r]. *)
Definition answering (r : Response) : string -> list (string * string) -> outcome Response :=
  fun _ _ => Returns r.

Definition ok_response (body : value) : Response :=
  {| ok := true; status := 200; statusText := "OK"; json := Some body |}.

Definition initial : state := {| this := new; requests := [] |}.

Definition keys : option (gmap string string) := Some {[ "Google" := "secret" ]}.

Definition entry (name displayName : string) (inputLimit outputLimit : Z) : value :=
  Obj [("name", Str name); ("displayName", Str displayName);
       ("inputTokenLimit", Num inputLimit); ("outputTokenLimit", Num outputLimit)].

(** A listing in the shape the API answers with: two entries pass the
    filter, three do not. *)
Definition listed : list value := [
  entry "models/gemini-2.0-flash-exp" "Gemini 2.0 Flash Experimental" 1048576 8192;
  entry "models/gemini-exp-1206" "Gemini Experimental 1206" 2097152 8192;
  entry "models/gemini-1.5-pro" "Gemini 1.5 Pro" 2000000 8192;
  entry "models/embedding-001" "Embedding 001" 2048 1;
  Obj [("name", Str "models/aqa"); ("displayName", Str "AQA")]
].

Definition listing (entries : list value) : value := Obj [("models", Arr entries)].

(** An entry without a name, whose output limit is too small to be kept. *)
Definition nameless : value :=
  Obj [("displayName", Str "Tuned"); ("outputTokenLimit", Num 4096)].

(** An entry whose [inputTokenLimit] is zero, and one whose name has
    ['models/'] elsewhere than at its start. *)
Definition zero_input : value := entry "models/gemini-pro" "Gemini Pro" 0 8192.
Definition inner_path : value := entry "tunedModels/models/custom" "Custom" 30720 8192.

(** An environment whose base URL is set to the empty string. *)
Definition empty_base_url : option (gmap string string) :=
  Some {[ "GOOGLE_BASE_URL" := "" ]}.

(** A response that is not ok, with a body all the same. *)
Definition not_found : Response :=
  {| ok := false; status := 404; statusText := "Not Found";
     json := Some (Obj [("error", Obj [("code", Num 404)])]) |}.

(** An environment whose base URL ends with a slash. *)
Definition slash_base_url : option (gmap string string) :=
  Some {[ "GOOGLE_BASE_URL" := "https://proxy.example/" ]}.

(** A stand-in for the SDK: the handle records the settings and the model
    name, and no [fetch] is configured. *)
Definition createGoogleGenerativeAI (s : SDK.settings) (m : string)
  : SDK.ModelInstance (string * option SDK.RequestInit) (SDK.settings * string) :=
  {| SDK.handle := (s, m); SDK.config_fetch := None |}.

(** A [fetch] that answers with the request it was given. *)
Definition echo : SDK.Fetch (string * option SDK.RequestInit) :=
  fun url opts log => (Returns (url, opts), log).

(** Request bodies: one with a system instruction, one whose instruction is
    [null], and a truncated text. *)
Definition instructed : value :=
  Obj [("systemInstruction", Obj [("parts", Arr [Obj [("text", Str "Be brief.")]])]);
       ("contents", Arr [Obj [("role", Str "user")]])].

Definition uninstructed : value :=
  Obj [("systemInstruction", Null); ("contents", Arr [])].

Definition truncated : string :=
  "{" ++ GoogleProvider.quoted_systemInstruction ++ ":".

Definition generate_url : string :=
  "https://generativelanguage.googleapis.com/v1beta/models/gemini-2.5-pro:generateContent".

Definition model_options : ModelOptions unit :=
  {| model := "gemini-2.5-pro";
     serverEnv := Some {[ "GOOGLE_API_VERSION" := "v1" ]};
     apiKeys := keys;
     providerSettings := None |}.

(** Options whose key is held by the environment only, and options without
    any key. *)
Definition env_options : ModelOptions unit :=
  {| model := "gemini-2.5-flash";
     serverEnv := Some {[ "GOOGLE_GENERATIVE_AI_API_KEY" := "from-env" ]};
     apiKeys := None;
     providerSettings := None |}.

Definition keyless_options : ModelOptions unit :=
  {| model := "gemini-2.5-flash";
     serverEnv := Some {[ "GOOGLE_API_VERSION" := "v1" ]};
     apiKeys := Some {[ "OpenAI" := "other" ]};
     providerSettings := None |}.

(** A resolver that takes the key from the settings it is handed, else
    answers as [resolver] does; with it a run shows which settings reach the
    resolver. *)
Definition settings_resolver (self : t) (o : BaseProvider.options string)
  : BaseProvider.result :=
  {| BaseProvider.baseUrl := None;
     BaseProvider.apiKey :=
       match truthy_string (BaseProvider.providerSettings o) with
       | Some k => Some k
       | None =>
           BaseProvider.apiKey
             (resolver self
                {| BaseProvider.apiKeys := BaseProvider.apiKeys o;
                   BaseProvider.providerSettings := None;
                   BaseProvider.serverEnv := BaseProvider.serverEnv o;
                   BaseProvider.defaultBaseUrlKey := BaseProvider.defaultBaseUrlKey o;
                   BaseProvider.defaultApiTokenKey := BaseProvider.defaultApiTokenKey o |})
       end |}.

Definition settings_options : ModelOptions string :=
  {| model := "gemini-2.5-flash";
     serverEnv := None;
     apiKeys := None;
     providerSettings := Some {[ "Google" := "from-settings"; "OpenAI" := "other" ]} |}.

(** A runtime for the examples: it reads a non-empty string of decimal
    digits as the integer written and any other text as [NaN], prints the
    integer part of a finite number in decimal, and floors the exact
    quotient.  On strings of digits and on integers below 2^53, which is all
    the examples hand to it, the runtime of JavaScript answers the same. *)
Definition StringToNumber (s : string) : Number.t :=
  if negb (String.eqb s "") && JSON.all_digits s
  then Number.of_Z (fst (JSON.read_digits 0 s))
  else Number.NaN.

Definition NumberToString (x : Number.t) : string :=
  match x with
  | Number.NaN => "NaN"
  | Number.Finite q => string_of_Z (Qfloor q)
  | Number.Infinite true => "Infinity"
  | Number.Infinite false => "-Infinity"
  end.

Definition floor_of_quotient (x : Number.t) (c : Z) : Number.t :=
  match x with
  | Number.Finite q => Number.of_Z (Qfloor (q / inject_Z c))
  | other => other
  end.

Definition untyped_answering (r : Untyped.Response)
  : string -> list (string * string) -> outcome Untyped.Response :=
  fun _ _ => Returns r.

Definition untyped_ok_response (body : Runtime.value) : Untyped.Response :=
  {| Untyped.ok := true; Untyped.status := 200; Untyped.statusText := "OK";
     Untyped.json := Some body |}.

Definition untyped_listing (entries : list Runtime.value) : Runtime.value :=
  Runtime.Obj [("models", Runtime.Arr entries)].

Definition untyped_entry (name displayName : string)
    (inputLimit outputLimit : Runtime.value) : Runtime.value :=
  Runtime.Obj [("name", Runtime.Str name); ("displayName", Runtime.Str displayName);
               ("inputTokenLimit", inputLimit); ("outputTokenLimit", outputLimit)].

(** A listing whose limits are not all integers: one entry has them as
    strings, one has its output limit inside an array, one has 131072.5 as
    its output limit; the fourth has a text that is no number and the fifth
    an experimental name. *)
Definition untyped_listed : list Runtime.value := [
  untyped_entry "models/gemini-2.0-flash" "Gemini 2.0 Flash"
    (Runtime.Str "0") (Runtime.Str "9000");
  untyped_entry "models/gemini-pro-vision" "Gemini Pro Vision"
    (Runtime.Num (Number.of_Z 12288)) (Runtime.Arr [Runtime.Num (Number.of_Z 16384)]);
  untyped_entry "models/gemini-2.5-pro" "Gemini 2.5 Pro"
    (Runtime.Num (Number.of_Z 1048576)) (Runtime.Num (Number.Finite (262145 # 2)));
  untyped_entry "models/text-bison" "Text Bison"
    (Runtime.Num (Number.of_Z 8196)) (Runtime.Str "many");
  untyped_entry "models/gemini-exp-1206" "Gemini Experimental 1206"
    (Runtime.Num (Number.of_Z 2097152)) (Runtime.Str "9000")
].

(** An untyped entry without a name, whose output limit is a string. *)
Definition untyped_nameless : Runtime.value :=
  Runtime.Obj [("displayName", Runtime.Str "Tuned");
               ("outputTokenLimit", Runtime.Str "9000")].

(** Untyped entries of the 1.5 family. *)
Definition untyped_family : list Runtime.value := [
  untyped_entry "models/gemini-1.5-flash-8b" "Gemini 1.5 Flash-8B"
    (Runtime.Str "32768") (Runtime.Num (Number.of_Z 8192));
  untyped_entry "models/gemini-1.5-pro-002" "Gemini 1.5 Pro 002"
    (Runtime.Num (Number.of_Z 0)) (Runtime.Num (Number.of_Z 8192));
  untyped_entry "models/gemini-1.5-pro-to-gemini-1.5-flash" "Bridge"
    Runtime.Null (Runtime.Num (Number.of_Z 8192))
].

Definition request_with (body : string) : SDK.RequestInit :=
  {| SDK.method := Some "POST";
     SDK.headers := [("Content-Type", "application/json")];
     SDK.body := SDK.BodyString body |}.

(** A request whose body is no string, and a body that parses to an array
    and holds the quoted key all the same. *)
Definition binary_request : SDK.RequestInit :=
  {| SDK.method := Some "POST";
     SDK.headers := [("Content-Type", "application/octet-stream")];
     SDK.body := SDK.BodyBytes [Byte.x7b; Byte.x7d] |}.

Definition listed_key : value := Arr [Str "systemInstruction"].

End Sample.

(** ** Properties of the JavaScript built-ins *)

Section Builtins.

Import JS.

(** [String.prefix] finds a text at the start of another. *)
Lemma prefix_append (t s : string) :
  String.prefix t s = true <-> exists post, s = t ++ post.
Proof.
  revert s. induction t as [|a t IH]; intros s; simpl.
  - split; [intros _; exists s; reflexivity | intros _; destruct s; reflexivity].
  - destruct s as [|b s]; simpl.
    + split; [discriminate | intros [post Hpost]; discriminate].
    + destruct (ascii_dec a b) as [->|Hne].
      * rewrite IH. split; intros [post Hpost]; exists post.
        -- simpl. rewrite Hpost. reflexivity.
        -- simpl in Hpost. injection Hpost as Hpost. exact Hpost.
      * split; [discriminate|].
        intros [post Hpost]. simpl in Hpost. injection Hpost as Hab _.
        exfalso. apply Hne. symmetry. exact Hab.
Qed.

Lemma drop_chars_append (t post : string) :
  drop_chars (String.length t) (t ++ post) = post.
Proof. induction t as [|a t IH]; simpl; [destruct post; reflexivity | exact IH]. Qed.

(** [str_includes s t] answers whether [t] occurs in [s]. *)
Lemma str_includes_occurs (s t : string) :
  str_includes s t = true <-> exists pre post, s = pre ++ t ++ post.
Proof.
  split.
  - induction s as [|c s IH]; cbn [str_includes]; rewrite orb_true_iff.
    + intros [Hprefix | Hfalse]; [| discriminate].
      apply prefix_append in Hprefix as [post Hpost]. exists "", post. exact Hpost.
    + intros [Hprefix | Hrest].
      * apply prefix_append in Hprefix as [post Hpost]. exists "", post. exact Hpost.
      * destruct (IH Hrest) as (pre & post & ->). exists (String c pre), post. reflexivity.
  - intros (pre & post & ->). induction pre as [|c pre IH].
    + assert (Hprefix : String.prefix t (t ++ post) = true)
        by (apply prefix_append; exists post; reflexivity).
      change ("" ++ t ++ post) with (t ++ post).
      destruct (t ++ post); cbn [str_includes]; rewrite Hprefix; reflexivity.
    + change (String c pre ++ t ++ post) with (String c (pre ++ t ++ post)).
      cbn [str_includes]. rewrite IH. apply orb_true_r.
Qed.

(** [str_replace] leaves a text without the pattern as it is, cuts a
    pattern that stands first, and in general replaces the occurrence before
    which no other starts. *)
Lemma str_replace_absent (pat rep s : string) :
  str_includes s pat = false -> str_replace pat rep s = s.
Proof.
  induction s as [|c s IH]; cbn [str_includes str_replace]; rewrite orb_false_iff;
    intros [Hprefix Hrest].
  - rewrite Hprefix. reflexivity.
  - rewrite Hprefix, (IH Hrest). reflexivity.
Qed.

Lemma str_replace_prefix (pat rep s : string) :
  String.prefix pat s = true ->
  str_replace pat rep s = rep ++ drop_chars (String.length pat) s.
Proof. intros Hprefix. destruct s; cbn [str_replace]; rewrite Hprefix; reflexivity. Qed.

Lemma str_replace_first (pat rep pre post : string) :
  (forall pre1 pre2, pre = pre1 ++ pre2 -> pre2 <> "" ->
                     String.prefix pat (pre2 ++ pat ++ post) = false) ->
  str_replace pat rep (pre ++ pat ++ post) = pre ++ rep ++ post.
Proof.
  induction pre as [|c pre IH]; intros Hfirst.
  - change ("" ++ pat ++ post) with (pat ++ post).
    rewrite str_replace_prefix by (apply prefix_append; exists post; reflexivity).
    rewrite drop_chars_append. reflexivity.
  - change (String c pre ++ pat ++ post) with (String c (pre ++ pat ++ post)).
    cbn [str_replace].
    change (String c (pre ++ pat ++ post)) with (String c pre ++ pat ++ post).
    rewrite (Hfirst "" (String c pre) eq_refl) by discriminate.
    rewrite IH; [reflexivity|].
    intros pre1 pre2 -> Hne. apply (Hfirst (String c pre1) pre2 eq_refl Hne).
Qed.

(** On a name that starts with the pattern, removing its first occurrence
    and removing the prefix are the same. *)
Lemma str_replace_without_prefix (p s : string) :
  String.prefix p s = true -> str_replace p "" s = Spec.without_prefix p s.
Proof.
  intros Hprefix. rewrite (str_replace_prefix p "" s Hprefix).
  unfold Spec.without_prefix. rewrite Hprefix. reflexivity.
Qed.

Lemma or_number_limit (v : value) (d : Z) :
  Spec.limit_ok v = true -> or_number v d = Returns (Spec.limit_or_when_falsy d v).
Proof.
  unfold or_number.
  destruct v as [| |b|n|s|xs|props]; simpl; try discriminate; try reflexivity.
  - destruct b; [discriminate | reflexivity].
  - intros Hsafe. rewrite Hsafe. destruct (n =? 0); reflexivity.
  - destruct (String.eqb s ""); [reflexivity | discriminate].
Qed.

Lemma limit_zero_default (v : value) :
  Spec.limit_or_when_falsy 0 v = Spec.limit_or_when_absent 0 v.
Proof.
  destruct v; simpl; try reflexivity.
  destruct (Z.eqb_spec n 0); congruence.
Qed.

Lemma limit_large_default (v : value) (d : Z) :
  8000 < Spec.limit_or_when_absent 0 v ->
  Spec.limit_or_when_falsy d v = Spec.limit_or_when_absent d v.
Proof.
  destruct v; simpl; try lia.
  intros Hn. destruct (Z.eqb_spec n 0); [lia | reflexivity].
Qed.

Lemma lookup_set_prop_eq (k : string) (x : value) (props : list (string * value)) :
  lookup_prop k (set_prop k x props) = Some x.
Proof.
  induction props as [|[k' v] rest IH]; simpl.
  - rewrite String.eqb_refl. reflexivity.
  - destruct (String.eqb_spec k k') as [->|Hne]; simpl.
    + rewrite String.eqb_refl. reflexivity.
    + destruct (String.eqb_spec k k'); [contradiction | exact IH].
Qed.

Lemma lookup_set_prop_ne (k k' : string) (x : value) (props : list (string * value)) :
  k <> k' -> lookup_prop k' (set_prop k x props) = lookup_prop k' props.
Proof.
  intros Hne. induction props as [|[k0 v] rest IH]; simpl.
  - destruct (String.eqb_spec k' k); [congruence | reflexivity].
  - destruct (String.eqb_spec k k0) as [->|Hk]; simpl.
    + destruct (String.eqb_spec k' k0); [congruence | reflexivity].
    + destruct (String.eqb_spec k' k0); [reflexivity | exact IH].
Qed.

Lemma lookup_delete_prop_eq (k : string) (props : list (string * value)) :
  lookup_prop k (delete_prop k props) = None.
Proof.
  induction props as [|[k' v] rest IH]; simpl; [reflexivity|].
  destruct (String.eqb_spec k k') as [->|Hne]; simpl; [exact IH|].
  destruct (String.eqb_spec k k'); [contradiction | exact IH].
Qed.

Lemma lookup_delete_prop_ne (k k' : string) (props : list (string * value)) :
  k <> k' -> lookup_prop k' (delete_prop k props) = lookup_prop k' props.
Proof.
  intros Hne. induction props as [|[k0 v] rest IH]; simpl; [reflexivity|].
  destruct (String.eqb_spec k k0) as [->|Hk]; simpl.
  - destruct (String.eqb_spec k' k0); [congruence | exact IH].
  - destruct (String.eqb_spec k' k0); [reflexivity | exact IH].
Qed.

(** A text that contains a non-empty text is not empty. *)
Lemma str_includes_nonempty (s t : string) :
  t <> "" -> str_includes s t = true -> String.eqb s "" = false.
Proof.
  intros Ht. destruct s as [|c s']; simpl.
  - destruct t; [contradiction | discriminate].
  - reflexivity.
Qed.

End Builtins.

(** ** The callbacks of [filter] and [map] *)

Section Callbacks.

Import JS GoogleProvider.
Local Open Scope method_scope.

Lemma field_get (k : string) (props : list (string * value)) :
  get k (Obj props) = Returns (Spec.field k (Obj props)).
Proof. reflexivity. Qed.

(** On a well-formed entry the callback of [filter] answers what the
    specification's filter answers, and leaves the state alone. *)
Lemma keep_well_formed (entry : value) (st : state) :
  Spec.well_formed entry = true ->
  keep entry st = (Returns (Spec.passes_filter entry), st).
Proof.
  destruct entry as [| | | | | |props]; try discriminate.
  unfold Spec.well_formed. rewrite !andb_true_iff.
  intros [[[Hname _] _] Hout].
  unfold keep, mbind, lift, ret. rewrite !field_get.
  rewrite (or_number_limit _ 0 Hout), limit_zero_default.
  unfold Spec.passes_filter.
  destruct (Spec.field "name" (Obj props)) as [| | | |s| |]; try discriminate.
  simpl. destruct (str_includes s "exp"); reflexivity.
Qed.

Lemma rendered_context_text (contextWindow : Z) :
  context_text contextWindow = Spec.rendered contextWindow.
Proof.
  unfold context_text, Spec.rendered.
  destruct (Z.leb_spec 1000000 contextWindow), (Z_le_dec 1000000 contextWindow);
    (reflexivity || lia).
Qed.

Lemma passes_filter_limit (entry : value) :
  Spec.passes_filter entry = true ->
  8000 < Spec.limit_or_when_absent 0 (Spec.field "outputTokenLimit" entry).
Proof.
  unfold Spec.passes_filter. rewrite andb_true_iff. intros [H _].
  apply Z.ltb_lt. exact H.
Qed.

(** On a well-formed entry that passes the filter the callback of [map]
    builds the normalized [ModelInfo]. *)
Lemma normalize_well_formed (entry : value) (st : state) :
  Spec.well_formed entry = true ->
  Spec.passes_filter entry = true ->
  normalize entry st = (Returns (Spec.normalized (name (this st)) entry), st).
Proof.
  intros Hwf Hkept.
  destruct entry as [| | | | | |props]; try discriminate.
  pose proof (passes_filter_limit _ Hkept) as Hlimit.
  revert Hwf. unfold Spec.well_formed. rewrite !andb_true_iff.
  intros [[[Hname Hshown] Hin] Hout].
  unfold normalize, mbind, lift, ret, read. rewrite !field_get.
  unfold Spec.normalized.
  destruct (Spec.field "name" (Obj props)) as [| | | |s| |]; try discriminate.
  destruct (Spec.field "displayName" (Obj props)) as [| | | |shown| |]; try discriminate.
  cbn [replace to_string Spec.text].
  rewrite (or_number_limit _ 32000 Hin), (or_number_limit _ 8192 Hout).
  rewrite (limit_large_default _ 8192 Hlimit), rendered_context_text.
  unfold Spec.overridden.
  destruct (str_includes (str_replace "models/" "" s) "gemini-1.5-flash"),
           (str_includes (str_replace "models/" "" s) "gemini-1.5-pro"); reflexivity.
Qed.

(** [filter] and [map] with callbacks that only compute. *)
Lemma filterM_computes {A : Type} (f : A -> M bool) (g : A -> bool)
    (xs : list A) (st : state) :
  Forall (fun x => f x st = (Returns (g x), st)) xs ->
  filterM f xs st = (Returns (List.filter g xs), st).
Proof.
  induction 1 as [|x rest Hx _ IH]; [reflexivity|].
  simpl. unfold mbind at 1. rewrite Hx.
  unfold mbind at 1. rewrite IH. reflexivity.
Qed.

Lemma mapM_computes {A B : Type} (f : A -> M B) (g : A -> B)
    (xs : list A) (st : state) :
  Forall (fun x => f x st = (Returns (g x), st)) xs ->
  mapM f xs st = (Returns (List.map g xs), st).
Proof.
  induction 1 as [|x rest Hx _ IH]; [reflexivity|].
  simpl. unfold mbind at 1. rewrite Hx.
  unfold mbind at 1. rewrite IH. reflexivity.
Qed.

(** The shape check of lines 65-73 always answers, and answers [true] on the
    objects with an array under [models] and on nothing else. *)
Lemma valid_body_array (body : value) :
  valid_body body = Returns true <-> Spec.has_models_array body.
Proof.
  split.
  - unfold valid_body.
    destruct body as [| |b|n|s|xs|props]; simpl; try discriminate.
    + destruct b; discriminate.
    + destruct (n =? 0); discriminate.
    + destruct (String.eqb s ""); discriminate.
    + destruct (lookup_prop "models" props) as [models|] eqn:Hlookup.
      * rewrite bool_decide_true by (eexists; reflexivity). simpl.
        destruct models; simpl; try discriminate.
        -- destruct b; discriminate.
        -- destruct (n =? 0); discriminate.
        -- destruct (negb (String.eqb s "")); discriminate.
        -- intros _. exists props, xs. split; [reflexivity | assumption].
      * rewrite bool_decide_false by (intros [? ?]; discriminate). discriminate.
  - intros (props & models & -> & Hlookup).
    unfold valid_body. simpl. rewrite Hlookup.
    rewrite bool_decide_true by (eexists; reflexivity). reflexivity.
Qed.

Lemma valid_body_total (body : value) :
  exists answer, valid_body body = Returns answer.
Proof.
  destruct body as [| |b|n|s|xs|props]; unfold valid_body; simpl; eauto.
  - destruct b; eauto.
  - destruct (n =? 0); eauto.
  - destruct (String.eqb s ""); eauto.
  - destruct (bool_decide (is_Some (lookup_prop "models" props))); simpl; eauto.
    destruct (truthy (default Undefined (lookup_prop "models" props))); simpl; eauto.
Qed.

End Callbacks.

(** ** Effects of the method bodies *)

Section Effects.

Import JS GoogleProvider.
Local Open Scope method_scope.

Lemma reads_only_ret {A : Type} (a : A) : reads_only (ret a).
Proof. intros st. split; reflexivity. Qed.

Lemma reads_only_throw {A : Type} (e : exn) : reads_only (@throw A e).
Proof. intros st. split; reflexivity. Qed.

Lemma reads_only_lift {A : Type} (o : outcome A) : reads_only (lift o).
Proof. intros st. split; reflexivity. Qed.

Lemma reads_only_read {A : Type} (f : t -> A) : reads_only (read f).
Proof. intros st. split; [reflexivity | intros st' H; simpl; rewrite H; reflexivity]. Qed.

Lemma reads_only_mbind {A B : Type} (m : M A) (k : A -> M B) :
  reads_only m -> (forall a, reads_only (k a)) -> reads_only (mbind m k).
Proof.
  intros Hm Hk st. destruct (Hm st) as [Hst Hfst]. split.
  - unfold mbind. destruct (m st) as [[a|e|] st1] eqn:E; simpl in *; subst st1;
      [apply Hk | reflexivity | reflexivity].
  - intros st' Hthis. specialize (Hfst st' Hthis).
    destruct (Hm st') as [Hst' _].
    unfold mbind.
    destruct (m st) as [o st1], (m st') as [o' st1']; simpl in *; subst.
    destruct o as [a|e|]; [| reflexivity | reflexivity].
    apply Hk. exact Hthis.
Qed.

Lemma reads_only_filterM {A : Type} (f : A -> M bool) (xs : list A) :
  (forall x, reads_only (f x)) -> reads_only (filterM f xs).
Proof.
  intros Hf. induction xs as [|x rest IH]; simpl.
  - apply reads_only_ret.
  - apply reads_only_mbind; [apply Hf | intros keep].
    apply reads_only_mbind; [exact IH | intros; apply reads_only_ret].
Qed.

Lemma reads_only_mapM {A B : Type} (f : A -> M B) (xs : list A) :
  (forall x, reads_only (f x)) -> reads_only (mapM f xs).
Proof.
  intros Hf. induction xs as [|x rest IH]; simpl.
  - apply reads_only_ret.
  - apply reads_only_mbind; [apply Hf | intros y].
    apply reads_only_mbind; [exact IH | intros; apply reads_only_ret].
Qed.

Lemma reads_only_keep (model : value) : reads_only (keep model).
Proof.
  unfold keep.
  do 4 (apply reads_only_mbind; [apply reads_only_lift | intros ?]).
  apply reads_only_mbind; [| intros isStable; apply reads_only_ret].
  match goal with |- reads_only (if ?c then _ else _) => destruct c end.
  - apply reads_only_ret.
  - apply reads_only_mbind; [apply reads_only_lift | intros name2; apply reads_only_lift].
Qed.

Lemma reads_only_normalize (m : value) : reads_only (normalize m).
Proof.
  unfold normalize.
  repeat (apply reads_only_mbind;
          [first [apply reads_only_lift | apply reads_only_read] | intros ?]).
  apply reads_only_ret.
Qed.


Lemma keeps_provider_mbind {A B : Type} (m : M A) (k : A -> M B) :
  keeps_provider m -> (forall a, keeps_provider (k a)) -> keeps_provider (mbind m k).
Proof.
  intros Hm Hk st. destruct (Hm st) as [Hst Hfst]. split.
  - unfold mbind. destruct (m st) as [[a|e|] st1] eqn:E; simpl in *;
      [| exact Hst | exact Hst].
    destruct (Hk a st1) as [Hk1 _]. congruence.
  - intros st' Hthis. specialize (Hfst st' Hthis).
    destruct (Hm st') as [Hst' _].
    unfold mbind.
    destruct (m st) as [o st1], (m st') as [o' st1']; simpl in *; subst o'.
    destruct o as [a|e|]; [| reflexivity | reflexivity].
    apply Hk. congruence.
Qed.

(** What a successful [filter] keeps made its callback answer [true], and a
    successful [map] pairs each element with what its callback returned. *)
Lemma filterM_kept {A : Type} (f : A -> M bool) (xs kept : list A) (st : state) :
  (forall x, reads_only (f x)) ->
  fst (filterM f xs st) = Returns kept ->
  Forall (fun x => fst (f x st) = Returns true) kept.
Proof.
  intros Hf. revert kept. induction xs as [|x rest IH]; simpl; intros kept.
  - intros [= <-]. constructor.
  - unfold mbind at 1. destruct (Hf x st) as [Hst _].
    destruct (f x st) as [[keep|e|] st1] eqn:Efx; simpl in Hst; subst st1; try discriminate.
    unfold mbind at 1.
    destruct (reads_only_filterM f rest Hf st) as [Hst _].
    destruct (filterM f rest st) as [[kept'|e|] st1] eqn:Erest; simpl in Hst; subst st1;
      try discriminate.
    simpl. intros [= <-]. specialize (IH kept' eq_refl).
    destruct keep; [constructor; [rewrite Efx; reflexivity | exact IH] | exact IH].
Qed.

Lemma mapM_paired {A B : Type} (f : A -> M B) (xs : list A) (ys : list B) (st : state) :
  (forall x, reads_only (f x)) ->
  fst (mapM f xs st) = Returns ys ->
  Forall2 (fun x y => fst (f x st) = Returns y) xs ys.
Proof.
  intros Hf. revert ys. induction xs as [|x rest IH]; simpl; intros ys.
  - intros [= <-]. constructor.
  - unfold mbind at 1. destruct (Hf x st) as [Hst _].
    destruct (f x st) as [[y|e|] st1] eqn:Efx; simpl in Hst; subst st1; try discriminate.
    unfold mbind at 1.
    destruct (reads_only_mapM f rest Hf st) as [Hst _].
    destruct (mapM f rest st) as [[ys'|e|] st1] eqn:Erest; simpl in Hst; subst st1;
      try discriminate.
    simpl. intros [= <-]. constructor; [rewrite Efx; reflexivity | apply IH; reflexivity].
Qed.

End Effects.

(** ** [getDynamicModels] *)

Section DynamicModels.

Import JS GoogleProvider.
Local Open Scope method_scope.

Context {IProviderSetting : Type}.
Variable getProviderBaseUrlAndKey :
  t -> BaseProvider.options IProviderSetting -> BaseProvider.result.
Variable fetch : string -> list (string * string) -> outcome Response.

Variable apiKeys : option (gmap string string).
Variable settings : option IProviderSetting.
Variable serverEnv : option (gmap string string).

Local Abbreviation run := (getDynamicModels IProviderSetting getProviderBaseUrlAndKey fetch
                   apiKeys settings serverEnv).
Local Abbreviation key_of st :=
  (resolved_key getProviderBaseUrlAndKey (this st) apiKeys settings serverEnv).

(** Without a key the method throws the string of line 46 before any
    request. *)
Lemma getDynamicModels_no_key (st : state) :
  key_of st = None ->
  run st = (Throws (ThrownString
              ("Missing Api Key configuration for " ++ name (this st) ++ " provider")), st).
Proof.
  unfold resolved_key. intros Hkey.
  unfold getDynamicModels, mbind at 1, read. rewrite Hkey. reflexivity.
Qed.

(** With a key, the request of line 55 is issued and the rest of the method
    runs on its outcome. *)
Lemma getDynamicModels_key (st : state) (k : string) :
  key_of st = Some k ->
  run st =
  (response <- lift (fetch (MODELS_ENDPOINT serverEnv k) listing_headers);;
   if negb (ok response) then
     throw (Error ("Failed to fetch models from Google API: "
                   ++ string_of_Z (status response) ++ " " ++ statusText response))
   else
     body <- lift (await_json response);;
     valid <- lift (valid_body body);;
     if negb valid then throw (Error "Invalid response format from Google API")
     else
       models <- lift (get "models" body);;
       data <- filterM keep (elements models);;
       mapM normalize data) (sent (MODELS_ENDPOINT serverEnv k) listing_headers st).
Proof.
  unfold resolved_key. intros Hkey.
  unfold getDynamicModels, mbind at 1, read. rewrite Hkey. reflexivity.
Qed.

Lemma getDynamicModels_listing (st : state) (k : string) (response : Response)
    (props : list (string * value)) (models : list value) :
  key_of st = Some k ->
  fetch (MODELS_ENDPOINT serverEnv k) listing_headers = Returns response ->
  ok response = true ->
  json response = Some (Obj props) ->
  lookup_prop "models" props = Some (Arr models) ->
  run st =
  (data <- filterM keep models;; mapM normalize data)
    (sent (MODELS_ENDPOINT serverEnv k) listing_headers st).
Proof.
  intros Hkey Hfetch Hok Hjson Hmodels.
  rewrite (getDynamicModels_key st k Hkey).
  unfold mbind at 1, lift at 1. rewrite Hfetch, Hok. cbn [negb].
  unfold mbind at 1, lift at 1, await_json. rewrite Hjson.
  assert (Hvalid : valid_body (Obj props) = Returns true).
  { apply valid_body_array. exists props, models. split; [reflexivity | assumption]. }
  unfold mbind at 1, lift at 1. rewrite Hvalid. cbn [negb].
  unfold mbind at 1, lift at 1. rewrite field_get.
  unfold Spec.field. rewrite Hmodels. reflexivity.
Qed.

Lemma filter_sublist (keep : value -> bool) (xs : list value) :
  sublist (List.filter keep xs) xs.
Proof.
  induction xs as [|x rest IH]; simpl; [constructor|].
  destruct (keep x); [apply sublist_skip | apply sublist_cons]; exact IH.
Qed.

Lemma getDynamicModels_well_formed (st : state) (k : string) (response : Response)
    (props : list (string * value)) (models : list value) :
  key_of st = Some k ->
  fetch (MODELS_ENDPOINT serverEnv k) listing_headers = Returns response ->
  ok response = true ->
  json response = Some (Obj props) ->
  lookup_prop "models" props = Some (Arr models) ->
  Forall (fun entry => Spec.well_formed entry = true) models ->
  fst (run st)
  = Returns (map (Spec.normalized (name (this st))) (List.filter Spec.passes_filter models)).
Proof.
  intros Hkey Hfetch Hok Hjson Hmodels Hwf.
  rewrite (getDynamicModels_listing st k response props models) by assumption.
  set (st1 := sent _ _ st).
  unfold mbind.
  rewrite (filterM_computes keep Spec.passes_filter).
  - rewrite (mapM_computes normalize (Spec.normalized (name (this st)))); [reflexivity|].
    apply List.Forall_forall. intros entry Hin.
    apply filter_In in Hin as [Hin Hkept].
    rewrite List.Forall_forall in Hwf.
    apply (normalize_well_formed entry st1); [apply Hwf; exact Hin | exact Hkept].
  - eapply List.Forall_impl; [| exact Hwf].
    intros entry Hentry. apply keep_well_formed. exact Hentry.
Qed.

(** The part of the method after the request only computes. *)
Lemma reads_only_listing (models : list value) :
  reads_only (data <- filterM keep models;; mapM normalize data).
Proof.
  apply reads_only_mbind.
  - apply reads_only_filterM, reads_only_keep.
  - intros data. apply reads_only_mapM, reads_only_normalize.
Qed.

Lemma reads_only_after_fetch (o : outcome Response) :
  reads_only
    (response <- lift o;;
     if negb (ok response) then
       throw (Error ("Failed to fetch models from Google API: "
                     ++ string_of_Z (status response) ++ " " ++ statusText response))
     else
       body <- lift (await_json response);;
       valid <- lift (valid_body body);;
       if negb valid then throw (Error "Invalid response format from Google API")
       else
         models <- lift (get "models" body);;
         data <- filterM keep (elements models);;
         mapM normalize data).
Proof.
  apply reads_only_mbind; [apply reads_only_lift | intros response].
  destruct (negb (ok response)); [apply reads_only_throw|].
  apply reads_only_mbind; [apply reads_only_lift | intros body].
  apply reads_only_mbind; [apply reads_only_lift | intros valid].
  destruct (negb valid); [apply reads_only_throw|].
  apply reads_only_mbind; [apply reads_only_lift | intros models].
  apply reads_only_listing.
Qed.

Lemma MODELS_ENDPOINT_listing_url (k : string) :
  MODELS_ENDPOINT serverEnv k = Spec.listing_url serverEnv k.
Proof.
  assert (Hor : forall key d,
             or_string (env_get serverEnv key) d = Spec.or_when_unset_or_empty serverEnv key d).
  { intros key d. unfold or_string, env_get, Spec.or_when_unset_or_empty, truthy_string.
    destruct serverEnv as [vars|]; [| reflexivity].
    destruct (vars !! key) as [v|]; [| reflexivity].
    destruct (String.eqb_spec v ""), (decide (v = "")); (reflexivity || contradiction). }
  unfold MODELS_ENDPOINT, Spec.listing_url, BASE_URL, API_VERSION. rewrite !Hor. reflexivity.
Qed.


(** C1, amended.  For every response body whose [models] field is an array
    of well-formed entries, [getDynamicModels] returns the normalized entries
    that pass the filter and no others: an entry is kept if and only if its
    [outputTokenLimit] (0 when absent) is strictly greater than 8000 and its
    name either does not contain ['exp'] or contains ['flash-exp']; the kept
    entries appear in their original order. *)
Theorem getDynamicModels_returns_filtered (st : state) (k : string) (response : Response)
    (props : list (string * value)) (models : list value) :
  key_of st = Some k ->
  fetch (MODELS_ENDPOINT serverEnv k) listing_headers = Returns response ->
  ok response = true ->
  json response = Some (Obj props) ->
  lookup_prop "models" props = Some (Arr models) ->
  Forall (fun entry => Spec.well_formed entry = true) models ->
  fst (run st)
  = Returns (map (Spec.normalized (name (this st))) (List.filter Spec.passes_filter models))
  /\ sublist (List.filter Spec.passes_filter models) models
  /\ (forall entry, In entry (List.filter Spec.passes_filter models)
                    <-> In entry models /\ Spec.passes_filter entry = true).
Proof.
  intros Hkey Hfetch Hok Hjson Hmodels Hwf. split; [| split].
  - exact (getDynamicModels_well_formed st k response props models
             Hkey Hfetch Hok Hjson Hmodels Hwf).
  - apply filter_sublist.
  - intros entry. apply filter_In.
Qed.

(** C2, amended.  For every listing of well-formed entries and every entry
    of it kept by the filter, [getDynamicModels] returns a [ModelInfo] whose
    name is the entry's name with the first occurrence of ['models/']
    removed, wherever it stands; whose maxTokenAllowed is the entry's
    [inputTokenLimit] (32000 when absent or zero), overridden to 2000000 when
    the stripped name contains ['gemini-1.5-pro'] and to 1000000 when it
    contains ['gemini-1.5-flash']; whose maxCompletionTokens is the minimum
    of the entry's [outputTokenLimit] (8192 when absent) and 128000; whose
    provider is ['Google']; and whose label is the entry's displayName
    followed, in parentheses and before the word [context], by the context
    window rendered with ['M'] from 1000000 on and with ['k'] below. *)
Theorem getDynamicModels_normalizes (st : state) (k : string) (response : Response)
    (props : list (string * value)) (models : list value) :
  name (this st) = "Google" ->
  key_of st = Some k ->
  fetch (MODELS_ENDPOINT serverEnv k) listing_headers = Returns response ->
  ok response = true ->
  json response = Some (Obj props) ->
  lookup_prop "models" props = Some (Arr models) ->
  Forall (fun entry => Spec.well_formed entry = true) models ->
  exists infos,
    fst (run st) = Returns infos
    /\ Forall2
         (fun entry info =>
            let stripped := str_replace "models/" "" (Spec.text (Spec.field "name" entry)) in
            let contextWindow :=
              Spec.overridden stripped
                (Spec.limit_or_when_falsy 32000 (Spec.field "inputTokenLimit" entry)) in
            ModelInfo.name info = stripped
            /\ ModelInfo.maxTokenAllowed info = contextWindow
            /\ ModelInfo.maxCompletionTokens info
               = Z.min (Spec.limit_or_when_absent 8192 (Spec.field "outputTokenLimit" entry))
                       128000
            /\ ModelInfo.provider info = "Google"
            /\ ModelInfo.label info
               = Spec.text (Spec.field "displayName" entry)
                 ++ " (" ++ Spec.rendered contextWindow ++ " context)")
         (List.filter Spec.passes_filter models) infos.
Proof.
  intros Hgoogle Hkey Hfetch Hok Hjson Hmodels Hwf.
  eexists. split.
  - exact (getDynamicModels_well_formed st k response props models
             Hkey Hfetch Hok Hjson Hmodels Hwf).
  - rewrite Hgoogle.
    induction (List.filter Spec.passes_filter models) as [|entry rest IH]; simpl;
      constructor; [| exact IH].
    repeat split; reflexivity.
Qed.

(** C4, amended.  When the request is answered and the entries of an array
    under [models] are well formed, [getDynamicModels] throws exactly when
    the resolved API key is missing, or the response is not ok, or the
    response body is not an object containing an array-valued [models]
    field; when a key resolves, the response is ok and the body has such an
    array, it returns a list. *)
Theorem getDynamicModels_throws_exactly (st : state) (response : Response) :
  (forall k, key_of st = Some k ->
             fetch (MODELS_ENDPOINT serverEnv k) listing_headers = Returns response) ->
  (forall props models,
      json response = Some (Obj props) ->
      lookup_prop "models" props = Some (Arr models) ->
      Forall (fun entry => Spec.well_formed entry = true) models) ->
  ((exists e, fst (run st) = Throws e)
   <-> key_of st = None
       \/ ok response = false
       \/ ~ (exists body, json response = Some body /\ Spec.has_models_array body))
  /\ (key_of st <> None ->
      ok response = true ->
      (exists body, json response = Some body /\ Spec.has_models_array body) ->
      exists infos, fst (run st) = Returns infos).
Proof.
  intros Hanswered Hwf.
  destruct (key_of st) as [k|] eqn:Hkey.
  2:{ rewrite (getDynamicModels_no_key st Hkey). simpl. split.
      - split; [intros _; left; reflexivity | intros _; eauto].
      - intros Hne. contradiction. }
  specialize (Hanswered k eq_refl).
  destruct (ok response) eqn:Hok.
  2:{ rewrite (getDynamicModels_key st k Hkey).
      unfold mbind at 1, lift at 1. rewrite Hanswered, Hok. simpl. split.
      - split; [intros _; right; left; reflexivity | intros _; eauto].
      - discriminate. }
  destruct (json response) as [body|] eqn:Hjson.
  2:{ rewrite (getDynamicModels_key st k Hkey).
      unfold mbind at 1, lift at 1. rewrite Hanswered, Hok. cbn [negb].
      unfold mbind at 1, lift at 1, await_json. rewrite Hjson. simpl. split.
      - split; [| intros _; eauto].
        intros _. right; right. intros (body & Hbody & _). discriminate.
      - intros _ _ (body & Hbody & _). discriminate. }
  destruct (valid_body_total body) as [[|] Hvalid].
  - apply valid_body_array in Hvalid as (props & models & -> & Hmodels).
    pose proof (getDynamicModels_well_formed st k response props models
                  Hkey Hanswered Hok Hjson Hmodels (Hwf props models eq_refl Hmodels)) as Hrun.
    rewrite Hrun. split.
    + split.
      * intros [e He]. discriminate.
      * intros [Hnone | [Hfalse | Hnot]]; try discriminate.
        exfalso. apply Hnot. exists (Obj props). split; [reflexivity|].
        exists props, models. split; [reflexivity | exact Hmodels].
    + intros _ _ _. eauto.
  - assert (Hnot : ~ Spec.has_models_array body).
    { intros Harray. apply valid_body_array in Harray. congruence. }
    rewrite (getDynamicModels_key st k Hkey).
    unfold mbind at 1, lift at 1. rewrite Hanswered, Hok. cbn [negb].
    unfold mbind at 1, lift at 1, await_json. rewrite Hjson.
    unfold mbind at 1, lift at 1. rewrite Hvalid. simpl. split.
    + split; [| intros _; eauto].
      intros _. right; right. intros (body' & [= <-] & Harray). contradiction.
    + intros _ _ (body' & [= <-] & Harray). contradiction.
Qed.

(** C7, amended.  For every API key and server environment, the
    model-listing URL queried by [getDynamicModels] is exactly the
    concatenation of [GOOGLE_BASE_URL] (or
    ['https://generativelanguage.googleapis.com'] when unset or empty),
    ['/'], [GOOGLE_API_VERSION] (or ['v1beta'] when unset or empty), and
    ['/models?key='] followed by the resolved API key; it is the only
    request, and without a key there is none. *)
Theorem getDynamicModels_queries_listing_url (st : state) :
  requests (snd (run st))
  = match key_of st with
    | Some k =>
        (requests st ++ [{| req_url := Spec.listing_url serverEnv k;
                            req_headers := [("Content-Type", "application/json")] |}])%list
    | None => requests st
    end.
Proof.
  destruct (key_of st) as [k|] eqn:Hkey.
  - rewrite (getDynamicModels_key st k Hkey).
    destruct (reads_only_after_fetch
                (fetch (MODELS_ENDPOINT serverEnv k) listing_headers)
                (sent (MODELS_ENDPOINT serverEnv k) listing_headers st)) as [-> _].
    simpl. rewrite MODELS_ENDPOINT_listing_url. reflexivity.
  - rewrite (getDynamicModels_no_key st Hkey). reflexivity.
Qed.

End DynamicModels.

(** ** [getModelInstance] and the patched [fetch] *)

Section ModelInstance.

Import JS GoogleProvider.
Local Open Scope method_scope.

Context {IProviderSetting R Handle : Type}.
Variable getProviderBaseUrlAndKey :
  t -> BaseProvider.options IProviderSetting -> BaseProvider.result.
Variable fetch : string -> list (string * string) -> outcome Response.
Variable createGoogleGenerativeAI : SDK.settings -> string -> SDK.ModelInstance R Handle.
Variable globalThis_fetch : SDK.Fetch R.
Variable JSON_parse : string -> option value.
Variable JSON_stringify : value -> string.

Local Abbreviation patch := (GoogleProvider.patch JSON_parse JSON_stringify).
Local Abbreviation patched_fetch :=
  (GoogleProvider.patched_fetch JSON_parse JSON_stringify).
Local Abbreviation getModelInstance :=
  (GoogleProvider.getModelInstance IProviderSetting getProviderBaseUrlAndKey R Handle
     createGoogleGenerativeAI globalThis_fetch JSON_parse JSON_stringify).

Lemma quoted_systemInstruction_nonempty : quoted_systemInstruction <> "".
Proof. discriminate. Qed.

(** The [try] block either yields the options to forward or throws. *)
Lemma patch_modelled (opts : option SDK.RequestInit) :
  (exists opts', patch opts = Returns opts') \/ (exists e, patch opts = Throws e).
Proof.
  unfold GoogleProvider.patch.
  destruct opts as [o|]; [| eauto].
  destruct (SDK.body o) as [| s | bytes]; eauto.
  destruct (negb (String.eqb s "") && str_includes s quoted_systemInstruction); eauto.
  destruct (JSON_parse s) as [parsed|]; eauto.
  destruct parsed; simpl; eauto.
  destruct (truthy (default Undefined (lookup_prop "systemInstruction" props))); eauto.
Qed.

(** Whatever the [try] block forwards has the method and headers of the
    request it was given. *)
Lemma patch_other_options (opts opts' : option SDK.RequestInit) :
  patch opts = Returns opts' ->
  match opts, opts' with
  | Some o, Some o' => SDK.method o' = SDK.method o /\ SDK.headers o' = SDK.headers o
  | None, None => True
  | _, _ => False
  end.
Proof.
  unfold GoogleProvider.patch.
  destruct opts as [o|]; [| intros [= <-]; exact I].
  assert (Hsame : Returns (Some o) = Returns opts' ->
                  match opts' with
                  | Some o' => SDK.method o' = SDK.method o /\ SDK.headers o' = SDK.headers o
                  | None => False
                  end).
  { intros [= <-]. split; reflexivity. }
  destruct (SDK.body o) as [| s | bytes]; try exact Hsame.
  destruct (negb (String.eqb s "") && str_includes s quoted_systemInstruction);
    try exact Hsame.
  destruct (JSON_parse s) as [parsed|]; [| discriminate].
  destruct (get "systemInstruction" parsed) as [instruction|e|]; try discriminate.
  simpl. destruct (truthy instruction); try exact Hsame.
  intros [= <-]. split; reflexivity.
Qed.

Lemma patch_renames (o : SDK.RequestInit) (s : string)
    (props : list (string * value)) (instruction : value) :
  SDK.body o = SDK.BodyString s ->
  str_includes s quoted_systemInstruction = true ->
  JSON_parse s = Some (Obj props) ->
  lookup_prop "systemInstruction" props = Some instruction ->
  truthy instruction = true ->
  patch (Some o)
  = Returns (Some (SDK.set_body
      (SDK.BodyString (JSON_stringify
         (Obj (delete_prop "systemInstruction"
                 (set_prop "system_instruction" instruction props))))) o)).
Proof.
  intros Hbody Hincl Hparse Hlookup Htruthy.
  unfold GoogleProvider.patch. rewrite Hbody, Hincl.
  rewrite (str_includes_nonempty s _ quoted_systemInstruction_nonempty Hincl).
  cbn [negb andb]. rewrite Hparse. simpl. rewrite Hlookup. simpl.
  rewrite Htruthy. reflexivity.
Qed.

Lemma patch_unchanged_falsy (o : SDK.RequestInit) (s : string)
    (props : list (string * value)) :
  SDK.body o = SDK.BodyString s ->
  JSON_parse s = Some (Obj props) ->
  truthy (Spec.field "systemInstruction" (Obj props)) = false ->
  patch (Some o) = Returns (Some o).
Proof.
  intros Hbody Hparse Hfalsy.
  unfold GoogleProvider.patch. rewrite Hbody.
  destruct (negb (String.eqb s "") && str_includes s quoted_systemInstruction);
    [| reflexivity].
  rewrite Hparse. simpl in *. rewrite Hfalsy. reflexivity.
Qed.

Lemma patch_unchanged_absent (o : SDK.RequestInit) (s : string) :
  SDK.body o = SDK.BodyString s ->
  str_includes s quoted_systemInstruction = false ->
  patch (Some o) = Returns (Some o).
Proof.
  intros Hbody Hincl.
  unfold GoogleProvider.patch. rewrite Hbody, Hincl, andb_false_r. reflexivity.
Qed.

Lemma patch_syntax_error (o : SDK.RequestInit) (s : string) :
  SDK.body o = SDK.BodyString s ->
  str_includes s quoted_systemInstruction = true ->
  JSON_parse s = None ->
  patch (Some o) = Throws SyntaxError.
Proof.
  intros Hbody Hincl Hparse.
  unfold GoogleProvider.patch. rewrite Hbody, Hincl.
  rewrite (str_includes_nonempty s _ quoted_systemInstruction_nonempty Hincl).
  cbn [negb andb]. rewrite Hparse. reflexivity.
Qed.

(** Unless the body is a text that holds the quoted key and parses to an
    object with a truthy [systemInstruction], the [try] block yields the
    options it was given, or throws. *)
Lemma patch_otherwise (opts : option SDK.RequestInit) :
  (exists o s props instruction,
      opts = Some o
      /\ SDK.body o = SDK.BodyString s
      /\ str_includes s quoted_systemInstruction = true
      /\ JSON_parse s = Some (Obj props)
      /\ lookup_prop "systemInstruction" props = Some instruction
      /\ truthy instruction = true)
  \/ patch opts = Returns opts
  \/ (exists e, patch opts = Throws e).
Proof.
  unfold GoogleProvider.patch.
  destruct opts as [o|]; [| right; left; reflexivity].
  destruct (SDK.body o) as [| s | bytes] eqn:Hbody; try (right; left; reflexivity).
  destruct (negb (String.eqb s "") && str_includes s quoted_systemInstruction) eqn:Hguard;
    [| right; left; reflexivity].
  apply andb_true_iff in Hguard as [_ Hincl].
  destruct (JSON_parse s) as [parsed|] eqn:Hparse; [| right; right; eauto].
  destruct parsed as [| | b | n | t | xs | props];
    try (right; left; reflexivity); try solve [right; right; simpl; eauto].
  simpl. destruct (lookup_prop "systemInstruction" props) as [instruction|] eqn:Hlookup;
    [| right; left; reflexivity].
  simpl. destruct (truthy instruction) eqn:Htruthy; [| right; left; reflexivity].
  left. exists o, s, props, instruction. repeat split; assumption.
Qed.

(** A body that parses to a value other than an object, [null] and
    [undefined] has no [systemInstruction]. *)
Lemma patch_unchanged_primitive (o : SDK.RequestInit) (s : string) (parsed : value) :
  SDK.body o = SDK.BodyString s ->
  JSON_parse s = Some parsed ->
  parsed <> Null -> parsed <> Undefined ->
  (forall props, parsed <> Obj props) ->
  patch (Some o) = Returns (Some o).
Proof.
  intros Hbody Hparse Hnull Hundefined Hobject.
  unfold GoogleProvider.patch. rewrite Hbody.
  destruct (negb (String.eqb s "") && str_includes s quoted_systemInstruction);
    [| reflexivity].
  rewrite Hparse.
  destruct parsed as [| | b | n | t | xs | props]; try reflexivity.
  - contradiction.
  - contradiction.
  - destruct (Hobject props eq_refl).
Qed.

(** Reading a property of [null] throws, inside the [try]. *)
Lemma patch_type_error (o : SDK.RequestInit) (s : string) :
  SDK.body o = SDK.BodyString s ->
  str_includes s quoted_systemInstruction = true ->
  JSON_parse s = Some Null ->
  patch (Some o) = Throws TypeError.
Proof.
  intros Hbody Hincl Hparse.
  unfold GoogleProvider.patch. rewrite Hbody, Hincl.
  rewrite (str_includes_nonempty s _ quoted_systemInstruction_nonempty Hincl).
  cbn [negb andb]. rewrite Hparse. reflexivity.
Qed.

Lemma patch_no_string (o : SDK.RequestInit) :
  (forall s, SDK.body o <> SDK.BodyString s) -> patch (Some o) = Returns (Some o).
Proof.
  intros Hbody. unfold GoogleProvider.patch.
  destruct (SDK.body o) as [| s | bytes]; try reflexivity.
  destruct (Hbody s eq_refl).
Qed.

(** C3, amended.  For every outgoing request whose body is a JSON text that
    contains ["systemInstruction"] in double quotes and parses to an object
    with a truthy [systemInstruction] property, the fetch function installed
    by [getModelInstance] forwards as body the JSON text of that object with
    the value stored under [system_instruction] and the original key
    deleted, every other property as it was; every other request is
    forwarded with its options, the body among them, unchanged: when the
    property is falsy or missing, when the body does not contain the quoted
    key, when there are no options or the body is absent or no string, when
    the text parses to something that is no object, and (after a logged
    warning) when the [try] block throws; in all cases the URL, the method
    and the headers are passed through unchanged. *)
Theorem patched_fetch_renames (originalFetch : SDK.Fetch R) (url : string)
    (opts : option SDK.RequestInit) (log : SDK.console) :
  (forall o s props instruction,
      opts = Some o ->
      SDK.body o = SDK.BodyString s ->
      str_includes s quoted_systemInstruction = true ->
      JSON_parse s = Some (Obj props) ->
      lookup_prop "systemInstruction" props = Some instruction ->
      truthy instruction = true ->
      exists props',
        patched_fetch originalFetch url opts log
        = originalFetch url
            (Some (SDK.set_body (SDK.BodyString (JSON_stringify (Obj props'))) o)) log
        /\ lookup_prop "system_instruction" props' = Some instruction
        /\ lookup_prop "systemInstruction" props' = None
        /\ forall k, k <> "system_instruction" -> k <> "systemInstruction" ->
                     lookup_prop k props' = lookup_prop k props)
  /\ (forall o s props,
        opts = Some o ->
        SDK.body o = SDK.BodyString s ->
        JSON_parse s = Some (Obj props) ->
        truthy (Spec.field "systemInstruction" (Obj props)) = false ->
        patched_fetch originalFetch url opts log = originalFetch url opts log)
  /\ (forall o s,
        opts = Some o ->
        SDK.body o = SDK.BodyString s ->
        str_includes s quoted_systemInstruction = false ->
        patched_fetch originalFetch url opts log = originalFetch url opts log)
  /\ (exists opts' log',
        patched_fetch originalFetch url opts log = originalFetch url opts' log'
        /\ match opts, opts' with
           | Some o, Some o' =>
               SDK.method o' = SDK.method o /\ SDK.headers o' = SDK.headers o
           | None, None => True
           | _, _ => False
           end)
  /\ (opts = None ->
      patched_fetch originalFetch url opts log = originalFetch url None log)
  /\ (forall o,
        opts = Some o ->
        (forall s, SDK.body o <> SDK.BodyString s) ->
        patched_fetch originalFetch url opts log = originalFetch url opts log)
  /\ (forall o s parsed,
        opts = Some o ->
        SDK.body o = SDK.BodyString s ->
        JSON_parse s = Some parsed ->
        parsed <> Null -> parsed <> Undefined ->
        (forall props, parsed <> Obj props) ->
        patched_fetch originalFetch url opts log = originalFetch url opts log)
  /\ (forall o s,
        opts = Some o ->
        SDK.body o = SDK.BodyString s ->
        str_includes s quoted_systemInstruction = true ->
        JSON_parse s = Some Null ->
        patched_fetch originalFetch url opts log
        = originalFetch url opts (log ++ [("Google fetch patch error:", TypeError)])%list)
  /\ (~ (exists o s props instruction,
            opts = Some o
            /\ SDK.body o = SDK.BodyString s
            /\ str_includes s quoted_systemInstruction = true
            /\ JSON_parse s = Some (Obj props)
            /\ lookup_prop "systemInstruction" props = Some instruction
            /\ truthy instruction = true) ->
      exists log',
        patched_fetch originalFetch url opts log = originalFetch url opts log'
        /\ (log' = log
            \/ exists e, log' = (log ++ [("Google fetch patch error:", e)])%list)).
Proof.
  split; [| split; [| split; [| split; [| split; [| split; [| split; [| split]]]]]]].
  - intros o s props instruction -> Hbody Hincl Hparse Hlookup Htruthy.
    exists (delete_prop "systemInstruction"
              (set_prop "system_instruction" instruction props)).
    unfold GoogleProvider.patched_fetch.
    rewrite (patch_renames o s props instruction Hbody Hincl Hparse Hlookup Htruthy).
    repeat split.
    + rewrite lookup_delete_prop_ne by discriminate. apply lookup_set_prop_eq.
    + apply lookup_delete_prop_eq.
    + intros k Hk1 Hk2.
      rewrite lookup_delete_prop_ne by congruence.
      apply lookup_set_prop_ne. congruence.
  - intros o s props -> Hbody Hparse Hfalsy.
    unfold GoogleProvider.patched_fetch.
    rewrite (patch_unchanged_falsy o s props Hbody Hparse Hfalsy). reflexivity.
  - intros o s -> Hbody Hincl.
    unfold GoogleProvider.patched_fetch.
    rewrite (patch_unchanged_absent o s Hbody Hincl). reflexivity.
  - unfold GoogleProvider.patched_fetch.
    destruct (patch_modelled opts) as [[opts' Hpatch] | [e Hpatch]]; rewrite Hpatch.
    + exists opts', log. split; [reflexivity|].
      exact (patch_other_options opts opts' Hpatch).
    + exists opts, (log ++ [("Google fetch patch error:", e)])%list.
      split; [reflexivity|]. destruct opts; [split; reflexivity | exact I].
  - intros ->. reflexivity.
  - intros o -> Hbody.
    unfold GoogleProvider.patched_fetch. rewrite (patch_no_string o Hbody). reflexivity.
  - intros o s parsed -> Hbody Hparse Hnull Hundefined Hobject.
    unfold GoogleProvider.patched_fetch.
    rewrite (patch_unchanged_primitive o s parsed Hbody Hparse Hnull Hundefined Hobject).
    reflexivity.
  - intros o s -> Hbody Hincl Hparse.
    unfold GoogleProvider.patched_fetch.
    rewrite (patch_type_error o s Hbody Hincl Hparse). reflexivity.
  - intros Hother. unfold GoogleProvider.patched_fetch.
    destruct (patch_otherwise opts) as [Hrename | [Hpatch | [e Hpatch]]].
    + contradiction.
    + rewrite Hpatch. exists log. split; [reflexivity | left; reflexivity].
    + rewrite Hpatch. exists (log ++ [("Google fetch patch error:", e)])%list.
      split; [reflexivity | right; exists e; reflexivity].
Qed.

(** C9.  The patched fetch installed by [getModelInstance] never throws
    because of the patching logic: whatever the request, its outcome is that
    of the original fetch on the same URL; and for every request whose body
    contains the substring ["systemInstruction"] but fails to parse as JSON,
    the error is caught, a warning is logged, and the request is forwarded
    to the original fetch with its body unchanged. *)
Theorem patched_fetch_catches (originalFetch : SDK.Fetch R) (url : string)
    (opts : option SDK.RequestInit) (log : SDK.console) :
  (exists opts' log',
      patched_fetch originalFetch url opts log = originalFetch url opts' log')
  /\ (forall o s,
        opts = Some o ->
        SDK.body o = SDK.BodyString s ->
        str_includes s quoted_systemInstruction = true ->
        JSON_parse s = None ->
        patched_fetch originalFetch url opts log
        = originalFetch url opts
            (log ++ [("Google fetch patch error:", SyntaxError)])%list).
Proof.
  split.
  - unfold GoogleProvider.patched_fetch.
    destruct (patch_modelled opts) as [[opts' Hpatch] | [e Hpatch]]; rewrite Hpatch; eauto.
  - intros o s -> Hbody Hincl Hparse.
    unfold GoogleProvider.patched_fetch.
    rewrite (patch_syntax_error o s Hbody Hincl Hparse). reflexivity.
Qed.

Lemma ENDPOINT_endpoint (env : option (gmap string string)) :
  ENDPOINT env = Spec.endpoint env.
Proof.
  assert (Hor : forall key d,
             or_string (env_get env key) d = Spec.or_when_unset_or_empty env key d).
  { intros key d. unfold or_string, env_get, Spec.or_when_unset_or_empty, truthy_string.
    destruct env as [vars|]; [| reflexivity].
    destruct (vars !! key) as [v|]; [| reflexivity].
    destruct (String.eqb_spec v ""), (decide (v = "")); (reflexivity || contradiction). }
  unfold ENDPOINT, Spec.endpoint, BASE_URL, API_VERSION. rewrite !Hor. reflexivity.
Qed.

Lemma getModelInstance_run (options : ModelOptions IProviderSetting) (st : state) :
  getModelInstance options st
  = (match resolved_key getProviderBaseUrlAndKey (this st)
             (GoogleProvider.apiKeys options)
             (settings_of options (name (this st)))
             (GoogleProvider.serverEnv options) with
     | None => Throws (Error ("Missing API key for " ++ name (this st) ++ " provider"))
     | Some k =>
         let created :=
           createGoogleGenerativeAI
             {| SDK.apiKey := k;
                SDK.baseUrl := ENDPOINT (GoogleProvider.serverEnv options) |}
             (model options) in
         Returns {| SDK.handle := SDK.handle created;
                    SDK.config_fetch :=
                      Some (patched_fetch
                              (default globalThis_fetch (SDK.config_fetch created))) |}
     end, st).
Proof.
  unfold GoogleProvider.getModelInstance, resolved_key, mbind, read, ret, throw.
  simpl.
  destruct (truthy_string _); reflexivity.
Qed.

Lemma resolved_key_resolves (options : ModelOptions IProviderSetting) (self : t) :
  resolved_key getProviderBaseUrlAndKey self
    (GoogleProvider.apiKeys options)
    (settings_of options (name self))
    (GoogleProvider.serverEnv options)
  = Spec.resolves
      (getProviderBaseUrlAndKey self
         (Spec.key_sources (GoogleProvider.apiKeys options)
            (GoogleProvider.providerSettings options) (name self)
            (GoogleProvider.serverEnv options))).
Proof.
  unfold resolved_key, Spec.resolves, truthy_string.
  change (key_options (GoogleProvider.apiKeys options) (settings_of options (name self))
            (GoogleProvider.serverEnv options))
    with (Spec.key_sources (GoogleProvider.apiKeys options)
            (GoogleProvider.providerSettings options) (name self)
            (GoogleProvider.serverEnv options)).
  destruct (BaseProvider.apiKey _) as [k|]; [| reflexivity].
  destruct (String.eqb_spec k ""), (decide (k = "")); (reflexivity || contradiction).
Qed.

(** C5.  [getModelInstance] throws if and only if no API key can be
    resolved from the provided apiKeys, provider settings, or server
    environment: the inherited resolver is asked with the apiKeys of the
    call, the settings stored under the provider's name and the server
    environment, and the method throws exactly when it answers no key or the
    empty string; for every input where a key resolves, the method returns
    a model handle configured with that key and with the endpoint built from
    [GOOGLE_BASE_URL] (default
    ['https://generativelanguage.googleapis.com']) and [GOOGLE_API_VERSION]
    (default ['v1beta']), its [fetch] replaced by the patched one. *)
Theorem getModelInstance_throws_iff_no_key
    (options : ModelOptions IProviderSetting) (st : state) :
  let key :=
    Spec.resolves
      (getProviderBaseUrlAndKey (this st)
         (Spec.key_sources (GoogleProvider.apiKeys options)
            (GoogleProvider.providerSettings options) (name (this st))
            (GoogleProvider.serverEnv options))) in
  ((exists e, fst (getModelInstance options st) = Throws e) <-> key = None)
  /\ (key = None ->
      fst (getModelInstance options st)
      = Throws (Error ("Missing API key for " ++ name (this st) ++ " provider")))
  /\ (forall k, key = Some k ->
        let created :=
          createGoogleGenerativeAI
            {| SDK.apiKey := k;
               SDK.baseUrl :=
                 Spec.endpoint (GoogleProvider.serverEnv options) |}
            (model options) in
        fst (getModelInstance options st)
        = Returns {| SDK.handle := SDK.handle created;
                     SDK.config_fetch :=
                       Some (patched_fetch
                               (default globalThis_fetch (SDK.config_fetch created))) |}).
Proof.
  intros key. rewrite getModelInstance_run, resolved_key_resolves. fold key.
  rewrite ENDPOINT_endpoint.
  destruct key as [k|]; simpl.
  - repeat split.
    + intros [e He]. discriminate.
    + discriminate.
    + discriminate.
    + intros k' [= <-]. reflexivity.
  - repeat split; eauto. discriminate.
Qed.



End ModelInstance.

(** ** The static catalog *)

(** C6.  The static catalog [staticModels] consists of exactly two entries,
    ['gemini-2.5-pro'] and ['gemini-2.5-flash'], each with provider
    ['Google'], maxTokenAllowed 1048576, and maxCompletionTokens 65536. *)
Theorem staticModels_catalog :
  map ModelInfo.name (GoogleProvider.staticModels GoogleProvider.new)
  = ["gemini-2.5-pro"; "gemini-2.5-flash"]
  /\ Forall (fun info =>
               ModelInfo.provider info = "Google"
               /\ ModelInfo.maxTokenAllowed info = 1048576
               /\ ModelInfo.maxCompletionTokens info = 65536)
            (GoogleProvider.staticModels GoogleProvider.new).
Proof.
  split; [reflexivity|].
  repeat constructor.
Qed.

(** ** The methods on the sample world *)

Section Runs.

Import JS GoogleProvider.

(** [getDynamicModels] against a network that answers with the listing of
    [entries], called with the sample keys and the environment [env]. *)
Local Abbreviation listing_of entries env :=
  (getDynamicModels unit Sample.resolver
     (Sample.answering (Sample.ok_response (Sample.listing entries)))
     Sample.keys None env Sample.initial).

Local Abbreviation sample_fetch :=
  (patched_fetch JSON.parse JSON.stringify Sample.echo).

(** C1 at the sample listing: the two entries that pass the filter come
    back normalized, in their order. *)
Lemma getDynamicModels_returns_filtered_witness :
  fst (listing_of Sample.listed None)
  = Returns [
      {| ModelInfo.name := "gemini-2.0-flash-exp";
         ModelInfo.label := "Gemini 2.0 Flash Experimental (1M context)";
         ModelInfo.provider := "Google";
         ModelInfo.maxTokenAllowed := 1048576;
         ModelInfo.maxCompletionTokens := 8192 |};
      {| ModelInfo.name := "gemini-1.5-pro";
         ModelInfo.label := "Gemini 1.5 Pro (2M context)";
         ModelInfo.provider := "Google";
         ModelInfo.maxTokenAllowed := 2000000;
         ModelInfo.maxCompletionTokens := 8192 |} ].
Proof.
  refine (eq_trans
    (proj1 (getDynamicModels_returns_filtered Sample.resolver
              (Sample.answering (Sample.ok_response (Sample.listing Sample.listed)))
              Sample.keys None None Sample.initial "secret"
              (Sample.ok_response (Sample.listing Sample.listed))
              [("models", Arr Sample.listed)] Sample.listed _ _ _ _ _ _)) _).
  - vm_compute. reflexivity.
  - reflexivity.
  - reflexivity.
  - reflexivity.
  - reflexivity.
  - repeat constructor.
  - vm_compute. reflexivity.
Defined.

(** C1 as stated fails on an entry without a name: its output limit keeps it
    out of the filter, so the claim has the call return the empty list, and
    the call throws. *)
Lemma getDynamicModels_returns_filtered_counterexample :
  Spec.has_models_array (Sample.listing [Sample.nameless])
  /\ List.filter Spec.passes_filter [Sample.nameless] = []
  /\ fst (listing_of [Sample.nameless] None) = Throws TypeError.
Proof.
  split; [| split].
  - exists [("models", Arr [Sample.nameless])], [Sample.nameless]. split; reflexivity.
  - vm_compute. reflexivity.
  - vm_compute. reflexivity.
Qed.

(** C2 at the sample listing. *)
Lemma getDynamicModels_normalizes_witness :
  exists infos,
    fst (listing_of Sample.listed None) = Returns infos
    /\ Forall2
         (fun entry info =>
            let stripped := str_replace "models/" "" (Spec.text (Spec.field "name" entry)) in
            let contextWindow :=
              Spec.overridden stripped
                (Spec.limit_or_when_falsy 32000 (Spec.field "inputTokenLimit" entry)) in
            ModelInfo.name info = stripped
            /\ ModelInfo.maxTokenAllowed info = contextWindow
            /\ ModelInfo.maxCompletionTokens info
               = Z.min (Spec.limit_or_when_absent 8192 (Spec.field "outputTokenLimit" entry))
                       128000
            /\ ModelInfo.provider info = "Google"
            /\ ModelInfo.label info
               = Spec.text (Spec.field "displayName" entry)
                 ++ " (" ++ Spec.rendered contextWindow ++ " context)")
         (List.filter Spec.passes_filter Sample.listed) infos.
Proof.
  apply (getDynamicModels_normalizes Sample.resolver
           (Sample.answering (Sample.ok_response (Sample.listing Sample.listed)))
           Sample.keys None None Sample.initial "secret"
           (Sample.ok_response (Sample.listing Sample.listed))
           [("models", Arr Sample.listed)] Sample.listed).
  - reflexivity.
  - vm_compute. reflexivity.
  - reflexivity.
  - reflexivity.
  - reflexivity.
  - reflexivity.
  - repeat constructor.
Defined.

(** C2 as stated fails on two entries: an [inputTokenLimit] of zero is
    replaced by 32000, and ['models/'] is removed from inside a name. *)
Lemma getDynamicModels_normalizes_counterexample :
  Spec.passes_filter Sample.zero_input = true
  /\ Spec.passes_filter Sample.inner_path = true
  /\ (exists first second,
        fst (listing_of [Sample.zero_input; Sample.inner_path] None)
        = Returns [first; second]
        /\ ModelInfo.maxTokenAllowed first = 32000
        /\ ModelInfo.maxTokenAllowed (Spec.claimed_info Sample.zero_input) = 0
        /\ ModelInfo.name second = "tunedModels/custom"
        /\ ModelInfo.name (Spec.claimed_info Sample.inner_path) = "tunedModels/models/custom").
Proof.
  split; [vm_compute; reflexivity | split; [vm_compute; reflexivity|]].
  eexists _, _. split; [vm_compute; reflexivity|].
  split; [reflexivity|]. split; [vm_compute; reflexivity|].
  split; [reflexivity|]. vm_compute. reflexivity.
Qed.

(** C4 at the sample listing. *)
Lemma getDynamicModels_throws_exactly_witness :
  ((exists e, fst (listing_of Sample.listed None) = Throws e)
   <-> resolved_key Sample.resolver (this Sample.initial) Sample.keys None None = None
       \/ ok (Sample.ok_response (Sample.listing Sample.listed)) = false
       \/ ~ (exists body,
               json (Sample.ok_response (Sample.listing Sample.listed)) = Some body
               /\ Spec.has_models_array body))
  /\ (resolved_key Sample.resolver (this Sample.initial) Sample.keys None None <> None ->
      ok (Sample.ok_response (Sample.listing Sample.listed)) = true ->
      (exists body,
          json (Sample.ok_response (Sample.listing Sample.listed)) = Some body
          /\ Spec.has_models_array body) ->
      exists infos, fst (listing_of Sample.listed None) = Returns infos).
Proof.
  apply (getDynamicModels_throws_exactly Sample.resolver
           (Sample.answering (Sample.ok_response (Sample.listing Sample.listed)))
           Sample.keys None None Sample.initial
           (Sample.ok_response (Sample.listing Sample.listed))).
  - intros k _. reflexivity.
  - intros props models [= <-] [= <-]. repeat constructor.
Defined.

(** C4 as stated fails on a listing whose entry is [null]: a key resolves,
    the response is ok, the body has an array under [models], and the call
    throws. *)
Lemma getDynamicModels_throws_exactly_counterexample :
  resolved_key Sample.resolver (this Sample.initial) Sample.keys None None = Some "secret"
  /\ ok (Sample.ok_response (Sample.listing [Null])) = true
  /\ Spec.has_models_array (Sample.listing [Null])
  /\ fst (listing_of [Null] None) = Throws TypeError.
Proof.
  split; [vm_compute; reflexivity|].
  split; [reflexivity|].
  split; [| vm_compute; reflexivity].
  exists [("models", Arr [Null])], [Null]. split; reflexivity.
Qed.

(** C7 as stated fails when [GOOGLE_BASE_URL] is set to the empty string:
    the default base URL is queried, where the claim has the URL begin with
    the slash. *)
Lemma getDynamicModels_queries_listing_url_counterexample :
  map req_url (requests (snd (listing_of Sample.listed Sample.empty_base_url)))
  = ["https://generativelanguage.googleapis.com/v1beta/models?key=secret"]
  /\ Spec.claimed_url Sample.empty_base_url "secret" = "/v1beta/models?key=secret".
Proof.
  split; vm_compute; reflexivity.
Qed.

(** C3 at a request with a system instruction, and at three requests that
    are forwarded as they are: a body of bytes, a text that parses to an
    array, and a call without options. *)
Lemma patched_fetch_renames_witness :
  (exists props',
     sample_fetch Sample.generate_url
       (Some (Sample.request_with (JSON.stringify Sample.instructed))) []
     = Sample.echo Sample.generate_url
         (Some (SDK.set_body (SDK.BodyString (JSON.stringify (Obj props')))
                  (Sample.request_with (JSON.stringify Sample.instructed)))) []
     /\ lookup_prop "system_instruction" props'
        = Some (Obj [("parts", Arr [Obj [("text", Str "Be brief.")]])])
     /\ lookup_prop "systemInstruction" props' = None
     /\ forall k, k <> "system_instruction" -> k <> "systemInstruction" ->
                  lookup_prop k props'
                  = lookup_prop k [("systemInstruction",
                                    Obj [("parts", Arr [Obj [("text", Str "Be brief.")]])]);
                                   ("contents", Arr [Obj [("role", Str "user")]])])
  /\ sample_fetch Sample.generate_url (Some Sample.binary_request) []
     = Sample.echo Sample.generate_url (Some Sample.binary_request) []
  /\ (str_includes (JSON.stringify Sample.listed_key) quoted_systemInstruction = true
      /\ sample_fetch Sample.generate_url
           (Some (Sample.request_with (JSON.stringify Sample.listed_key))) []
         = Sample.echo Sample.generate_url
             (Some (Sample.request_with (JSON.stringify Sample.listed_key))) [])
  /\ sample_fetch Sample.generate_url None [] = Sample.echo Sample.generate_url None [].
Proof.
  split; [| split; [| split]].
  - apply (proj1 (patched_fetch_renames JSON.parse JSON.stringify Sample.echo
                    Sample.generate_url
                    (Some (Sample.request_with (JSON.stringify Sample.instructed))) [])
                 (Sample.request_with (JSON.stringify Sample.instructed))
                 (JSON.stringify Sample.instructed)
                 [("systemInstruction", Obj [("parts", Arr [Obj [("text", Str "Be brief.")]])]);
                  ("contents", Arr [Obj [("role", Str "user")]])]
                 (Obj [("parts", Arr [Obj [("text", Str "Be brief.")]])])).
    + reflexivity.
    + reflexivity.
    + vm_compute. reflexivity.
    + vm_compute. reflexivity.
    + reflexivity.
    + reflexivity.
  - apply (proj1 (proj2 (proj2 (proj2 (proj2 (proj2
             (patched_fetch_renames JSON.parse JSON.stringify Sample.echo
                Sample.generate_url (Some Sample.binary_request) []))))))
             Sample.binary_request).
    + reflexivity.
    + intros s. discriminate.
  - split; [vm_compute; reflexivity|].
    apply (proj1 (proj2 (proj2 (proj2 (proj2 (proj2 (proj2
             (patched_fetch_renames JSON.parse JSON.stringify Sample.echo
                Sample.generate_url
                (Some (Sample.request_with (JSON.stringify Sample.listed_key))) [])))))))
             (Sample.request_with (JSON.stringify Sample.listed_key))
             (JSON.stringify Sample.listed_key) Sample.listed_key).
    + reflexivity.
    + reflexivity.
    + vm_compute. reflexivity.
    + discriminate.
    + discriminate.
    + intros props. discriminate.
  - apply (proj1 (proj2 (proj2 (proj2 (proj2
             (patched_fetch_renames JSON.parse JSON.stringify Sample.echo
                Sample.generate_url None [])))))).
    reflexivity.
Defined.

(** C3 as stated fails on a body whose [systemInstruction] is [null]: the
    text contains the key, and the body is forwarded as it was, still with
    the key and without [system_instruction]. *)
Lemma patched_fetch_renames_counterexample :
  str_includes (JSON.stringify Sample.uninstructed) quoted_systemInstruction = true
  /\ JSON.parse (JSON.stringify Sample.uninstructed) = Some Sample.uninstructed
  /\ sample_fetch Sample.generate_url
       (Some (Sample.request_with (JSON.stringify Sample.uninstructed))) []
     = (Returns (Sample.generate_url,
                 Some (Sample.request_with (JSON.stringify Sample.uninstructed))), [])
  /\ Spec.field "systemInstruction" Sample.uninstructed = Null
  /\ Spec.field "system_instruction" Sample.uninstructed = Undefined.
Proof.
  split; [vm_compute; reflexivity|].
  split; [vm_compute; reflexivity|].
  split; [vm_compute; reflexivity|].
  split; reflexivity.
Qed.

(** C9 at a truncated body. *)
Lemma patched_fetch_catches_witness :
  sample_fetch Sample.generate_url (Some (Sample.request_with Sample.truncated)) []
  = (Returns (Sample.generate_url, Some (Sample.request_with Sample.truncated)),
     [("Google fetch patch error:", SyntaxError)]).
Proof.
  apply (proj2 (patched_fetch_catches JSON.parse JSON.stringify Sample.echo
                  Sample.generate_url (Some (Sample.request_with Sample.truncated)) [])
               (Sample.request_with Sample.truncated) Sample.truncated).
  - reflexivity.
  - reflexivity.
  - vm_compute. reflexivity.
  - vm_compute. reflexivity.
Defined.

(** C5 at four calls: a key among the apiKeys, a key held by the server
    environment only, a key that only the provider's settings give, and no
    key anywhere. *)
Lemma getModelInstance_throws_iff_no_key_witness :
  (exists instance,
     fst (getModelInstance unit Sample.resolver _ _ Sample.createGoogleGenerativeAI
            Sample.echo JSON.parse JSON.stringify Sample.model_options Sample.initial)
     = Returns instance
     /\ SDK.handle instance
        = ({| SDK.apiKey := "secret";
              SDK.baseUrl := "https://generativelanguage.googleapis.com/v1" |},
           "gemini-2.5-pro"))
  /\ (exists instance,
        fst (getModelInstance unit Sample.resolver _ _ Sample.createGoogleGenerativeAI
               Sample.echo JSON.parse JSON.stringify Sample.env_options Sample.initial)
        = Returns instance
        /\ SDK.handle instance
           = ({| SDK.apiKey := "from-env";
                 SDK.baseUrl := "https://generativelanguage.googleapis.com/v1beta" |},
              "gemini-2.5-flash"))
  /\ (exists instance,
        fst (getModelInstance string Sample.settings_resolver _ _
               Sample.createGoogleGenerativeAI
               Sample.echo JSON.parse JSON.stringify Sample.settings_options Sample.initial)
        = Returns instance
        /\ SDK.handle instance
           = ({| SDK.apiKey := "from-settings";
                 SDK.baseUrl := "https://generativelanguage.googleapis.com/v1beta" |},
              "gemini-2.5-flash"))
  /\ fst (getModelInstance unit Sample.resolver _ _ Sample.createGoogleGenerativeAI
            Sample.echo JSON.parse JSON.stringify Sample.keyless_options Sample.initial)
     = Throws (Error "Missing API key for Google provider").
Proof.
  split; [| split; [| split]].
  - eexists. split.
    + apply (proj2 (proj2 (getModelInstance_throws_iff_no_key Sample.resolver
                             Sample.createGoogleGenerativeAI Sample.echo
                             JSON.parse JSON.stringify Sample.model_options Sample.initial))
                   "secret").
      vm_compute. reflexivity.
    + vm_compute. reflexivity.
  - eexists. split.
    + apply (proj2 (proj2 (getModelInstance_throws_iff_no_key Sample.resolver
                             Sample.createGoogleGenerativeAI Sample.echo
                             JSON.parse JSON.stringify Sample.env_options Sample.initial))
                   "from-env").
      vm_compute. reflexivity.
    + vm_compute. reflexivity.
  - eexists. split.
    + apply (proj2 (proj2 (getModelInstance_throws_iff_no_key Sample.settings_resolver
                             Sample.createGoogleGenerativeAI Sample.echo
                             JSON.parse JSON.stringify Sample.settings_options
                             Sample.initial))
                   "from-settings").
      vm_compute. reflexivity.
    + vm_compute. reflexivity.
  - apply (proj1 (proj2 (getModelInstance_throws_iff_no_key Sample.resolver
                           Sample.createGoogleGenerativeAI Sample.echo
                           JSON.parse JSON.stringify Sample.keyless_options Sample.initial))).
    vm_compute. reflexivity.
Defined.

End Runs.

(** ** Further properties of the callbacks *)

Section CallbackInversion.

Import JS GoogleProvider.
Local Open Scope method_scope.

Lemma append_associative (a b c : string) : (a ++ b) ++ c = a ++ b ++ c.
Proof.
  induction a as [|x a IH]; [reflexivity|].
  change ((String x a ++ b) ++ c) with (String x ((a ++ b) ++ c)).
  rewrite IH. reflexivity.
Qed.

(** A successful [filter] keeps a sublist. *)
Lemma filterM_sublist {A : Type} (f : A -> M bool) (xs kept : list A) (st : state) :
  (forall x, reads_only (f x)) ->
  fst (filterM f xs st) = Returns kept ->
  sublist kept xs.
Proof.
  intros Hf. revert kept. induction xs as [|x rest IH]; simpl; intros kept.
  - intros [= <-]. constructor.
  - unfold mbind at 1. destruct (Hf x st) as [Hst _].
    destruct (f x st) as [[keep|e|] st1]; simpl in Hst; subst st1; try discriminate.
    unfold mbind at 1.
    destruct (reads_only_filterM f rest Hf st) as [Hst _].
    destruct (filterM f rest st) as [[kept'|e|] st1]; simpl in Hst; subst st1;
      try discriminate.
    simpl. intros [= <-]. specialize (IH kept' eq_refl).
    destruct keep; [apply sublist_skip | apply sublist_cons]; exact IH.
Qed.

(** [filter] stops at the first entry on which its callback throws. *)
Lemma filterM_throws {A : Type} (f : A -> M bool) (g : A -> bool)
    (before after : list A) (bad : A) (e : exn) (st : state) :
  Forall (fun x => f x st = (Returns (g x), st)) before ->
  f bad st = (Throws e, st) ->
  filterM f (before ++ bad :: after)%list st = (Throws e, st).
Proof.
  intros Hbefore Hbad. induction Hbefore as [|x rest Hx _ IH]; simpl.
  - unfold mbind at 1. rewrite Hbad. reflexivity.
  - unfold mbind at 1. rewrite Hx. unfold mbind at 1. rewrite IH. reflexivity.
Qed.


End CallbackInversion.

(** ** [getDynamicModels]: failures, and where its results come from *)

Section DynamicModelsFurther.

Import JS GoogleProvider.
Local Open Scope method_scope.

Context {IProviderSetting : Type}.
Variable getProviderBaseUrlAndKey :
  t -> BaseProvider.options IProviderSetting -> BaseProvider.result.
Variable fetch : string -> list (string * string) -> outcome Response.

Variable apiKeys : option (gmap string string).
Variable settings : option IProviderSetting.
Variable serverEnv : option (gmap string string).

Local Abbreviation run := (getDynamicModels IProviderSetting getProviderBaseUrlAndKey fetch
                   apiKeys settings serverEnv).
Local Abbreviation key_of st :=
  (resolved_key getProviderBaseUrlAndKey (this st) apiKeys settings serverEnv).
Local Abbreviation url_of k := (MODELS_ENDPOINT serverEnv k).


(** X2.  When the model-listing request fails, [getDynamicModels] reports
    that failure and nothing about the body: a rejected request is rethrown
    as it is, and a response that is not ok throws an [Error] whose message
    carries the status and the status text, whatever the body holds. *)
Theorem getDynamicModels_request_failure (st : state) (k : string) :
  key_of st = Some k ->
  (forall e, fetch (url_of k) listing_headers = Throws e -> fst (run st) = Throws e)
  /\ (forall response,
        fetch (url_of k) listing_headers = Returns response ->
        ok response = false ->
        fst (run st)
        = Throws (Error ("Failed to fetch models from Google API: "
                         ++ string_of_Z (status response) ++ " " ++ statusText response))).
Proof.
  intros Hkey. rewrite (getDynamicModels_key _ _ _ _ _ st k Hkey). split.
  - intros e Hfetch. unfold mbind at 1, lift at 1. rewrite Hfetch. reflexivity.
  - intros response Hfetch Hok.
    unfold mbind at 1, lift at 1. rewrite Hfetch, Hok. reflexivity.
Qed.

(** X3.  On an ok response the body decides: a body that is not JSON makes
    the call throw the parser's [SyntaxError], and a JSON body that is not
    an object with an array under [models] (null, a bare array, an object
    without the field, a field that is not an array) makes it throw the
    [Error] ['Invalid response format from Google API']. *)
Theorem getDynamicModels_body_shape (st : state) (k : string) (response : Response) :
  key_of st = Some k ->
  fetch (url_of k) listing_headers = Returns response ->
  ok response = true ->
  (json response = None -> fst (run st) = Throws SyntaxError)
  /\ (forall body,
        json response = Some body ->
        ~ Spec.has_models_array body ->
        fst (run st) = Throws (Error "Invalid response format from Google API")).
Proof.
  intros Hkey Hfetch Hok. rewrite (getDynamicModels_key _ _ _ _ _ st k Hkey). split.
  - intros Hjson.
    unfold mbind at 1, lift at 1. rewrite Hfetch, Hok. cbn [negb].
    unfold mbind at 1, lift at 1, await_json. rewrite Hjson. reflexivity.
  - intros body Hjson Hshape.
    unfold mbind at 1, lift at 1. rewrite Hfetch, Hok. cbn [negb].
    unfold mbind at 1, lift at 1, await_json. rewrite Hjson.
    destruct (valid_body_total body) as [[|] Hvalid].
    + apply valid_body_array in Hvalid. contradiction.
    + unfold mbind at 1, lift at 1. rewrite Hvalid. reflexivity.
Qed.


(** X10.  The base URL is used as it is written: when [GOOGLE_BASE_URL]
    ends with a slash, the URL queried has two slashes before the API
    version. *)
Theorem getDynamicModels_trailing_slash (st : state) (k b : string) :
  key_of st = Some k ->
  env_get serverEnv "GOOGLE_BASE_URL" = Some (b ++ "/") ->
  map req_url (requests (snd (run st)))
  = (map req_url (requests st)
     ++ [(b ++ "//" ++ API_VERSION serverEnv ++ "/models?key=" ++ k)%string])%list.
Proof.
  intros Hkey Hbase. rewrite (getDynamicModels_key _ _ _ _ _ st k Hkey).
  destruct (reads_only_after_fetch (fetch (url_of k) listing_headers)
              (sent (url_of k) listing_headers st)) as [-> _].
  simpl. rewrite map_app. simpl. f_equal. f_equal.
  unfold MODELS_ENDPOINT, BASE_URL, or_string, truthy_string. rewrite Hbase.
  assert (Hne : String.eqb (b ++ "/") "" = false) by (destruct b; reflexivity).
  rewrite Hne. cbn [default]. unfold id.
  rewrite append_associative. reflexivity.
Qed.

End DynamicModelsFurther.

(** ** The two methods together, and the patch applied twice *)

Section ModelInstanceFurther.

Import JS GoogleProvider.
Local Open Scope method_scope.

Context {IProviderSetting R Handle : Type}.
Variable getProviderBaseUrlAndKey :
  t -> BaseProvider.options IProviderSetting -> BaseProvider.result.
Variable fetch : string -> list (string * string) -> outcome Response.
Variable createGoogleGenerativeAI : SDK.settings -> string -> SDK.ModelInstance R Handle.
Variable globalThis_fetch : SDK.Fetch R.
Variable JSON_parse : string -> option value.
Variable JSON_stringify : value -> string.

Local Abbreviation patch := (GoogleProvider.patch JSON_parse JSON_stringify).
Local Abbreviation patched_fetch :=
  (GoogleProvider.patched_fetch JSON_parse JSON_stringify).
Local Abbreviation getModelInstance :=
  (GoogleProvider.getModelInstance IProviderSetting getProviderBaseUrlAndKey R Handle
     createGoogleGenerativeAI globalThis_fetch JSON_parse JSON_stringify).

(** X1.  The two methods agree on the configuration.  Called with the
    same keys, settings and environment, either both find no key, and then
    [getDynamicModels] throws a string and issues no request while
    [getModelInstance] throws an [Error]; or the URL [getDynamicModels]
    queries is the base URL handed to the SDK followed by ['/models?key=']
    and the API key handed to the SDK. *)
Theorem methods_agree_on_configuration
    (options : ModelOptions IProviderSetting) (st : state) :
  let listing :=
    getDynamicModels IProviderSetting getProviderBaseUrlAndKey fetch
      (GoogleProvider.apiKeys options)
      (settings_of options (name (this st)))
      (GoogleProvider.serverEnv options) in
  (fst (listing st)
   = Throws (ThrownString
               ("Missing Api Key configuration for " ++ name (this st) ++ " provider"))
   /\ snd (listing st) = st
   /\ fst (getModelInstance options st)
      = Throws (Error ("Missing API key for " ++ name (this st) ++ " provider")))
  \/ (exists configured,
        fst (getModelInstance options st)
        = Returns {| SDK.handle :=
                       SDK.handle (createGoogleGenerativeAI configured (model options));
                     SDK.config_fetch :=
                       Some (patched_fetch
                               (default globalThis_fetch
                                  (SDK.config_fetch
                                     (createGoogleGenerativeAI configured
                                        (model options))))) |}
        /\ map req_url (requests (snd (listing st)))
           = (map req_url (requests st)
              ++ [(SDK.baseUrl configured ++ "/models?key=" ++ SDK.apiKey configured)%string])%list).
Proof.
  intros listing. unfold listing.
  rewrite getModelInstance_run.
  destruct (resolved_key getProviderBaseUrlAndKey (this st)
              (GoogleProvider.apiKeys options)
              (settings_of options (name (this st)))
              (GoogleProvider.serverEnv options)) as [k|] eqn:Hkey.
  - right.
    exists {| SDK.apiKey := k;
              SDK.baseUrl := ENDPOINT (GoogleProvider.serverEnv options) |}.
    split; [reflexivity|].
    rewrite (getDynamicModels_key _ _ _ _ _ st k Hkey).
    destruct (reads_only_after_fetch
                (fetch (MODELS_ENDPOINT (GoogleProvider.serverEnv options) k)
                   listing_headers)
                (sent (MODELS_ENDPOINT (GoogleProvider.serverEnv options) k)
                   listing_headers st)) as [-> _].
    simpl. rewrite map_app. simpl. f_equal. f_equal.
    unfold MODELS_ENDPOINT, ENDPOINT.
    rewrite !append_associative. reflexivity.
  - left. rewrite (getDynamicModels_no_key _ _ _ _ _ st Hkey).
    repeat split; reflexivity.
Qed.

(** X8.  A request the patch has rewritten passes through the patch
    unchanged: when the printed object parses back to itself, patching the
    rewritten request changes nothing, so a fetch that is patched twice
    sends what a fetch patched once sends. *)
Theorem patched_fetch_twice (originalFetch : SDK.Fetch R) (url : string)
    (o : SDK.RequestInit) (s : string) (props : list (string * value))
    (instruction : value) (log : SDK.console) :
  SDK.body o = SDK.BodyString s ->
  str_includes s quoted_systemInstruction = true ->
  JSON_parse s = Some (Obj props) ->
  lookup_prop "systemInstruction" props = Some instruction ->
  truthy instruction = true ->
  JSON_parse (JSON_stringify (rename_systemInstruction instruction (Obj props)))
  = Some (rename_systemInstruction instruction (Obj props)) ->
  let rewritten :=
    SDK.set_body
      (SDK.BodyString (JSON_stringify (rename_systemInstruction instruction (Obj props))))
      o in
  patch (Some rewritten) = Returns (Some rewritten)
  /\ patched_fetch (patched_fetch originalFetch) url (Some o) log
     = patched_fetch originalFetch url (Some o) log
  /\ patched_fetch originalFetch url (Some o) log
     = originalFetch url (Some rewritten) log.
Proof.
  intros Hbody Hincl Hparse Hlookup Htruthy Hround rewritten.
  assert (Hagain : patch (Some rewritten) = Returns (Some rewritten)).
  { unfold GoogleProvider.patch. cbn [SDK.body rewritten SDK.set_body].
    destruct (negb (String.eqb _ "") && str_includes _ quoted_systemInstruction);
      [| reflexivity].
    rewrite Hround. cbn [rename_systemInstruction get JS.bind].
    rewrite lookup_delete_prop_eq. reflexivity. }
  assert (Honce : patch (Some o) = Returns (Some rewritten))
    by exact (patch_renames JSON_parse JSON_stringify o s props instruction
                Hbody Hincl Hparse Hlookup Htruthy).
  split; [exact Hagain|].
  unfold GoogleProvider.patched_fetch. rewrite Honce, Hagain. split; reflexivity.
Qed.

(** X9.  The patch rewrites and warns only where it must.  It changes the
    options only of a request whose string body contains the quoted key and
    parses to an object with a truthy [systemInstruction]; and it throws
    into its [catch], which logs the warning, only when such a body does not
    parse or parses to no object at all. *)
Theorem patch_only_instructed (opts : option SDK.RequestInit) :
  (forall opts',
      patch opts = Returns opts' ->
      opts' <> opts ->
      exists o s props instruction,
        opts = Some o
        /\ SDK.body o = SDK.BodyString s
        /\ str_includes s quoted_systemInstruction = true
        /\ JSON_parse s = Some (Obj props)
        /\ lookup_prop "systemInstruction" props = Some instruction
        /\ truthy instruction = true)
  /\ (forall e,
        patch opts = Throws e ->
        exists o s,
          opts = Some o
          /\ SDK.body o = SDK.BodyString s
          /\ str_includes s quoted_systemInstruction = true
          /\ (JSON_parse s = None /\ e = SyntaxError
              \/ (JSON_parse s = Some Null \/ JSON_parse s = Some Undefined)
                 /\ e = TypeError)).
Proof.
  unfold GoogleProvider.patch. split.
  - intros opts'.
    destruct opts as [o|]; [| intros [= <-] Hne; contradiction].
    destruct (SDK.body o) as [| s | bytes] eqn:Hbody;
      try (intros [= <-] Hne; contradiction).
    destruct (String.eqb s ""); cbn [negb andb];
      [intros [= <-] Hne; contradiction|].
    destruct (str_includes s quoted_systemInstruction) eqn:Hincl;
      [| intros [= <-] Hne; contradiction].
    destruct (JSON_parse s) as [parsed|] eqn:Hparse; [| discriminate].
    destruct parsed as [| | | | | |props]; cbn [get JS.bind truthy];
      try discriminate; try (intros [= <-] Hne; contradiction).
    destruct (lookup_prop "systemInstruction" props) as [instruction|] eqn:Hlookup;
      cbn [default truthy]; unfold id; [| intros [= <-] Hne; contradiction].
    destruct (truthy instruction) eqn:Htruthy; cbv iota;
      [| intros [= <-] Hne; contradiction].
    intros _ _. exists o, s, props, instruction. repeat split; assumption.
  - intros e.
    destruct opts as [o|]; [| discriminate].
    destruct (SDK.body o) as [| s | bytes] eqn:Hbody; try discriminate.
    destruct (String.eqb s ""); cbn [negb andb]; [discriminate|].
    destruct (str_includes s quoted_systemInstruction) eqn:Hincl; [| discriminate].
    destruct (JSON_parse s) as [parsed|] eqn:Hparse.
    + destruct parsed as [| | | | | |props]; cbn [get JS.bind truthy]; try discriminate.
      * intros [= <-]. exists o, s. repeat split; try assumption.
        right. split; [right; exact Hparse | reflexivity].
      * intros [= <-]. exists o, s. repeat split; try assumption.
        right. split; [left; exact Hparse | reflexivity].
      * destruct (truthy (default Undefined (lookup_prop "systemInstruction" props)));
          discriminate.
    + intros [= <-]. exists o, s. repeat split; try assumption.
      left. split; [exact Hparse | reflexivity].
Qed.

End ModelInstanceFurther.

(** ** The runtime's numbers *)

Section Numbers.

Lemma gt_of_Z (a b : Z) : Number.gt (Number.of_Z a) (Number.of_Z b) = (b <? a).
Proof.
  unfold Number.gt, Number.of_Z, Qle_bool, inject_Z. simpl.
  rewrite !Z.mul_1_r. rewrite Z.ltb_antisym. reflexivity.
Qed.

Lemma ge_of_Z (a b : Z) : Number.ge (Number.of_Z a) (Number.of_Z b) = (b <=? a).
Proof.
  unfold Number.ge, Number.of_Z, Qle_bool, inject_Z. simpl.
  rewrite !Z.mul_1_r. reflexivity.
Qed.

Lemma min_of_Z (a b : Z) :
  Number.min (Number.of_Z a) (Number.of_Z b) = Number.of_Z (Z.min a b).
Proof.
  unfold Number.min. change (Number.of_Z a) with (Number.Finite (inject_Z a)) at 1.
  change (Number.of_Z b) with (Number.Finite (inject_Z b)) at 1.
  cbv iota beta.
  change (Number.Finite (inject_Z a)) with (Number.of_Z a).
  change (Number.Finite (inject_Z b)) with (Number.of_Z b).
  rewrite gt_of_Z.
  destruct (Z.ltb_spec b a); f_equal; lia.
Qed.

Lemma truthy_of_Z (n : Z) : Number.truthy (Number.of_Z n) = negb (n =? 0).
Proof.
  unfold Number.truthy, Number.of_Z, Qeq_bool, inject_Z. simpl.
  rewrite Z.mul_1_r. reflexivity.
Qed.

(** A number above [low], capped at [high], lies between the two. *)
Lemma min_above (x : Number.t) (low high : Z) :
  low < high ->
  Number.gt x (Number.of_Z low) = true ->
  Spec.above_and_at_most low high (Number.min x (Number.of_Z high)).
Proof.
  intros Horder Hgt.
  destruct x as [| q | [|]]; try discriminate.
  - unfold Number.min, Number.of_Z in *.
    simpl in Hgt. apply negb_true_iff in Hgt.
    assert (Hlow : (inject_Z low < q)%Q).
    { apply Qnot_le_lt. intros Hle. apply Qle_bool_iff in Hle. congruence. }
    cbn [Number.gt].
    destruct (Qle_bool q (inject_Z high)) eqn:Hcap; cbn [negb Spec.above_and_at_most].
    + split; [exact Hlow | apply Qle_bool_iff; exact Hcap].
    + split; [rewrite <- Zlt_Qlt; exact Horder | apply Qle_refl].
  - simpl. split; [rewrite <- Zlt_Qlt; exact Horder | apply Qle_refl].
Qed.

End Numbers.

(** ** The callbacks on untyped entries *)

Section UntypedCallbacks.

Import JS(outcome, Returns, Throws, Unmodelled, exn, TypeError, SyntaxError, Error,
          ThrownString, str_includes, str_replace, string_of_Z).
Import GoogleProvider.
Local Open Scope method_scope.

Variable StringToNumber : string -> Number.t.
Variable NumberToString : Number.t -> string.
Variable floor_of_quotient : Number.t -> Z -> Number.t.

Local Abbreviation ToNumber := (Runtime.ToNumber StringToNumber NumberToString).
Local Abbreviation ToString := (Runtime.ToString NumberToString).
Local Abbreviation keep := (Untyped.keep StringToNumber NumberToString).
Local Abbreviation normalize :=
  (Untyped.normalize StringToNumber NumberToString floor_of_quotient).
Local Abbreviation context_text := (Untyped.context_text NumberToString floor_of_quotient).

Lemma reads_only_untyped_keep (model : Runtime.value) : reads_only (keep model).
Proof.
  unfold Untyped.keep.
  do 4 (apply reads_only_mbind; [apply reads_only_lift | intros ?]).
  apply reads_only_mbind; [| intros isStable; apply reads_only_ret].
  match goal with |- reads_only (if ?c then _ else _) => destruct c end.
  - apply reads_only_ret.
  - apply reads_only_mbind; [apply reads_only_lift | intros name2; apply reads_only_lift].
Qed.

Lemma reads_only_untyped_normalize (m : Runtime.value) : reads_only (normalize m).
Proof.
  unfold Untyped.normalize.
  repeat (apply reads_only_mbind;
          [first [apply reads_only_lift | apply reads_only_read] | intros ?]).
  apply reads_only_ret.
Qed.

Lemma property_get (k : string) (v x : Runtime.value) :
  Runtime.get k v = Returns x -> Spec.property k v = x.
Proof. destruct v; simpl; congruence. Qed.

(** No coercion and no callback leaves the embedding: each returns or
    throws. *)
Lemma untyped_get_modelled (k : string) (v : Runtime.value) :
  Runtime.get k v <> Unmodelled.
Proof. destruct v; discriminate. Qed.

Lemma untyped_keep_modelled (model : Runtime.value) (st : state) :
  fst (keep model st) <> Unmodelled.
Proof.
  unfold Untyped.keep, mbind, lift, ret.
  destruct (Runtime.get "outputTokenLimit" model) as [limit|e|] eqn:Hlimit;
    [| discriminate | destruct (untyped_get_modelled _ _ Hlimit)].
  destruct (ToNumber _) as [n|]; [| discriminate]. cbn [Runtime.coerced].
  destruct (Runtime.get "name" model) as [name1|e|] eqn:Hname;
    [| discriminate | destruct (untyped_get_modelled _ _ Hname)].
  destruct name1 as [| | b | x | s | xs | props]; try discriminate.
  - simpl. destruct (negb (str_includes s "exp")); discriminate.
  - simpl. destruct (negb (existsb (Runtime.is_str "exp") xs)); discriminate.
Qed.

Lemma untyped_normalize_modelled (m : Runtime.value) (st : state) :
  fst (normalize m st) <> Unmodelled.
Proof.
  unfold Untyped.normalize, mbind, lift, ret, read.
  destruct (Runtime.get "name" m) as [name0|e|] eqn:Hname;
    [| discriminate | destruct (untyped_get_modelled _ _ Hname)].
  destruct name0 as [| | b | x | s | xs | props]; try discriminate.
  cbn [Runtime.replace].
  destruct (Runtime.get "inputTokenLimit" m) as [inputLimit|e|] eqn:Hinput;
    [| discriminate | destruct (untyped_get_modelled _ _ Hinput)].
  destruct (Runtime.get "outputTokenLimit" m) as [outputLimit|e|] eqn:Houtput;
    [| discriminate | destruct (untyped_get_modelled _ _ Houtput)].
  destruct (ToNumber (Runtime.or outputLimit _)) as [tokens|]; [| discriminate].
  cbn [Runtime.coerced].
  destruct (Runtime.get "displayName" m) as [displayName|e|] eqn:Hdisplay;
    [| discriminate | destruct (untyped_get_modelled _ _ Hdisplay)].
  destruct (ToString displayName) as [shown|]; [| discriminate].
  cbn [Runtime.coerced].
  destruct (ToNumber _) as [window|]; discriminate.
Qed.

(** What a [true] of the callback of [filter] says about the entry. *)
Lemma untyped_keep_true (model : Runtime.value) (st : state) :
  fst (keep model st) = Returns true ->
  exists limit x name1,
    Runtime.get "outputTokenLimit" model = Returns limit
    /\ Runtime.truthy limit = true
    /\ ToNumber limit = Some x
    /\ Number.gt x (Number.of_Z 8000) = true
    /\ Runtime.get "name" model = Returns name1
    /\ (Runtime.includes name1 "exp" = Returns false
        \/ Runtime.includes name1 "flash-exp" = Returns true).
Proof.
  unfold Untyped.keep, mbind, lift, ret.
  destruct (Runtime.get "outputTokenLimit" model) as [limit|e|]; try discriminate.
  destruct (ToNumber (Runtime.or limit _)) as [x|] eqn:Hx; [| discriminate].
  cbn [Runtime.coerced].
  destruct (Runtime.get "name" model) as [name1|e|]; try discriminate.
  destruct (Runtime.includes name1 "exp") as [exp|e|] eqn:Hexp; try discriminate.
  assert (Hlimit : Number.gt x (Number.of_Z 8000) = true ->
                   Runtime.truthy limit = true /\ ToNumber limit = Some x).
  { intros Hgt. unfold Runtime.or in Hx.
    destruct (Runtime.truthy limit); [split; [reflexivity | exact Hx]|].
    simpl in Hx. injection Hx as <-. rewrite gt_of_Z in Hgt. discriminate. }
  destruct exp; simpl.
  - destruct (Runtime.includes name1 "flash-exp") as [stable|e|] eqn:Hflash;
      try discriminate.
    simpl. intros [= H]. apply andb_true_iff in H as [Hgt ->].
    destruct (Hlimit Hgt) as [Htruthy Hnumber].
    exists limit, x, name1. repeat split; try assumption; try reflexivity.
    right. exact Hflash.
  - intros [= H]. rewrite andb_true_r in H.
    destruct (Hlimit H) as [Htruthy Hnumber].
    exists limit, x, name1. repeat split; try assumption; try reflexivity.
    left. exact Hexp.
Qed.

(** What a [ModelInfo] returned by the callback of [map] is made of. *)
Lemma untyped_normalize_returns (m : Runtime.value) (st : state) (info : Untyped.ModelInfo) :
  fst (normalize m st) = Returns info ->
  exists s inputLimit outputLimit tokens shown window,
    Runtime.get "name" m = Returns (Runtime.Str s)
    /\ Runtime.get "inputTokenLimit" m = Returns inputLimit
    /\ Runtime.get "outputTokenLimit" m = Returns outputLimit
    /\ ToNumber (Runtime.or outputLimit (Runtime.Num (Number.of_Z 8192))) = Some tokens
    /\ (exists displayName,
          Runtime.get "displayName" m = Returns displayName
          /\ ToString displayName = Some shown)
    /\ let modelName := str_replace "models/" "" s in
       let contextWindow :=
         if str_includes modelName "gemini-1.5-flash"
         then Runtime.Num (Number.of_Z 1000000)
         else if str_includes modelName "gemini-1.5-pro"
              then Runtime.Num (Number.of_Z 2000000)
              else Runtime.or inputLimit (Runtime.Num (Number.of_Z 32000)) in
       ToNumber contextWindow = Some window
       /\ info =
          {| Untyped.name := modelName;
             Untyped.label := shown ++ " (" ++ context_text window ++ " context)";
             Untyped.provider := name (this st);
             Untyped.maxTokenAllowed := contextWindow;
             Untyped.maxCompletionTokens := Number.min tokens (Number.of_Z 128000) |}.
Proof.
  intros Hrun. unfold Untyped.normalize, mbind, lift, ret, read in Hrun.
  destruct (Runtime.get "name" m) as [name0|e|]; try discriminate.
  destruct name0 as [| | b | x | s | xs | props]; try discriminate.
  cbn [Runtime.replace] in Hrun.
  destruct (Runtime.get "inputTokenLimit" m) as [inputLimit|e|]; try discriminate.
  destruct (Runtime.get "outputTokenLimit" m) as [outputLimit|e|]; try discriminate.
  destruct (ToNumber (Runtime.or outputLimit (Runtime.Num (Number.of_Z 8192))))
    as [tokens|] eqn:Htokens; [| discriminate].
  cbn [Runtime.coerced] in Hrun.
  destruct (Runtime.get "displayName" m) as [displayName|e|]; try discriminate.
  destruct (ToString displayName) as [shown|] eqn:Hshown; [| discriminate].
  cbn [Runtime.coerced] in Hrun.
  exists s, inputLimit, outputLimit, tokens, shown.
  cbv zeta.
  destruct (str_includes (str_replace "models/" "" s) "gemini-1.5-flash"),
           (str_includes (str_replace "models/" "" s) "gemini-1.5-pro");
    match type of Hrun with
    | context [Runtime.coerced (ToNumber ?v)] =>
        destruct (ToNumber v) as [window|] eqn:Hwindow; [| discriminate]
    end;
    cbn [Runtime.coerced fst] in Hrun; injection Hrun as <-;
    (exists window; split; [reflexivity|]; split; [reflexivity|]; split; [reflexivity|];
     split; [exact Htokens|]; split; [exists displayName; split; [reflexivity | exact Hshown]|];
     split; [first [exact Hwindow | reflexivity] | reflexivity]).
Qed.

(** The shape check of lines 65-73 on an untyped body. *)
Lemma untyped_valid_body_total (body : Runtime.value) :
  exists valid, Untyped.valid_body body = Returns valid.
Proof.
  unfold Untyped.valid_body.
  destruct body as [| | b | x | s | xs | props]; simpl; eauto.
  - destruct b; simpl; eauto.
  - destruct (Number.truthy x); simpl; eauto.
  - destruct (negb (String.eqb s "")); simpl; eauto.
  - destruct (Runtime.lookup_prop "models" props) as [models|]; simpl; eauto.
    destruct (Runtime.truthy models); simpl; eauto.
Qed.

Lemma untyped_valid_body_array (body : Runtime.value) :
  Untyped.valid_body body = Returns true <->
  exists props models,
    body = Runtime.Obj props
    /\ Runtime.lookup_prop "models" props = Some (Runtime.Arr models).
Proof.
  split.
  - unfold Untyped.valid_body.
    destruct body as [| | b | x | s | xs | props]; simpl; try discriminate.
    + destruct b; discriminate.
    + destruct (Number.truthy x); discriminate.
    + destruct (negb (String.eqb s "")); discriminate.
    + destruct (Runtime.lookup_prop "models" props) as [models|] eqn:Hmodels;
        simpl; [| discriminate].
      destruct (Runtime.truthy models); simpl; [| discriminate].
      destruct models; simpl; try discriminate.
      intros _. eauto.
  - intros (props & models & -> & Hmodels).
    unfold Untyped.valid_body. simpl. rewrite Hmodels. reflexivity.
Qed.

(** The callback of [filter] on an entry it can look at, and on one without
    a name. *)
Lemma untyped_keep_named (entry : Runtime.value) (st : state) :
  Spec.named entry = true -> exists kept, keep entry st = (Returns kept, st).
Proof.
  destruct entry as [| | b | x | s | xs | props]; try discriminate.
  unfold Spec.named, Spec.property, Untyped.keep, mbind, lift, ret. cbn [Runtime.get].
  destruct (default Runtime.Undefined (Runtime.lookup_prop "name" props))
    as [| | b | x | s | xs | props']; try discriminate.
  set (limit := default Runtime.Undefined (Runtime.lookup_prop "outputTokenLimit" props)).
  intros Hlimit.
  assert (Hnumber : exists n,
             ToNumber (Runtime.or limit (Runtime.Num (Number.of_Z 0))) = Some n).
  { unfold Runtime.or. destruct (Runtime.truthy limit); [| simpl; eauto].
    destruct limit; try discriminate; simpl; eauto. }
  destruct Hnumber as [n ->]. cbn [Runtime.coerced Runtime.includes].
  destruct (negb (str_includes s "exp")); simpl; eauto.
Qed.

Lemma untyped_keep_nameless (entry : Runtime.value) (st : state) :
  Spec.nameless entry = true -> keep entry st = (Throws TypeError, st).
Proof.
  unfold Untyped.keep, mbind, lift, ret.
  destruct entry as [| | b | x | s | xs | props]; try reflexivity.
  unfold Spec.nameless. cbn [Runtime.get].
  destruct (Runtime.lookup_prop "name" props) as [named|]; [discriminate|].
  intros _.
  destruct (ToNumber _) as [n|]; reflexivity.
Qed.

End UntypedCallbacks.

(** ** [getDynamicModels] on untyped entries *)

Section UntypedListing.

Import JS(outcome, Returns, Throws, Unmodelled, exn, TypeError, SyntaxError, Error,
          ThrownString, str_includes, str_replace, string_of_Z).
Import GoogleProvider.
Local Open Scope method_scope.

Variable StringToNumber : string -> Number.t.
Variable NumberToString : Number.t -> string.
Variable floor_of_quotient : Number.t -> Z -> Number.t.

Context {IProviderSetting : Type}.
Variable getProviderBaseUrlAndKey :
  t -> BaseProvider.options IProviderSetting -> BaseProvider.result.
Variable fetch : string -> list (string * string) -> outcome Untyped.Response.

Variable apiKeys : option (gmap string string).
Variable settings : option IProviderSetting.
Variable serverEnv : option (gmap string string).

Local Abbreviation ToNumber := (Runtime.ToNumber StringToNumber NumberToString).
Local Abbreviation ToString := (Runtime.ToString NumberToString).
Local Abbreviation keep := (Untyped.keep StringToNumber NumberToString).
Local Abbreviation normalize :=
  (Untyped.normalize StringToNumber NumberToString floor_of_quotient).
Local Abbreviation context_text := (Untyped.context_text NumberToString floor_of_quotient).
Local Abbreviation run :=
  (Untyped.getDynamicModels StringToNumber NumberToString floor_of_quotient
     IProviderSetting getProviderBaseUrlAndKey fetch apiKeys settings serverEnv).
Local Abbreviation key_of st :=
  (resolved_key getProviderBaseUrlAndKey (this st) apiKeys settings serverEnv).
Local Abbreviation url_of k := (MODELS_ENDPOINT serverEnv k).

Lemma untyped_no_key (st : state) :
  key_of st = None ->
  run st = (Throws (ThrownString
              ("Missing Api Key configuration for " ++ name (this st) ++ " provider")), st).
Proof.
  unfold resolved_key. intros Hkey.
  unfold Untyped.getDynamicModels, mbind at 1, read. rewrite Hkey. reflexivity.
Qed.

Lemma untyped_key (st : state) (k : string) :
  key_of st = Some k ->
  run st =
  (response <- lift (fetch (url_of k) listing_headers);;
   if negb (Untyped.ok response) then
     throw (Error ("Failed to fetch models from Google API: "
                   ++ string_of_Z (Untyped.status response) ++ " "
                   ++ Untyped.statusText response))
   else
     body <- lift (Untyped.await_json response);;
     valid <- lift (Untyped.valid_body body);;
     if negb valid then throw (Error "Invalid response format from Google API")
     else
       models <- lift (Runtime.get "models" body);;
       data <- filterM keep (Runtime.elements models);;
       mapM normalize data) (sent (url_of k) listing_headers st).
Proof.
  unfold resolved_key. intros Hkey.
  unfold Untyped.getDynamicModels, mbind at 1, read. rewrite Hkey. reflexivity.
Qed.

Lemma untyped_listing (st : state) (k : string) (response : Untyped.Response)
    (props : list (string * Runtime.value)) (models : list Runtime.value) :
  key_of st = Some k ->
  fetch (url_of k) listing_headers = Returns response ->
  Untyped.ok response = true ->
  Untyped.json response = Some (Runtime.Obj props) ->
  Runtime.lookup_prop "models" props = Some (Runtime.Arr models) ->
  run st =
  (data <- filterM keep models;; mapM normalize data) (sent (url_of k) listing_headers st).
Proof.
  intros Hkey Hfetch Hok Hjson Hmodels.
  rewrite (untyped_key st k Hkey).
  unfold mbind at 1, lift at 1. rewrite Hfetch, Hok. cbn [negb].
  unfold mbind at 1, lift at 1, Untyped.await_json. rewrite Hjson.
  assert (Hvalid : Untyped.valid_body (Runtime.Obj props) = Returns true).
  { apply untyped_valid_body_array. exists props, models. split; [reflexivity | assumption]. }
  unfold mbind at 1, lift at 1. rewrite Hvalid. cbn [negb].
  unfold mbind at 1, lift at 1. cbn [Runtime.get]. rewrite Hmodels. reflexivity.
Qed.

(** A returned list has gone through every check of the method. *)
Lemma untyped_returns_inv (st : state) (infos : list Untyped.ModelInfo) :
  fst (run st) = Returns infos ->
  exists k response props models,
    key_of st = Some k
    /\ fetch (url_of k) listing_headers = Returns response
    /\ Untyped.ok response = true
    /\ Untyped.json response = Some (Runtime.Obj props)
    /\ Runtime.lookup_prop "models" props = Some (Runtime.Arr models)
    /\ fst ((data <- filterM keep models;; mapM normalize data)
              (sent (url_of k) listing_headers st)) = Returns infos.
Proof.
  destruct (key_of st) as [k|] eqn:Hkey.
  2:{ rewrite (untyped_no_key st Hkey). discriminate. }
  rewrite (untyped_key st k Hkey).
  unfold mbind at 1, lift at 1.
  destruct (fetch (url_of k) listing_headers) as [response|e|] eqn:Hfetch;
    try discriminate.
  destruct (Untyped.ok response) eqn:Hok; [| discriminate]. cbn [negb].
  unfold mbind at 1, lift at 1, Untyped.await_json.
  destruct (Untyped.json response) as [body|] eqn:Hjson; [| discriminate].
  unfold mbind at 1, lift at 1.
  destruct (Untyped.valid_body body) as [[|]|e|] eqn:Hvalid; try discriminate. cbn [negb].
  apply untyped_valid_body_array in Hvalid as (props & models & -> & Hmodels).
  unfold mbind at 1, lift at 1. cbn [Runtime.get]. rewrite Hmodels.
  cbn [default Runtime.elements]. unfold id.
  intros Hrun. exists k, response, props, models. repeat split; assumption.
Qed.

(** The two halves of a successful listing. *)
Lemma untyped_listing_returns (models : list Runtime.value)
    (infos : list Untyped.ModelInfo) (st1 : state) :
  fst ((data <- filterM keep models;; mapM normalize data) st1) = Returns infos ->
  exists data,
    sublist data models
    /\ Forall (fun entry => fst (keep entry st1) = Returns true) data
    /\ Forall2 (fun entry info => fst (normalize entry st1) = Returns info) data infos.
Proof.
  pose proof (reads_only_untyped_keep StringToNumber NumberToString) as Hkeep.
  pose proof (reads_only_untyped_normalize StringToNumber NumberToString floor_of_quotient)
    as Hnormalize.
  unfold mbind.
  destruct (reads_only_filterM keep models Hkeep st1) as [Hst _].
  destruct (filterM keep models st1) as [[data|e|] st2] eqn:Efilter;
    simpl in Hst; subst st2; try discriminate.
  intros Hmap. exists data.
  assert (Hfst : fst (filterM keep models st1) = Returns data) by (rewrite Efilter; reflexivity).
  split; [| split].
  - exact (filterM_sublist keep models data st1 Hkeep Hfst).
  - exact (filterM_kept keep models data st1 Hkeep Hfst).
  - exact (mapM_paired normalize data infos st1 Hnormalize Hmap).
Qed.

(** C10.  Every [ModelInfo] in the list returned by [getDynamicModels]
    satisfies [8000 < maxCompletionTokens] and
    [maxCompletionTokens <= 128000], and has provider equal to ['Google'];
    this whatever the entries of the listing hold, the runtime's coercions
    of their limits included. *)
Theorem getDynamicModels_bounds (st : state) (infos : list Untyped.ModelInfo) :
  name (this st) = "Google" ->
  fst (run st) = Returns infos ->
  Forall (fun info =>
            Spec.above_and_at_most 8000 128000 (Untyped.maxCompletionTokens info)
            /\ Untyped.provider info = "Google") infos.
Proof.
  intros Hname Hrun.
  destruct (untyped_returns_inv st infos Hrun)
    as (k & response & props & models & _ & _ & _ & _ & _ & Hlisting).
  set (st1 := sent (url_of k) listing_headers st) in *.
  destruct (untyped_listing_returns models infos st1 Hlisting) as (data & _ & Hkept & Hpaired).
  clear Hlisting Hrun.
  induction Hpaired as [|entry info data' infos' Hinfo _ IH]; [constructor|].
  inversion Hkept as [|? ? Hentry Hrest]; subst.
  constructor; [| apply IH; exact Hrest].
  destruct (untyped_keep_true _ _ entry st1 Hentry)
    as (limit & x & name1 & Hlimit & Htruthy & Hx & Hgt & _).
  destruct (untyped_normalize_returns _ _ _ entry st1 info Hinfo)
    as (s & inputLimit & outputLimit & tokens & shown & window
        & _ & _ & Hlimit' & Htokens & _ & _ & ->).
  assert (outputLimit = limit) by congruence. subst outputLimit.
  unfold Runtime.or in Htokens. rewrite Htruthy in Htokens.
  assert (tokens = x) by congruence. subst tokens.
  cbn [Untyped.maxCompletionTokens Untyped.provider]. split.
  - apply min_above; [lia | exact Hgt].
  - exact Hname.
Qed.

(** The embedding follows every coercion: nothing but the network can make
    a run leave it. *)
Lemma untyped_filterM_modelled (models : list Runtime.value) (st1 : state) :
  fst (filterM keep models st1) <> Unmodelled.
Proof.
  induction models as [|entry rest IH]; [discriminate|].
  simpl. unfold mbind at 1.
  destruct (reads_only_untyped_keep StringToNumber NumberToString entry st1) as [Hst _].
  pose proof (untyped_keep_modelled StringToNumber NumberToString entry st1) as Hkeep.
  destruct (keep entry st1) as [[kept|e|] st2]; simpl in Hst; subst st2;
    [| discriminate | destruct (Hkeep eq_refl)].
  unfold mbind at 1.
  destruct (filterM keep rest st1) as [[data|e|] st2];
    [discriminate | discriminate | destruct (IH eq_refl)].
Qed.

Lemma untyped_mapM_modelled (data : list Runtime.value) (st1 : state) :
  fst (mapM normalize data st1) <> Unmodelled.
Proof.
  induction data as [|entry rest IH]; [discriminate|].
  simpl. unfold mbind at 1.
  destruct (reads_only_untyped_normalize StringToNumber NumberToString floor_of_quotient
              entry st1) as [Hst _].
  pose proof (untyped_normalize_modelled StringToNumber NumberToString floor_of_quotient
                entry st1) as Hnormalize.
  destruct (normalize entry st1) as [[info|e|] st2]; simpl in Hst; subst st2;
    [| discriminate | destruct (Hnormalize eq_refl)].
  unfold mbind at 1.
  destruct (mapM normalize rest st1) as [[infos|e|] st2];
    [discriminate | discriminate | destruct (IH eq_refl)].
Qed.

Lemma untyped_getDynamicModels_modelled (st : state) :
  fst (run st) = Unmodelled ->
  exists k, key_of st = Some k /\ fetch (url_of k) listing_headers = Unmodelled.
Proof.
  destruct (key_of st) as [k|] eqn:Hkey.
  2:{ rewrite (untyped_no_key st Hkey). discriminate. }
  rewrite (untyped_key st k Hkey). intros Hrun. exists k. split; [reflexivity|].
  revert Hrun. unfold mbind at 1, lift at 1.
  destruct (fetch (url_of k) listing_headers) as [response|e|]; [| discriminate | reflexivity].
  destruct (Untyped.ok response); [| discriminate]. cbn [negb].
  unfold mbind at 1, lift at 1, Untyped.await_json.
  destruct (Untyped.json response) as [body|]; [| discriminate].
  unfold mbind at 1, lift at 1.
  destruct (untyped_valid_body_total body) as [valid ->].
  destruct valid; [| discriminate]. cbn [negb].
  unfold mbind at 1, lift at 1.
  destruct (Runtime.get "models" body) as [models|e|] eqn:Hmodels;
    [| discriminate | destruct (untyped_get_modelled _ _ Hmodels)].
  set (st1 := sent (url_of k) listing_headers st).
  unfold mbind.
  pose proof (untyped_filterM_modelled (Runtime.elements models) st1) as Hfilter.
  destruct (filterM keep (Runtime.elements models) st1) as [[data|e|] st2];
    [| discriminate | destruct (Hfilter eq_refl)].
  intros Hmap. destruct (untyped_mapM_modelled data st2 Hmap).
Qed.

(** X5.  One entry without a name spoils the whole listing, whatever its
    output limit: when each entry before it is an object with a string name
    (and a limit that is no array or object) and it is anything but an
    object with a [name] property, the call throws a [TypeError], whatever
    follows it; no partial list comes back. *)
Theorem getDynamicModels_entry_without_name (st : state) (k : string)
    (response : Untyped.Response) (props : list (string * Runtime.value))
    (before after : list Runtime.value) (bad : Runtime.value) :
  key_of st = Some k ->
  fetch (url_of k) listing_headers = Returns response ->
  Untyped.ok response = true ->
  Untyped.json response = Some (Runtime.Obj props) ->
  Runtime.lookup_prop "models" props = Some (Runtime.Arr (before ++ bad :: after)) ->
  Forall (fun entry => Spec.named entry = true) before ->
  Spec.nameless bad = true ->
  fst (run st) = Throws TypeError.
Proof.
  intros Hkey Hfetch Hok Hjson Hmodels Hbefore Hbad.
  rewrite (untyped_listing st k response props _ Hkey Hfetch Hok Hjson Hmodels).
  set (st1 := sent (url_of k) listing_headers st).
  unfold mbind.
  rewrite (filterM_throws keep
             (fun entry => match fst (keep entry st1) with
                           | Returns kept => kept
                           | _ => false
                           end) before after bad TypeError).
  - reflexivity.
  - eapply List.Forall_impl; [| exact Hbefore].
    intros entry Hentry.
    destruct (untyped_keep_named StringToNumber NumberToString entry st1 Hentry)
      as [kept ->].
    reflexivity.
  - apply untyped_keep_nameless. exact Hbad.
Qed.

(** X6.  Every model [getDynamicModels] returns comes from a listed entry,
    in the order of the listing; that entry has a string name that either
    does not contain ['exp'] or contains ['flash-exp'], and an
    [outputTokenLimit] that the runtime reads as a number above 8000, be it
    written as a number, as a string or inside an array; the returned name
    is that name without its first ['models/'] and the returned
    maxCompletionTokens is that number, capped at 128000. *)
Theorem getDynamicModels_results_from_entries (st : state) (k : string)
    (response : Untyped.Response) (props : list (string * Runtime.value))
    (models : list Runtime.value) (infos : list Untyped.ModelInfo) :
  key_of st = Some k ->
  fetch (url_of k) listing_headers = Returns response ->
  Untyped.json response = Some (Runtime.Obj props) ->
  Runtime.lookup_prop "models" props = Some (Runtime.Arr models) ->
  fst (run st) = Returns infos ->
  exists kept,
    sublist kept models
    /\ Forall2
         (fun entry info =>
            exists s x,
              Spec.property "name" entry = Runtime.Str s
              /\ ToNumber (Spec.property "outputTokenLimit" entry) = Some x
              /\ Number.gt x (Number.of_Z 8000) = true
              /\ (str_includes s "exp" = false \/ str_includes s "flash-exp" = true)
              /\ Untyped.name info = str_replace "models/" "" s
              /\ Untyped.maxCompletionTokens info = Number.min x (Number.of_Z 128000))
         kept infos.
Proof.
  intros Hkey Hfetch Hjson Hmodels Hrun.
  destruct (untyped_returns_inv st infos Hrun)
    as (k' & response' & props' & models' & Hkey' & Hfetch' & _ & Hjson' & Hmodels' & Hlisting).
  assert (k' = k) by congruence. subst k'.
  assert (response' = response) by congruence. subst response'.
  assert (props' = props) by congruence. subst props'.
  assert (models' = models) by congruence. subst models'.
  set (st1 := sent (url_of k) listing_headers st) in *.
  destruct (untyped_listing_returns models infos st1 Hlisting)
    as (data & Hsub & Hkept & Hpaired).
  exists data. split; [exact Hsub|].
  clear Hsub Hlisting Hrun.
  induction Hpaired as [|entry info data' infos' Hinfo _ IH]; [constructor|].
  inversion Hkept as [|? ? Hentry Hrest]; subst.
  constructor; [| apply IH; exact Hrest].
  destruct (untyped_keep_true _ _ entry st1 Hentry)
    as (limit & x & name1 & Hlimit & Htruthy & Hx & Hgt & Hname1 & Hstable).
  destruct (untyped_normalize_returns _ _ _ entry st1 info Hinfo)
    as (s & inputLimit & outputLimit & tokens & shown & window
        & Hname & _ & Hlimit' & Htokens & _ & _ & ->).
  assert (outputLimit = limit) by congruence. subst outputLimit.
  assert (name1 = Runtime.Str s) by congruence. subst name1.
  unfold Runtime.or in Htokens. rewrite Htruthy in Htokens.
  assert (tokens = x) by congruence. subst tokens.
  exists s, x. repeat split.
  - apply (property_get _ _ _ Hname).
  - rewrite (property_get _ _ _ Hlimit). exact Hx.
  - exact Hgt.
  - simpl in Hstable. destruct Hstable as [H | H]; [left | right]; congruence.
Qed.


End UntypedListing.

(** ** The two embeddings on well-formed listings *)

Section Agreement.

Import JS(outcome, Returns, Throws, Unmodelled, exn, TypeError, SyntaxError, Error,
          ThrownString, str_includes, str_replace, string_of_Z, safe_integer).
Import GoogleProvider.
Local Open Scope method_scope.

Variable StringToNumber : string -> Number.t.
Variable NumberToString : Number.t -> string.
Variable floor_of_quotient : Number.t -> Z -> Number.t.

(** On the integers below 2^53 the runtime prints in decimal and its
    division, floored, is the integer quotient. *)
Hypothesis NumberToString_integer :
  forall n, safe_integer n = true -> NumberToString (Number.of_Z n) = string_of_Z n.
Hypothesis floor_of_quotient_integer :
  forall n c, safe_integer n = true -> c = 1000 \/ c = 1000000 ->
    floor_of_quotient (Number.of_Z n) c = Number.of_Z (n / c).

Local Abbreviation ToNumber := (Runtime.ToNumber StringToNumber NumberToString).
Local Abbreviation ToString := (Runtime.ToString NumberToString).
Local Abbreviation untyped_keep := (Untyped.keep StringToNumber NumberToString).
Local Abbreviation untyped_normalize :=
  (Untyped.normalize StringToNumber NumberToString floor_of_quotient).
Local Abbreviation untyped_context_text :=
  (Untyped.context_text NumberToString floor_of_quotient).

Lemma of_integers_lookup (k : string) (props : list (string * JS.value)) :
  Runtime.lookup_prop k
    (map (fun kv => let '(k', x) := kv in (k', Runtime.of_integers x)) props)
  = option_map Runtime.of_integers (JS.lookup_prop k props).
Proof.
  induction props as [|[k' x] rest IH]; [reflexivity|].
  simpl. destruct (String.eqb k k'); [reflexivity | exact IH].
Qed.

Lemma of_integers_get (k : string) (props : list (string * JS.value)) :
  Runtime.get k (Runtime.of_integers (JS.Obj props))
  = Returns (Runtime.of_integers (Spec.field k (JS.Obj props))).
Proof.
  cbn [Runtime.of_integers Runtime.get Spec.field]. rewrite of_integers_lookup.
  destruct (JS.lookup_prop k props); reflexivity.
Qed.

Lemma of_integers_truthy (v : JS.value) :
  Runtime.truthy (Runtime.of_integers v) = JS.truthy v.
Proof. destruct v; try reflexivity. simpl. apply truthy_of_Z. Qed.

(** A limit the integer embedding computes with, read by the runtime. *)
Lemma of_integers_limit (v : JS.value) (d : Z) :
  Spec.limit_ok v = true ->
  Runtime.or (Runtime.of_integers v) (Runtime.Num (Number.of_Z d))
  = Runtime.Num (Number.of_Z (Spec.limit_or_when_falsy d v)).
Proof.
  intros Hok. unfold Runtime.or. rewrite of_integers_truthy.
  destruct v as [| | b | n | s | xs | props]; simpl in *;
    try reflexivity; try discriminate.
  - destruct b; [discriminate | reflexivity].
  - destruct (n =? 0); reflexivity.
  - destruct (String.eqb s ""); [reflexivity | discriminate].
Qed.

Lemma limit_or_when_falsy_safe (v : JS.value) (d : Z) :
  Spec.limit_ok v = true -> safe_integer d = true ->
  safe_integer (Spec.limit_or_when_falsy d v) = true.
Proof.
  intros Hok Hd. destruct v; simpl in *; try exact Hd.
  destruct (n =? 0); assumption.
Qed.

Lemma safe_integer_quotient (n c : Z) :
  safe_integer n = true -> 0 < c -> safe_integer (n / c) = true.
Proof.
  unfold safe_integer, JS.MAX_SAFE_INTEGER. rewrite !Z.leb_le. intros Hn Hc.
  assert (Hlower : - Z.abs n <= n / c).
  { apply Z.div_le_lower_bound; [exact Hc|]. nia. }
  assert (Hupper : n / c <= Z.abs n).
  { apply Z.div_le_upper_bound; [exact Hc|]. nia. }
  lia.
Qed.

Lemma untyped_context_text_integer (contextWindow : Z) :
  safe_integer contextWindow = true ->
  untyped_context_text (Number.of_Z contextWindow) = Spec.rendered contextWindow.
Proof.
  intros Hsafe. unfold Untyped.context_text, Spec.rendered.
  rewrite ge_of_Z.
  rewrite !floor_of_quotient_integer by (exact Hsafe || (left; reflexivity) || (right; reflexivity)).
  rewrite !NumberToString_integer by (apply safe_integer_quotient; [exact Hsafe | lia]).
  destruct (Z.leb_spec 1000000 contextWindow), (Z_le_dec 1000000 contextWindow);
    (reflexivity || lia).
Qed.

(** On a well-formed entry the callback of [filter] answers the same in
    both embeddings. *)
Lemma untyped_keep_well_formed (entry : JS.value) (st : state) :
  Spec.well_formed entry = true ->
  untyped_keep (Runtime.of_integers entry) st = (Returns (Spec.passes_filter entry), st).
Proof.
  destruct entry as [| | | | | |props]; try discriminate.
  unfold Spec.well_formed. rewrite !andb_true_iff.
  intros [[[Hname _] _] Hout].
  unfold Untyped.keep, mbind, lift, ret. rewrite !of_integers_get.
  rewrite (of_integers_limit _ 0 Hout). cbn [Runtime.ToNumber Runtime.coerced].
  rewrite gt_of_Z.
  unfold Spec.passes_filter.
  assert (Hlimit : (8000 <? Spec.limit_or_when_falsy 0 (Spec.field "outputTokenLimit" (JS.Obj props)))
                   = (8000 <? Spec.limit_or_when_absent 0
                                (Spec.field "outputTokenLimit" (JS.Obj props)))).
  { destruct (Spec.field "outputTokenLimit" (JS.Obj props)); try reflexivity.
    simpl. destruct (Z.eqb_spec n 0) as [->|]; reflexivity. }
  rewrite Hlimit.
  destruct (Spec.field "name" (JS.Obj props)) as [| | | |s| |]; try discriminate.
  simpl. destruct (str_includes s "exp"); reflexivity.
Qed.

(** On a well-formed entry that passes the filter the callback of [map]
    builds the same [ModelInfo] in both embeddings. *)
Lemma untyped_normalize_well_formed (entry : JS.value) (st : state) :
  Spec.well_formed entry = true ->
  Spec.passes_filter entry = true ->
  untyped_normalize (Runtime.of_integers entry) st
  = (Returns (Untyped.of_integer_info (Spec.normalized (name (this st)) entry)), st).
Proof.
  intros Hwf Hkept.
  destruct entry as [| | | | | |props]; try discriminate.
  pose proof (passes_filter_limit _ Hkept) as Hlimit.
  revert Hwf. unfold Spec.well_formed. rewrite !andb_true_iff.
  intros [[[Hname Hshown] Hin] Hout].
  unfold Untyped.normalize, mbind, lift, ret, read. rewrite !of_integers_get.
  rewrite (of_integers_limit _ 32000 Hin), (of_integers_limit _ 8192 Hout).
  pose proof (limit_or_when_falsy_safe _ 32000 Hin eq_refl) as Hsafe.
  unfold Spec.normalized, Untyped.of_integer_info.
  cbn [ModelInfo.name ModelInfo.label ModelInfo.provider ModelInfo.maxTokenAllowed
       ModelInfo.maxCompletionTokens].
  assert (Hout' : Spec.limit_or_when_falsy 8192 (Spec.field "outputTokenLimit" (JS.Obj props))
                  = Spec.limit_or_when_absent 8192
                      (Spec.field "outputTokenLimit" (JS.Obj props))).
  { destruct (Spec.field "outputTokenLimit" (JS.Obj props)); try reflexivity.
    simpl in *. destruct (Z.eqb_spec n 0); [lia | reflexivity]. }
  rewrite Hout'.
  destruct (Spec.field "name" (JS.Obj props)) as [| | | |s| |]; try discriminate.
  destruct (Spec.field "displayName" (JS.Obj props)) as [| | | |shown| |]; try discriminate.
  cbn [Runtime.of_integers Runtime.replace Runtime.ToString Runtime.ToNumber
       Runtime.coerced Spec.text].
  rewrite min_of_Z.
  unfold Spec.overridden.
  destruct (str_includes (str_replace "models/" "" s) "gemini-1.5-flash"),
           (str_includes (str_replace "models/" "" s) "gemini-1.5-pro");
    cbn [Runtime.ToNumber Runtime.coerced];
    rewrite untyped_context_text_integer by (first [exact Hsafe | reflexivity]);
    reflexivity.
Qed.

(** [filter] and [map] over a list that is the image of another, with
    callbacks that only compute. *)
Lemma filterM_map_computes {A B : Type} (f : B -> M bool) (h : A -> B) (g : A -> bool)
    (xs : list A) (st : state) :
  Forall (fun x => f (h x) st = (Returns (g x), st)) xs ->
  filterM f (map h xs) st = (Returns (map h (List.filter g xs)), st).
Proof.
  induction 1 as [|x rest Hx _ IH]; [reflexivity|].
  simpl. unfold mbind at 1. rewrite Hx.
  unfold mbind at 1. rewrite IH. simpl. destruct (g x); reflexivity.
Qed.

Lemma mapM_map_computes {A B C : Type} (f : B -> M C) (h : A -> B) (g : A -> C)
    (xs : list A) (st : state) :
  Forall (fun x => f (h x) st = (Returns (g x), st)) xs ->
  mapM f (map h xs) st = (Returns (map g xs), st).
Proof.
  induction 1 as [|x rest Hx _ IH]; [reflexivity|].
  simpl. unfold mbind at 1. rewrite Hx.
  unfold mbind at 1. rewrite IH. reflexivity.
Qed.

Context {IProviderSetting : Type}.
Variable getProviderBaseUrlAndKey :
  t -> BaseProvider.options IProviderSetting -> BaseProvider.result.
Variable fetch : string -> list (string * string) -> outcome Response.

Variable apiKeys : option (gmap string string).
Variable settings : option IProviderSetting.
Variable serverEnv : option (gmap string string).

Local Abbreviation run :=
  (getDynamicModels IProviderSetting getProviderBaseUrlAndKey fetch
     apiKeys settings serverEnv).
Local Abbreviation untyped_run :=
  (Untyped.getDynamicModels StringToNumber NumberToString floor_of_quotient
     IProviderSetting getProviderBaseUrlAndKey
     (fun url headers =>
        JS.bind (fetch url headers)
          (fun response => Returns (Untyped.of_integer_response response)))
     apiKeys settings serverEnv).
Local Abbreviation key_of st :=
  (resolved_key getProviderBaseUrlAndKey (this st) apiKeys settings serverEnv).

(** X11.  On a listing of well-formed entries the runtime's coercions
    change nothing: the models [getDynamicModels] returns when every
    conversion of the runtime is followed are those computed with the
    limits as integers. *)
Theorem getDynamicModels_embeddings_agree (st : state) (k : string) (response : Response)
    (props : list (string * JS.value)) (models : list JS.value) :
  key_of st = Some k ->
  fetch (MODELS_ENDPOINT serverEnv k) listing_headers = Returns response ->
  ok response = true ->
  json response = Some (JS.Obj props) ->
  JS.lookup_prop "models" props = Some (JS.Arr models) ->
  Forall (fun entry => Spec.well_formed entry = true) models ->
  fst (untyped_run st)
  = JS.bind (fst (run st))
      (fun infos => Returns (map Untyped.of_integer_info infos)).
Proof.
  intros Hkey Hfetch Hok Hjson Hmodels Hwf.
  rewrite (getDynamicModels_well_formed getProviderBaseUrlAndKey fetch apiKeys settings
             serverEnv st k response props models Hkey Hfetch Hok Hjson Hmodels Hwf).
  cbn [JS.bind].
  rewrite (untyped_listing StringToNumber NumberToString floor_of_quotient
             getProviderBaseUrlAndKey _ apiKeys settings serverEnv st k
             (Untyped.of_integer_response response)
             (map (fun kv => let '(k', x) := kv in (k', Runtime.of_integers x)) props)
             (map Runtime.of_integers models) Hkey).
  - set (st1 := sent _ _ st).
    unfold mbind.
    rewrite (filterM_map_computes untyped_keep Runtime.of_integers Spec.passes_filter).
    + rewrite (mapM_map_computes untyped_normalize Runtime.of_integers
                 (fun entry =>
                    Untyped.of_integer_info (Spec.normalized (name (this st)) entry))).
      * cbn [fst]. rewrite map_map. reflexivity.
      * apply List.Forall_forall. intros entry Hin.
        apply filter_In in Hin as [Hin Hkept].
        rewrite List.Forall_forall in Hwf.
        apply (untyped_normalize_well_formed entry st1); [apply Hwf; exact Hin | exact Hkept].
    + eapply List.Forall_impl; [| exact Hwf].
      intros entry Hentry. apply untyped_keep_well_formed. exact Hentry.
  - rewrite Hfetch. reflexivity.
  - exact Hok.
  - unfold Untyped.of_integer_response. cbn [Untyped.json]. rewrite Hjson. reflexivity.
  - rewrite of_integers_lookup, Hmodels. reflexivity.
Qed.

End Agreement.

(** ** The further properties on the sample world *)

Section FurtherRuns.

Import JS GoogleProvider.

Local Abbreviation answered_with response env :=
  (getDynamicModels unit Sample.resolver (Sample.answering response)
     Sample.keys None env Sample.initial).

Local Abbreviation listed_as entries :=
  (Sample.ok_response (Sample.listing entries)).

(** X2 at a 404. *)
Lemma getDynamicModels_request_failure_witness :
  fst (answered_with Sample.not_found None)
  = Throws (Error "Failed to fetch models from Google API: 404 Not Found").
Proof.
  refine (eq_trans
    (proj2 (getDynamicModels_request_failure Sample.resolver
              (Sample.answering Sample.not_found) Sample.keys None None
              Sample.initial "secret" _) Sample.not_found _ _) _).
  - vm_compute. reflexivity.
  - reflexivity.
  - reflexivity.
  - vm_compute. reflexivity.
Defined.

(** X3 at a body that is the bare array of entries. *)
Lemma getDynamicModels_body_shape_witness :
  fst (answered_with (Sample.ok_response (Arr Sample.listed)) None)
  = Throws (Error "Invalid response format from Google API").
Proof.
  refine (proj2 (getDynamicModels_body_shape Sample.resolver
                   (Sample.answering (Sample.ok_response (Arr Sample.listed)))
                   Sample.keys None None Sample.initial "secret"
                   (Sample.ok_response (Arr Sample.listed)) _ _ _)
                (Arr Sample.listed) _ _).
  - vm_compute. reflexivity.
  - reflexivity.
  - reflexivity.
  - reflexivity.
  - intros (props & models & Hbody & _). discriminate Hbody.
Defined.


(** X10 at a base URL with a trailing slash. *)
Lemma getDynamicModels_trailing_slash_witness :
  map req_url (requests (snd (answered_with (listed_as Sample.listed) Sample.slash_base_url)))
  = ["https://proxy.example//v1beta/models?key=secret"].
Proof.
  refine (eq_trans
    (getDynamicModels_trailing_slash Sample.resolver
       (Sample.answering (listed_as Sample.listed)) Sample.keys None
       Sample.slash_base_url Sample.initial "secret" "https://proxy.example" _ _) _).
  - vm_compute. reflexivity.
  - vm_compute. reflexivity.
  - vm_compute. reflexivity.
Defined.

(** X8 at the request with a system instruction, with the reference parser
    and printer. *)
Lemma patched_fetch_twice_witness :
  patched_fetch JSON.parse JSON.stringify
    (patched_fetch JSON.parse JSON.stringify Sample.echo)
    Sample.generate_url
    (Some (Sample.request_with (JSON.stringify Sample.instructed))) []
  = patched_fetch JSON.parse JSON.stringify Sample.echo
      Sample.generate_url
      (Some (Sample.request_with (JSON.stringify Sample.instructed))) [].
Proof.
  refine (proj1 (proj2 (patched_fetch_twice JSON.parse JSON.stringify Sample.echo
                         Sample.generate_url
                         (Sample.request_with (JSON.stringify Sample.instructed))
                         (JSON.stringify Sample.instructed)
                         [("systemInstruction",
                           Obj [("parts", Arr [Obj [("text", Str "Be brief.")]])]);
                          ("contents", Arr [Obj [("role", Str "user")]])]
                         (Obj [("parts", Arr [Obj [("text", Str "Be brief.")]])])
                         [] _ _ _ _ _ _))).
  - reflexivity.
  - vm_compute. reflexivity.
  - vm_compute. reflexivity.
  - reflexivity.
  - reflexivity.
  - vm_compute. reflexivity.
Defined.

End FurtherRuns.

(** ** The listing of untyped entries on the sample world *)

Section UntypedRuns.

Import JS(outcome, Returns, Throws, Unmodelled, exn, TypeError, SyntaxError, Error,
          ThrownString, str_includes, str_replace, string_of_Z, safe_integer).
Import GoogleProvider.

(** [getDynamicModels] against a network that answers with the listing of
    the untyped [entries], called with the sample keys on the sample
    runtime. *)
Local Abbreviation untyped_listing_of entries :=
  (Untyped.getDynamicModels Sample.StringToNumber Sample.NumberToString
     Sample.floor_of_quotient unit Sample.resolver
     (Sample.untyped_answering (Sample.untyped_ok_response (Sample.untyped_listing entries)))
     Sample.keys None None Sample.initial).

Local Abbreviation sample_ToNumber :=
  (Runtime.ToNumber Sample.StringToNumber Sample.NumberToString).

(** C10 at a listing whose limits are strings, an array and a fraction:
    three models come back, each within the bounds. *)
Lemma getDynamicModels_bounds_witness :
  exists infos,
    fst (untyped_listing_of Sample.untyped_listed) = Returns infos
    /\ infos = [
         {| Untyped.name := "gemini-2.0-flash";
            Untyped.label := "Gemini 2.0 Flash (0k context)";
            Untyped.provider := "Google";
            Untyped.maxTokenAllowed := Runtime.Str "0";
            Untyped.maxCompletionTokens := Number.of_Z 9000 |};
         {| Untyped.name := "gemini-pro-vision";
            Untyped.label := "Gemini Pro Vision (12k context)";
            Untyped.provider := "Google";
            Untyped.maxTokenAllowed := Runtime.Num (Number.of_Z 12288);
            Untyped.maxCompletionTokens := Number.of_Z 16384 |};
         {| Untyped.name := "gemini-2.5-pro";
            Untyped.label := "Gemini 2.5 Pro (1M context)";
            Untyped.provider := "Google";
            Untyped.maxTokenAllowed := Runtime.Num (Number.of_Z 1048576);
            Untyped.maxCompletionTokens := Number.of_Z 128000 |} ]
    /\ Forall (fun info =>
                 Spec.above_and_at_most 8000 128000 (Untyped.maxCompletionTokens info)
                 /\ Untyped.provider info = "Google") infos.
Proof.
  eexists. split; [vm_compute; reflexivity|]. split; [reflexivity|].
  apply (getDynamicModels_bounds Sample.StringToNumber Sample.NumberToString
           Sample.floor_of_quotient Sample.resolver
           (Sample.untyped_answering
              (Sample.untyped_ok_response (Sample.untyped_listing Sample.untyped_listed)))
           Sample.keys None None Sample.initial).
  - reflexivity.
  - vm_compute. reflexivity.
Defined.

(** X5 at a listing whose second entry has no name and a string as its
    output limit. *)
Lemma getDynamicModels_entry_without_name_witness :
  fst (untyped_listing_of
         ([Sample.untyped_entry "models/gemini-2.0-flash" "Gemini 2.0 Flash"
             (Runtime.Str "0") (Runtime.Str "9000")]
          ++ Sample.untyped_nameless :: Sample.untyped_family)%list)
  = Throws TypeError.
Proof.
  refine (getDynamicModels_entry_without_name Sample.StringToNumber Sample.NumberToString
            Sample.floor_of_quotient Sample.resolver
            (Sample.untyped_answering _) Sample.keys None None Sample.initial "secret"
            (Sample.untyped_ok_response _) _
            [Sample.untyped_entry "models/gemini-2.0-flash" "Gemini 2.0 Flash"
               (Runtime.Str "0") (Runtime.Str "9000")]
            Sample.untyped_family Sample.untyped_nameless _ _ _ _ _ _ _).
  - vm_compute. reflexivity.
  - reflexivity.
  - reflexivity.
  - reflexivity.
  - reflexivity.
  - repeat constructor.
  - reflexivity.
Defined.

(** X6 at the same listing as C10. *)
Lemma getDynamicModels_results_from_entries_witness :
  exists kept infos,
    fst (untyped_listing_of Sample.untyped_listed) = Returns infos
    /\ length infos = 3%nat
    /\ sublist kept Sample.untyped_listed
    /\ Forall2
         (fun entry info =>
            exists s x,
              Spec.property "name" entry = Runtime.Str s
              /\ sample_ToNumber (Spec.property "outputTokenLimit" entry) = Some x
              /\ Number.gt x (Number.of_Z 8000) = true
              /\ (str_includes s "exp" = false \/ str_includes s "flash-exp" = true)
              /\ Untyped.name info = str_replace "models/" "" s
              /\ Untyped.maxCompletionTokens info = Number.min x (Number.of_Z 128000))
         kept infos.
Proof.
  assert (Hrun : exists infos,
             fst (untyped_listing_of Sample.untyped_listed) = Returns infos
             /\ length infos = 3%nat).
  { eexists. split; [vm_compute; reflexivity | reflexivity]. }
  destruct Hrun as (infos & Hrun & Hlength).
  destruct (getDynamicModels_results_from_entries Sample.StringToNumber
              Sample.NumberToString Sample.floor_of_quotient Sample.resolver
              (Sample.untyped_answering
                 (Sample.untyped_ok_response (Sample.untyped_listing Sample.untyped_listed)))
              Sample.keys None None Sample.initial "secret"
              (Sample.untyped_ok_response (Sample.untyped_listing Sample.untyped_listed))
              [("models", Runtime.Arr Sample.untyped_listed)] Sample.untyped_listed infos)
    as (kept & Hsub & Hkept).
  - vm_compute. reflexivity.
  - reflexivity.
  - reflexivity.
  - reflexivity.
  - exact Hrun.
  - exists kept, infos. repeat split; assumption.
Defined.


(** X11 at the sample listing: both embeddings return the two models. *)
Lemma getDynamicModels_embeddings_agree_witness :
  fst (Untyped.getDynamicModels Sample.StringToNumber Sample.NumberToString
         Sample.floor_of_quotient unit Sample.resolver
         (fun url headers =>
            JS.bind (Sample.answering (Sample.ok_response (Sample.listing Sample.listed))
                       url headers)
              (fun response => Returns (Untyped.of_integer_response response)))
         Sample.keys None None Sample.initial)
  = Returns [
      {| Untyped.name := "gemini-2.0-flash-exp";
         Untyped.label := "Gemini 2.0 Flash Experimental (1M context)";
         Untyped.provider := "Google";
         Untyped.maxTokenAllowed := Runtime.Num (Number.of_Z 1048576);
         Untyped.maxCompletionTokens := Number.of_Z 8192 |};
      {| Untyped.name := "gemini-1.5-pro";
         Untyped.label := "Gemini 1.5 Pro (2M context)";
         Untyped.provider := "Google";
         Untyped.maxTokenAllowed := Runtime.Num (Number.of_Z 2000000);
         Untyped.maxCompletionTokens := Number.of_Z 8192 |} ].
Proof.
  refine (eq_trans
    (getDynamicModels_embeddings_agree Sample.StringToNumber Sample.NumberToString
       Sample.floor_of_quotient _ _ Sample.resolver
       (Sample.answering (Sample.ok_response (Sample.listing Sample.listed)))
       Sample.keys None None Sample.initial "secret"
       (Sample.ok_response (Sample.listing Sample.listed))
       [("models", JS.Arr Sample.listed)] Sample.listed _ _ _ _ _ _) _).
  - intros n _. unfold Sample.NumberToString, Number.of_Z.
    rewrite Qfloor_Z. reflexivity.
  - intros n c _ [-> | ->];
      unfold Sample.floor_of_quotient, Number.of_Z, Qfloor, Qdiv, Qmult, Qinv;
      simpl; rewrite Z.mul_1_r; reflexivity.
  - vm_compute. reflexivity.
  - reflexivity.
  - reflexivity.
  - reflexivity.
  - reflexivity.
  - repeat constructor.
  - vm_compute. reflexivity.
Defined.

End UntypedRuns.
